(** * The OpenCL tracer controller of polaris (tracer/opencl/cl_tracer.go)

    A shallow embedding of [clTracer] and of its operations [newTracer],
    [Setup], [Enqueue], [SyncScene], [Close], [cleanup], [process],
    [syncScene] and [setupKernel], followed by the properties of the
    controller that its specification states and by further properties of
    these operations: the calls of a rendering, the errors of [Setup], what
    a failed [Setup] leaves behind, and the invariants of the controller.

    The OpenCL binding, the file system, the [scene] and [tracer] packages
    are outside the file: every call into them is recorded in a trace
    together with the answer it got, and the answers come from a [driver]
    that may depend on everything that happened before. *)

From Stdlib Require Import ZArith List Lia Ascii String.
From stdpp Require Import base option list gmap.

Local Open Scope Z_scope.

(** ** Machine integers *)

(** Go's [uint32] and [uint64] arithmetic wraps around. *)
Definition wrap32 (z : Z) : Z := z mod 2 ^ 32.
Definition wrap64 (z : Z) : Z := z mod 2 ^ 64.
Definition mul32 (a b : Z) : Z := wrap32 (a * b).
Definition mul64 (a b : Z) : Z := wrap64 (a * b).
Definition sub64 (a b : Z) : Z := wrap64 (a - b).

(** A [float32] is only ever copied by the controller: it is kept as its
    32-bit pattern. *)
Definition float32 := Z.
Definition Vec4 := (float32 * float32 * float32 * float32)%type.

Definition vec4_words (v : Vec4) : list float32 :=
  let '(x, y, z, w) := v in [x; y; z; w].

(** ** The OpenCL binding (package cl) *)

Module cl.
(** Values of the OpenCL 1.2 headers. *)
Definition SUCCESS : Z := 0.
Definition TRUE : Z := 1.
Definition MEM_WRITE_ONLY : Z := Z.shiftl 1 1.
Definition MEM_READ_ONLY : Z := Z.shiftl 1 2.
Definition MEM_COPY_HOST_PTR : Z := Z.shiftl 1 5.
Definition PROGRAM_BUILD_LOG : Z := 0x1183.
Definition MEM_OBJECT_IMAGE1D : Z := 0x10F4.
Definition RGBA : Z := 0x10B5.
Definition FLOAT : Z := 0x10DE.

Record ImageFormat := { ChannelOrder : Z; ChannelType : Z }.
Record ImageDesc := { ImageType : Z; ImageWidth : Z; ImageRowPitch : Z }.
End cl.

(** A device object is a non-nil pointer; a nilable field or result is an
    [option handle]. *)
Definition handle := Z.

(** ** Errors of the package *)

Inductive error :=
| ErrContextCreationFailed
| ErrCmdQueueCreationFailed
| ErrAlreadyAttached
| ErrPendingSetup
| ErrProgramCreationFailed
| ErrProgramBuildFailed
| ErrKernelCreationFailed
| ErrAllocatingBuffers
| ErrCopyingDataToDevice
| ErrSettingKernelArguments
| ErrKernelExecutionFailed
| ErrCopyingDataToHost
| ErrForeign (msg : string).
(* [ErrForeign]: an error of [os.Open], [ioutil.ReadAll] or [packScene]. *)

Global Instance error_eq_dec : EqDecision error.
Proof. solve_decision. Defined.

(** ** The scene and the block request (packages scene and tracer) *)

Record Camera := {
  Position : Vec4;
  Frustrum : Vec4 * Vec4 * Vec4 * Vec4
}.

Definition frustrum_words (c : Camera) : list float32 :=
  let '(a, b, c, d) := Frustrum c in
  vec4_words a ++ vec4_words b ++ vec4_words c ++ vec4_words d.

Record Primitive := { primData : list float32 }.

Record Scene := {
  SceneCamera : Camera;
  Primitives : list Primitive
}.

(** One packed record of [packScene]: its numeric fields. *)
Definition packedRecord := list float32.

(** A Go slice handed in by the caller is a reference: [RenderTarget] names
    a cell of the host memory of the [system] below. *)
Record BlockRequest := {
  BlockY : Z;
  BlockH : Z;
  SamplesPerPixel : Z;
  Exposure : float32;
  Seed : Z;
  RenderTarget : nat;
  DoneChan : nat;
  ErrChan : nat
}.

Record Device := {
  DeviceId : Z;
  Name : string
}.

(** ** Calls that leave the file, and their answers *)

Inductive argval :=
| ArgMem (h : option handle)
| ArgInt (z : Z)
| ArgFloat (f : float32)
| ArgVec (v : Vec4).

Inductive hostdata :=
| HostMaterials (l : list packedRecord)
| HostPrimitives (l : list packedRecord).

Inductive call :=
| OsOpen (path : string)
| IoReadAll
| PackScene
| CreateContext (dev : Z)
| CreateCommandQueue (c : handle) (dev : Z)
| CreateProgramWithSource (c : handle) (src : string)
| BuildProgram (p : option handle) (dev : Z)
| GetProgramBuildInfo (p : option handle) (dev : Z) (param size : Z)
| CreateKernel (p : option handle) (name : string)
| CreateBuffer (c : handle) (flags size : Z)
| CreateImage (c : handle) (flags : Z) (fmt : cl.ImageFormat)
    (desc : cl.ImageDesc) (host : hostdata)
| EnqueueWriteBuffer (q buf : option handle) (blocking offset size : Z)
    (data : list float32)
| SetKernelArg (k : option handle) (index size : Z) (v : argval)
| EnqueueNDRangeKernel (q k : option handle) (dim : Z) (offset size : list Z)
| Finish (q : option handle)
| EnqueueReadBuffer (q buf : option handle) (blocking offset size : Z)
    (target : nat) (index : Z)
| ReleaseMemObject (h : handle)
| ReleaseKernel (h : handle)
| ReleaseProgram (h : handle)
| ReleaseCommandQueue (h : handle)
| ReleaseContext (h : handle).

Inductive response :=
| RHandle (h : option handle)
| RCode (c : Z)
| RBuildInfo (written : list Z) (dataLen : Z)
| RStatus (e : option error)
| RFile (r : error + string)
| RPacked (r : error + list packedRecord * list packedRecord).

Inductive logline :=
| LogFrustrumWriteFailed
| LogKernelArgFailed (index : Z)
| LogBuildError (text : list Z)
| LogCopyToHostFailed (blockY blockH readOffset bytes code : Z).

Inductive event :=
| Called (c : call) (r : response)
| Logged (l : logline)
| ClosedCloseChan
| WaitedForWorkers
| Sent (chan : nat) (v : Z + error).

(** The world outside the file.  Every answer may depend on the whole
    history; [drv_mem] is the content of a device buffer, one [float32] per
    four bytes; [drv_overrun] is what the callers' slices hold after the
    device has written past the end of one of them. *)
Record driver := {
  drv_handle : list event -> call -> option handle;
  drv_code : list event -> call -> Z;
  drv_buildlog : list event -> list Z * Z;
  drv_open : list event -> option error;
  drv_read : list event -> error + string;
  drv_pack : list event -> option Scene ->
             error + list packedRecord * list packedRecord;
  drv_mem : list event -> option handle -> Z -> float32;
  drv_overrun : list event -> gmap nat (list float32) -> gmap nat (list float32)
}.

(** ** The controller *)

Record clTracer := {
  mu : bool;                          (* sync.Mutex: held or free *)
  wg : nat;                           (* sync.WaitGroup counter *)
  id : string;
  device : Device;
  ctx : option handle;
  cmdQueue : option handle;
  traceProgram : option handle;
  traceKernel : option handle;
  traceOutput : option handle;
  frustrumCorners : option handle;
  packedMaterials : option handle;
  packedPrimitives : option handle;
  scene : option Scene;
  frameW : Z;
  frameH : Z;
  closeChan : bool                    (* true once the channel is closed *)
}.

(** Assignment to one field. *)
Definition set_mu v (t : clTracer) : clTracer :=
  {| mu := v; wg := wg t; id := id t; device := device t; ctx := ctx t;
     cmdQueue := cmdQueue t; traceProgram := traceProgram t;
     traceKernel := traceKernel t; traceOutput := traceOutput t;
     frustrumCorners := frustrumCorners t;
     packedMaterials := packedMaterials t;
     packedPrimitives := packedPrimitives t; scene := scene t;
     frameW := frameW t; frameH := frameH t; closeChan := closeChan t |}.
Definition set_wg v (t : clTracer) : clTracer :=
  {| mu := mu t; wg := v; id := id t; device := device t; ctx := ctx t;
     cmdQueue := cmdQueue t; traceProgram := traceProgram t;
     traceKernel := traceKernel t; traceOutput := traceOutput t;
     frustrumCorners := frustrumCorners t;
     packedMaterials := packedMaterials t;
     packedPrimitives := packedPrimitives t; scene := scene t;
     frameW := frameW t; frameH := frameH t; closeChan := closeChan t |}.
Definition set_ctx v (t : clTracer) : clTracer :=
  {| mu := mu t; wg := wg t; id := id t; device := device t; ctx := v;
     cmdQueue := cmdQueue t; traceProgram := traceProgram t;
     traceKernel := traceKernel t; traceOutput := traceOutput t;
     frustrumCorners := frustrumCorners t;
     packedMaterials := packedMaterials t;
     packedPrimitives := packedPrimitives t; scene := scene t;
     frameW := frameW t; frameH := frameH t; closeChan := closeChan t |}.
Definition set_cmdQueue v (t : clTracer) : clTracer :=
  {| mu := mu t; wg := wg t; id := id t; device := device t; ctx := ctx t;
     cmdQueue := v; traceProgram := traceProgram t;
     traceKernel := traceKernel t; traceOutput := traceOutput t;
     frustrumCorners := frustrumCorners t;
     packedMaterials := packedMaterials t;
     packedPrimitives := packedPrimitives t; scene := scene t;
     frameW := frameW t; frameH := frameH t; closeChan := closeChan t |}.
Definition set_traceProgram v (t : clTracer) : clTracer :=
  {| mu := mu t; wg := wg t; id := id t; device := device t; ctx := ctx t;
     cmdQueue := cmdQueue t; traceProgram := v; traceKernel := traceKernel t;
     traceOutput := traceOutput t; frustrumCorners := frustrumCorners t;
     packedMaterials := packedMaterials t;
     packedPrimitives := packedPrimitives t; scene := scene t;
     frameW := frameW t; frameH := frameH t; closeChan := closeChan t |}.
Definition set_traceKernel v (t : clTracer) : clTracer :=
  {| mu := mu t; wg := wg t; id := id t; device := device t; ctx := ctx t;
     cmdQueue := cmdQueue t; traceProgram := traceProgram t;
     traceKernel := v; traceOutput := traceOutput t;
     frustrumCorners := frustrumCorners t;
     packedMaterials := packedMaterials t;
     packedPrimitives := packedPrimitives t; scene := scene t;
     frameW := frameW t; frameH := frameH t; closeChan := closeChan t |}.
Definition set_traceOutput v (t : clTracer) : clTracer :=
  {| mu := mu t; wg := wg t; id := id t; device := device t; ctx := ctx t;
     cmdQueue := cmdQueue t; traceProgram := traceProgram t;
     traceKernel := traceKernel t; traceOutput := v;
     frustrumCorners := frustrumCorners t;
     packedMaterials := packedMaterials t;
     packedPrimitives := packedPrimitives t; scene := scene t;
     frameW := frameW t; frameH := frameH t; closeChan := closeChan t |}.
Definition set_frustrumCorners v (t : clTracer) : clTracer :=
  {| mu := mu t; wg := wg t; id := id t; device := device t; ctx := ctx t;
     cmdQueue := cmdQueue t; traceProgram := traceProgram t;
     traceKernel := traceKernel t; traceOutput := traceOutput t;
     frustrumCorners := v; packedMaterials := packedMaterials t;
     packedPrimitives := packedPrimitives t; scene := scene t;
     frameW := frameW t; frameH := frameH t; closeChan := closeChan t |}.
Definition set_packedMaterials v (t : clTracer) : clTracer :=
  {| mu := mu t; wg := wg t; id := id t; device := device t; ctx := ctx t;
     cmdQueue := cmdQueue t; traceProgram := traceProgram t;
     traceKernel := traceKernel t; traceOutput := traceOutput t;
     frustrumCorners := frustrumCorners t; packedMaterials := v;
     packedPrimitives := packedPrimitives t; scene := scene t;
     frameW := frameW t; frameH := frameH t; closeChan := closeChan t |}.
Definition set_packedPrimitives v (t : clTracer) : clTracer :=
  {| mu := mu t; wg := wg t; id := id t; device := device t; ctx := ctx t;
     cmdQueue := cmdQueue t; traceProgram := traceProgram t;
     traceKernel := traceKernel t; traceOutput := traceOutput t;
     frustrumCorners := frustrumCorners t;
     packedMaterials := packedMaterials t; packedPrimitives := v;
     scene := scene t; frameW := frameW t; frameH := frameH t;
     closeChan := closeChan t |}.
Definition set_scene v (t : clTracer) : clTracer :=
  {| mu := mu t; wg := wg t; id := id t; device := device t; ctx := ctx t;
     cmdQueue := cmdQueue t; traceProgram := traceProgram t;
     traceKernel := traceKernel t; traceOutput := traceOutput t;
     frustrumCorners := frustrumCorners t;
     packedMaterials := packedMaterials t;
     packedPrimitives := packedPrimitives t; scene := v; frameW := frameW t;
     frameH := frameH t; closeChan := closeChan t |}.
Definition set_frameW v (t : clTracer) : clTracer :=
  {| mu := mu t; wg := wg t; id := id t; device := device t; ctx := ctx t;
     cmdQueue := cmdQueue t; traceProgram := traceProgram t;
     traceKernel := traceKernel t; traceOutput := traceOutput t;
     frustrumCorners := frustrumCorners t;
     packedMaterials := packedMaterials t;
     packedPrimitives := packedPrimitives t; scene := scene t; frameW := v;
     frameH := frameH t; closeChan := closeChan t |}.
Definition set_frameH v (t : clTracer) : clTracer :=
  {| mu := mu t; wg := wg t; id := id t; device := device t; ctx := ctx t;
     cmdQueue := cmdQueue t; traceProgram := traceProgram t;
     traceKernel := traceKernel t; traceOutput := traceOutput t;
     frustrumCorners := frustrumCorners t;
     packedMaterials := packedMaterials t;
     packedPrimitives := packedPrimitives t; scene := scene t;
     frameW := frameW t; frameH := v; closeChan := closeChan t |}.
Definition set_closeChan v (t : clTracer) : clTracer :=
  {| mu := mu t; wg := wg t; id := id t; device := device t; ctx := ctx t;
     cmdQueue := cmdQueue t; traceProgram := traceProgram t;
     traceKernel := traceKernel t; traceOutput := traceOutput t;
     frustrumCorners := frustrumCorners t;
     packedMaterials := packedMaterials t;
     packedPrimitives := packedPrimitives t; scene := scene t;
     frameW := frameW t; frameH := frameH t; closeChan := v |}.

(** The goroutine started by [Setup]: blocked in its [select], holding a
    request it has received and not yet answered, or returned. *)
Inductive worker :=
| Listening
| Busy (blockReq : BlockRequest)
| Exited.

(** The controller with everything it shares with its callers. *)
Record system := {
  tr : clTracer;
  trace : list event;                      (* oldest first *)
  hostmem : gmap nat (list float32);       (* the callers' slices *)
  workers : list worker
}.

Definition with_tr (f : clTracer -> clTracer) (s : system) : system :=
  {| tr := f (tr s); trace := trace s; hostmem := hostmem s; workers := workers s |}.
Definition emit (e : event) (s : system) : system :=
  {| tr := tr s; trace := trace s ++ [e]; hostmem := hostmem s; workers := workers s |}.
Definition with_hostmem (m : gmap nat (list float32)) (s : system) : system :=
  {| tr := tr s; trace := trace s; hostmem := m; workers := workers s |}.
Definition with_workers (w : list worker) (s : system) : system :=
  {| tr := tr s; trace := trace s; hostmem := hostmem s; workers := w |}.

(** ** Computations: state, and the ways a Go program stops *)

Inductive fault :=
| NilDereference
| IndexOutOfRange
| SliceBoundsOutOfRange
| CloseOfClosedChannel
| Deadlock.

Inductive outcome (A : Type) :=
| Ok (a : A) (s : system)
| Crash (f : fault) (s : system).
Arguments Ok {A} a s.
Arguments Crash {A} f s.

Definition M (A : Type) := system -> outcome A.

Definition ret {A} (a : A) : M A := fun s => Ok a s.
Definition bind {A B} (m : M A) (k : A -> M B) : M B :=
  fun s => match m s with
           | Ok a s' => k a s'
           | Crash f s' => Crash f s'
           end.
Definition panic {A} (f : fault) : M A := fun s => Crash f s.
Definition get {A} (f : clTracer -> A) : M A := fun s => Ok (f (tr s)) s.
Definition modify (f : clTracer -> clTracer) : M unit := fun s => Ok tt (with_tr f s).
Definition record (e : event) : M unit := fun s => Ok tt (emit e s).
Definition inspect {A} (f : system -> A) : M A := fun s => Ok (f s) s.
Definition update (f : system -> system) : M unit := fun s => Ok tt (f s).

Notation "'let*' x ':=' m 'in' k" := (bind m (fun x => k))
  (at level 10, x name, m at level 100, k at level 200).
Notation "m ;;; k" := (bind m (fun _ => k))
  (at level 100, k at level 200, right associativity).

(** The state a computation stops in, and the events it added. *)
Definition final {A} (o : outcome A) : system :=
  match o with Ok _ s => s | Crash _ s => s end.
Definition result {A} (o : outcome A) : option A :=
  match o with Ok a _ => Some a | Crash _ _ => None end.
Definition since (s : system) (s' : system) : list event :=
  drop (length (trace s)) (trace s').

(** The zero value of the struct, with the two fields a literal names. *)
Definition zero_tracer (id' : string) (device' : Device) : clTracer :=
  {| mu := false; wg := 0; id := id'; device := device';
     ctx := None; cmdQueue := None; traceProgram := None; traceKernel := None;
     traceOutput := None; frustrumCorners := None;
     packedMaterials := None; packedPrimitives := None;
     scene := None; frameW := 0; frameH := 0; closeChan := false |}.


(** ** Sample drivers, scenes and requests *)

Module Sample.
(** The kernel file holds [source]; object creation answers a fresh
    pointer, or nil for the calls in [refused]; every other call answers
    the status [status] gives it. *)
Definition driver_of (source : string) (refused : call -> bool)
    (status : call -> Z) (buildlog : list Z * Z) : driver :=
  {| drv_handle := fun hist c =>
       if refused c then None else Some (1 + Z.of_nat (length hist));
     drv_code := fun _ c => status c;
     drv_buildlog := fun _ => buildlog;
     drv_open := fun _ => None;
     drv_read := fun _ => inr source;
     drv_pack := fun _ _ => inr ([[1; 2; 3; 4]], [[5; 6; 7; 8]; [9; 9; 9; 9]]);
     drv_mem := fun _ _ offset => 1000 + offset;
     drv_overrun := fun _ mem => mem |}.

Definition is_CreateKernel (c : call) : bool :=
  match c with CreateKernel _ _ => true | _ => false end.
Definition is_BuildProgram (c : call) : bool :=
  match c with BuildProgram _ _ => true | _ => false end.
Definition is_Release (c : call) : bool :=
  match c with
  | ReleaseMemObject _ | ReleaseKernel _ | ReleaseProgram _
  | ReleaseCommandQueue _ | ReleaseContext _ => true
  | _ => false
  end.

Definition tracePixel_source : string := "__kernel void tracePixel() {}".
Definition other_source : string := "__kernel void shade() {}".

(** Everything succeeds. *)
Definition good : driver :=
  driver_of tracePixel_source (fun _ => false) (fun _ => cl.SUCCESS) ([0], 1).

(** The program builds but has no entry point [tracePixel]. *)
Definition no_entry_point : driver :=
  driver_of other_source is_CreateKernel (fun _ => cl.SUCCESS) ([0], 1).

(** The compilation fails (CL_BUILD_PROGRAM_FAILURE) with the build log
    "err" and its terminator. *)
Definition build_fails : driver :=
  driver_of tracePixel_source (fun _ => false)
    (fun c => if is_BuildProgram c then -11 else cl.SUCCESS)
    ([101; 114; 114; 0], 4).

(** The compilation fails and the build log is the empty string. *)
Definition build_fails_silently : driver :=
  driver_of tracePixel_source (fun _ => false)
    (fun c => if is_BuildProgram c then -11 else cl.SUCCESS)
    ([0], 1).

(** Every release is refused (CL_INVALID_VALUE). *)
Definition releases_fail : driver :=
  driver_of tracePixel_source (fun _ => false)
    (fun c => if is_Release c then -30 else cl.SUCCESS) ([0], 1).

Definition is_Finish (c : call) : bool :=
  match c with Finish _ => true | _ => false end.

(** The kernel runs into an error: [cl.Finish] answers
    CL_OUT_OF_RESOURCES. *)
Definition finish_fails : driver :=
  driver_of tracePixel_source (fun _ => false)
    (fun c => if is_Finish c then -5 else cl.SUCCESS) ([0], 1).

(** The kernel file is not there. *)
Definition no_kernel_file : driver :=
  {| drv_handle := drv_handle good; drv_code := drv_code good;
     drv_buildlog := drv_buildlog good;
     drv_open := fun _ => Some (ErrForeign "no such file or directory");
     drv_read := drv_read good; drv_pack := drv_pack good;
     drv_mem := drv_mem good; drv_overrun := drv_overrun good |}.

(** [packScene] answers no material and two primitives. *)
Definition no_materials : driver :=
  {| drv_handle := drv_handle good; drv_code := drv_code good;
     drv_buildlog := drv_buildlog good; drv_open := drv_open good;
     drv_read := drv_read good;
     drv_pack := fun _ _ => inr ([], [[5; 6; 7; 8]; [9; 9; 9; 9]]);
     drv_mem := drv_mem good; drv_overrun := drv_overrun good |}.

(** The compilation fails and the driver reports a build log of no byte. *)
Definition build_fails_without_log : driver :=
  driver_of tracePixel_source (fun _ => false)
    (fun c => if is_BuildProgram c then -11 else cl.SUCCESS)
    ([], 0).

Definition is_EnqueueWriteBuffer (c : call) : bool :=
  match c with EnqueueWriteBuffer _ _ _ _ _ _ => true | _ => false end.

(** The upload of the frustum is refused (CL_MEM_OBJECT_ALLOCATION_FAILURE). *)
Definition upload_fails : driver :=
  driver_of tracePixel_source (fun _ => false)
    (fun c => if is_EnqueueWriteBuffer c then -4 else cl.SUCCESS) ([0], 1).

(** The third row of a frame, into the slice 0. *)
Definition third_row : BlockRequest :=
  {| BlockY := 2; BlockH := 1; SamplesPerPixel := 4; Exposure := 5; Seed := 6;
     RenderTarget := 0%nat; DoneChan := 1%nat; ErrChan := 2%nat |}.

Definition camera : Camera :=
  {| Position := (1, 2, 3, 0);
     Frustrum := ((1, 1, 1, 0), (2, 2, 2, 0), (3, 3, 3, 0), (4, 4, 4, 0)) |}.

Definition scene : Scene :=
  {| SceneCamera := camera;
     Primitives := [ {| primData := [5; 6; 7; 8] |}; {| primData := [9; 9; 9; 9] |} ] |}.

Definition gpu : Device := {| DeviceId := 7; Name := "gpu" |}.

(** The second row of a frame, into the slice 0. *)
Definition second_row : BlockRequest :=
  {| BlockY := 1; BlockH := 1; SamplesPerPixel := 4; Exposure := 5; Seed := 6;
     RenderTarget := 0%nat; DoneChan := 1%nat; ErrChan := 2%nat |}.

(** A request for no row at all. *)
Definition no_row : BlockRequest :=
  {| BlockY := 0; BlockH := 0; SamplesPerPixel := 4; Exposure := 5; Seed := 6;
     RenderTarget := 0%nat; DoneChan := 1%nat; ErrChan := 2%nat |}.

(** No controller yet, and one slice of 16 floats. *)
Definition boot : system :=
  {| tr := zero_tracer "none" gpu; trace := [];
     hostmem := {[ 0%nat := replicate 16 0 ]}; workers := [] |}.
End Sample.

Definition tracerSourceFile : string := "tracer/opencl/cl_tracer.cl".

(** [errCode != cl.SUCCESS] *)
Definition failing (errCode : Z) : bool := negb (errCode =? cl.SUCCESS).

(** [errPtr != nil && cl.ErrorCode( *errPtr) != cl.SUCCESS] *)
Definition reported (errPtr : option Z) : bool :=
  match errPtr with
  | Some e => failing e
  | None => false
  end.

Section Controller.

Variable drv : driver.

(** [unsafe.Sizeof] of one element of each slice [packScene] returns. *)
Variables sizeofPackedMaterial sizeofPackedPrimitive : Z.

(** *** Calls *)

Definition call_handle (c : call) : M (option handle) := fun s =>
  let h := drv_handle drv (trace s) c in
  Ok h (emit (Called c (RHandle h)) s).

Definition call_code (c : call) : M Z := fun s =>
  let e := drv_code drv (trace s) c in
  Ok e (emit (Called c (RCode e)) s).

Definition os_Open (path : string) : M (option error) := fun s =>
  let r := drv_open drv (trace s) in
  Ok r (emit (Called (OsOpen path) (RStatus r)) s).

Definition ioutil_ReadAll : M (error + string) := fun s =>
  let r := drv_read drv (trace s) in
  Ok r (emit (Called IoReadAll (RFile r)) s).

Definition packScene (sc : option Scene)
  : M (error + list packedRecord * list packedRecord) := fun s =>
  let r := drv_pack drv (trace s) sc in
  Ok r (emit (Called PackScene (RPacked r)) s).

(** [cl.GetProgramBuildInfo] fills the caller's buffer and length. *)
Definition cl_GetProgramBuildInfo (p : option handle) (dev param size : Z)
  : M (list Z * Z) := fun s =>
  let r := drv_buildlog drv (trace s) in
  Ok r (emit (Called (GetProgramBuildInfo p dev param size)
                (RBuildInfo (fst r) (snd r))) s).

(** The [size] bytes of device buffer [buf] from byte [offset] on. *)
Definition device_words (h : list event) (buf : option handle) (offset size : Z)
  : list float32 :=
  map (fun i => drv_mem drv h buf (offset + 4 * Z.of_nat i))
      (seq 0 (Z.to_nat (size / 4))).

(** [cl.EnqueueReadBuffer] into the slice [target] from element [index] on:
    on success the device has copied [size] bytes to the host pointer.
    Neither the binding nor Go checks that pointer against the slice: a
    block that fits is in the slice afterwards, and a block that overruns
    the slice is written past its end, after which the callers' memory is
    what [drv_overrun] says.  The call returns its status in both cases. *)
Definition cl_EnqueueReadBuffer (q buf : option handle)
    (blocking offset size : Z) (target : nat) (index : Z) : M Z := fun s =>
  let c := EnqueueReadBuffer q buf blocking offset size target index in
  let e := drv_code drv (trace s) c in
  let s1 := emit (Called c (RCode e)) s in
  if failing e then Ok e s1 else
  let data := device_words (trace s) buf offset size in
  let cur := default [] (hostmem s !! target) in
  if (Z.to_nat index + length data <=? length cur)%nat
  then Ok e (with_hostmem
               (<[target := list_inserts (Z.to_nat index) data cur]> (hostmem s1)) s1)
  else Ok e (with_hostmem (drv_overrun drv (trace s) (hostmem s1)) s1).

(** *** The lock, the wait group and the channels *)

Definition Lock : M unit := fun s =>
  if mu (tr s) then Crash Deadlock s else Ok tt (with_tr (set_mu true) s).
Definition Unlock : M unit := modify (set_mu false).

(** [if useLock { tr.Lock(); defer tr.Unlock() }] around a body. *)
Definition locked {A} (useLock : bool) (body : M A) : M A :=
  if useLock then Lock ;;; let* r := body in Unlock ;;; ret r else body.

Definition deref {A} (f : clTracer -> option A) : M A :=
  let* p := get f in
  match p with
  | Some v => ret v
  | None => panic NilDereference
  end.

Definition close_closeChan : M unit :=
  let* c := get closeChan in
  if (c : bool) then panic CloseOfClosedChannel
  else modify (set_closeChan true) ;;; record ClosedCloseChan.

(** *** process *)

Definition set_arg (index size : Z) (v : argval) : M Z :=
  let* k := get traceKernel in
  call_code (SetKernelArg k index size v).

Definition arg_failed (index : Z) : M (option error) :=
  record (Logged (LogKernelArgFailed index)) ;;;
  ret (Some ErrSettingKernelArguments).

(** [len(s)] of a Go slice, an [int]. *)
Definition len {A} (l : list A) : Z := Z.of_nat (length l).

Definition process (blockReq : BlockRequest) : M (option error) :=
  let* sc := deref scene in
  let eyePos := Position (SceneCamera sc) in
  (* Copy camera frustrum corners to allocated buffer. *)
  let* q := get cmdQueue in
  let* fc := get frustrumCorners in
  let* sc := deref scene in
  let* errCode :=
    call_code (EnqueueWriteBuffer q fc cl.TRUE 0 (4 * 16)
                 (frustrum_words (SceneCamera sc))) in
  if failing errCode then
    record (Logged LogFrustrumWriteFailed) ;;; ret (Some ErrCopyingDataToDevice)
  else
  (* Set kernel params *)
  let* out := get traceOutput in
  let* errCode := set_arg 0 8 (ArgMem out) in
  if failing errCode then arg_failed 0 else
  let* fc := get frustrumCorners in
  let* errCode := set_arg 1 8 (ArgMem fc) in
  if failing errCode then arg_failed 1 else
  let* pp := get packedPrimitives in
  let* errCode := set_arg 2 8 (ArgMem pp) in
  if failing errCode then arg_failed 2 else
  let* pm := get packedMaterials in
  let* errCode := set_arg 3 8 (ArgMem pm) in
  if failing errCode then arg_failed 3 else
  let* sc := deref scene in
  let numPrimitives := len (Primitives sc) in
  (* four bytes of a little-endian [int] *)
  let* errCode := set_arg 4 4 (ArgInt (wrap32 numPrimitives)) in
  if failing errCode then arg_failed 4 else
  let* errCode := set_arg 5 16 (ArgVec eyePos) in
  if failing errCode then arg_failed 5 else
  let* errCode := set_arg 6 4 (ArgInt (BlockY blockReq)) in
  if failing errCode then arg_failed 6 else
  let* errCode := set_arg 7 4 (ArgInt (SamplesPerPixel blockReq)) in
  if failing errCode then arg_failed 7 else
  let* errCode := set_arg 8 4 (ArgFloat (Exposure blockReq)) in
  if failing errCode then arg_failed 8 else
  let* errCode := set_arg 9 4 (ArgInt (Seed blockReq)) in
  if failing errCode then arg_failed 9 else
  (* Execute kernel *)
  let workOffset := [0; BlockY blockReq] in
  let* w := get frameW in
  let workSize := [w; BlockH blockReq] in
  let* q := get cmdQueue in
  let* k := get traceKernel in
  let* errCode := call_code (EnqueueNDRangeKernel q k 2 workOffset workSize) in
  if failing errCode then ret (Some ErrKernelExecutionFailed) else
  (* Wait for the kernel to finish executing *)
  let* q := get cmdQueue in
  let* errCode := call_code (Finish q) in
  if failing errCode then ret (Some ErrKernelExecutionFailed) else
  (* Copy the rendered block from device buffer to the render target *)
  let* w := get frameW in
  let readOffset := mul32 (mul32 (mul32 w 4) 4) (BlockY blockReq) in
  let* w := get frameW in
  let blockSizeBytes := mul32 (mul32 (mul32 w 4) 4) (BlockH blockReq) in
  let* q := get cmdQueue in
  let* out := get traceOutput in
  (* &blockReq.RenderTarget[readOffset>>2] *)
  let index := Z.shiftr readOffset 2 in
  let* mem := inspect hostmem in
  if len (default [] (mem !! RenderTarget blockReq)) <=? index
  then panic IndexOutOfRange else
  let* errCode :=
    cl_EnqueueReadBuffer q out cl.TRUE readOffset blockSizeBytes
      (RenderTarget blockReq) index in
  if failing errCode then
    record (Logged (LogCopyToHostFailed (BlockY blockReq) (BlockH blockReq)
                      readOffset blockSizeBytes errCode)) ;;;
    ret (Some ErrCopyingDataToHost)
  else ret None.

(** *** The worker goroutine of Setup *)

(** The [case blockReq = <-tr.blockReqChan] arm of the loop. *)
Definition serve (blockReq : BlockRequest) : M unit :=
  let* err := process blockReq in
  match err with
  | Some e => record (Sent (ErrChan blockReq) (inr e))
  | None => record (Sent (DoneChan blockReq) (inl (BlockH blockReq)))
  end.

Definition set_worker (i : nat) (w : worker) : M unit :=
  update (fun s => with_workers (<[i := w]> (workers s)) s).

(** One turn of worker [i] that holds a request: answer it and go back to
    the [select]. *)
Definition worker_turn (i : nat) : M unit := fun s =>
  match workers s !! i with
  | Some (Busy blockReq) => (serve blockReq ;;; set_worker i Listening) s
  | _ => Ok tt s
  end.

(** The [case <-tr.closeChan] arm, then [defer tr.wg.Done()]. *)
Definition worker_exit (i : nat) : M unit :=
  set_worker i Exited ;;; modify (fun t => set_wg (pred (wg t)) t).

(** Every worker, in turn, up to its return: what [close(tr.closeChan)]
    makes of the goroutines before [tr.wg.Wait()] can return. *)
Fixpoint retire (ws : list worker) (i : nat) : M unit :=
  match ws with
  | [] => ret tt
  | w :: rest =>
      match w with
      | Busy blockReq => serve blockReq ;;; worker_exit i
      | Listening => worker_exit i
      | Exited => ret tt
      end ;;; retire rest (S i)
  end.

(** [tr.wg.Wait()], reached with the close channel closed. *)
Definition wg_Wait : M unit :=
  let* ws := inspect workers in
  retire ws 0 ;;;
  let* n := get wg in
  match n with
  | O => record WaitedForWorkers
  | S _ => panic Deadlock
  end.

(** *** cleanup *)

(** [if tr.f != nil { cl.ReleaseX(tr.f); tr.f = nil }]; the status of the
    release is dropped. *)
Definition release (field : clTracer -> option handle)
    (rel : handle -> call) (clear : clTracer -> clTracer) : M unit :=
  let* h := get field in
  match h with
  | Some p => call_code (rel p) ;;; modify clear
  | None => ret tt
  end.

Definition cleanup (useLock : bool) : M unit :=
  locked useLock (
    let* c := get ctx in
    match c with
    | None => ret tt
    | Some _ =>
        (* Signal worker to exit and wait till it exits *)
        close_closeChan ;;;
        wg_Wait ;;;
        release packedPrimitives ReleaseMemObject (set_packedPrimitives None) ;;;
        release packedMaterials ReleaseMemObject (set_packedMaterials None) ;;;
        release traceOutput ReleaseMemObject (set_traceOutput None) ;;;
        release frustrumCorners ReleaseMemObject (set_frustrumCorners None) ;;;
        release traceKernel ReleaseKernel (set_traceKernel None) ;;;
        release traceProgram ReleaseProgram (set_traceProgram None) ;;;
        release cmdQueue ReleaseCommandQueue (set_cmdQueue None) ;;;
        release ctx ReleaseContext (set_ctx None)
    end).

(** *** syncScene *)

Definition syncScene (useLock : bool) : M (option error) :=
  locked useLock (
    let* c := get ctx in
    match c with
    | None => ret (Some ErrPendingSetup)
    | Some _ =>
        let* q := get cmdQueue in
        let* fc := get frustrumCorners in
        let* sc := deref scene in
        let* errCode :=
          call_code (EnqueueWriteBuffer q fc cl.TRUE 0 (4 * 16)
                       (frustrum_words (SceneCamera sc))) in
        if failing errCode then
          record (Logged LogFrustrumWriteFailed) ;;;
          ret (Some ErrCopyingDataToDevice)
        else ret None
    end).

(** *** setupKernel *)

(** [make([]byte, 120000)] after the driver has written into it. *)
Definition build_log_capacity : Z := 120000.
Definition build_log_buffer (written : list Z) : list Z :=
  take (Z.to_nat build_log_capacity)
       (written ++ replicate (Z.to_nat build_log_capacity) 0).

(** The allocation of one packed image, lines 439-457 and 458-476. *)
Definition upload_packed (errPtr : option Z) (packed : list packedRecord)
    (sizeofElem : Z) (host : list packedRecord -> hostdata)
    (store : option handle -> clTracer -> clTracer) : M (option error) :=
  if 0 <? len packed then
    let sizeInBytes := mul64 (len packed) sizeofElem in
    let* c := deref ctx in
    let* img :=
      call_handle
        (CreateImage c (Z.lor cl.MEM_READ_ONLY cl.MEM_COPY_HOST_PTR)
           {| cl.ChannelOrder := cl.RGBA; cl.ChannelType := cl.FLOAT |}
           {| cl.ImageType := cl.MEM_OBJECT_IMAGE1D;
              cl.ImageWidth := Z.shiftr sizeInBytes 4;
              cl.ImageRowPitch := sizeInBytes |}
           (host packed)) in
    modify (store img) ;;;
    if reported errPtr then cleanup false ;;; ret (Some ErrAllocatingBuffers)
    else ret None
  else ret None.

(** The deferred [templateFile.Close()] touches nothing of the controller
    and is left out. *)
Definition setupKernel (sc : option Scene) (frameW frameH : Z) : M (option error) :=
  (* Load kernel template *)
  let* err := os_Open tracerSourceFile in
  match err with
  | Some e => ret (Some e)
  | None =>
  let* r := ioutil_ReadAll in
  match r with
  | inl e => ret (Some e)
  | inr template =>
  (* Create and build program *)
  let errPtr : option Z := None in
  let programSrc := (template ++ String "000"%char EmptyString)%string in
  let* c := deref ctx in
  let* p := call_handle (CreateProgramWithSource c programSrc) in
  modify (set_traceProgram p) ;;;
  if reported errPtr then ret (Some ErrProgramCreationFailed) else
  let* p := get traceProgram in
  let* dev := get device in
  let* errCode := call_code (BuildProgram p (DeviceId dev)) in
  if failing errCode then
    let* p := get traceProgram in
    let* dev := get device in
    let* info :=
      cl_GetProgramBuildInfo p (DeviceId dev) cl.PROGRAM_BUILD_LOG
        build_log_capacity in
    let data := build_log_buffer (fst info) in
    let dataLen := snd info in
    (* data[0:dataLen-1] *)
    let high := sub64 dataLen 1 in
    if build_log_capacity <? high then panic SliceBoundsOutOfRange else
    record (Logged (LogBuildError (take (Z.to_nat high) data))) ;;;
    cleanup false ;;;
    ret (Some ErrProgramBuildFailed)
  else
  (* Fetch kernel entrypoint *)
  let* p := get traceProgram in
  let* k :=
    call_handle (CreateKernel p ("tracePixel" ++ String "000"%char EmptyString)%string) in
  modify (set_traceKernel k) ;;;
  if reported errPtr then cleanup false ;;; ret (Some ErrKernelCreationFailed) else
  (* Allocate an output buffer large enough to fit a full frame *)
  let* c := deref ctx in
  let* b :=
    call_handle (CreateBuffer c cl.MEM_WRITE_ONLY
                   (mul32 (mul32 (4 * 4) frameW) frameH)) in
  modify (set_traceOutput b) ;;;
  if reported errPtr then cleanup false ;;; ret (Some ErrAllocatingBuffers) else
  (* Allocate buffer for passing frustrum corners (4 x Vec4 = 64 bytes) *)
  let* c := deref ctx in
  let* b := call_handle (CreateBuffer c cl.MEM_READ_ONLY (4 * 4 * 4)) in
  modify (set_frustrumCorners b) ;;;
  if reported errPtr then cleanup false ;;; ret (Some ErrAllocatingBuffers) else
  (* Pack scene data *)
  let* sc' := get scene in
  let* packed := packScene sc' in
  match packed with
  | inl e => cleanup false ;;; ret (Some e)
  | inr (packedMaterials', packedPrimitives') =>
  (* Allocate opencl images for packed data and upload it to device *)
  let* err :=
    upload_packed errPtr packedMaterials' sizeofPackedMaterial
      HostMaterials set_packedMaterials in
  match err with
  | Some e => ret (Some e)
  | None =>
  let* err :=
    upload_packed errPtr packedPrimitives' sizeofPackedPrimitive
      HostPrimitives set_packedPrimitives in
  match err with
  | Some e => ret (Some e)
  | None =>
  (* Sync scene *)
  let* err := syncScene false in
  match err with
  | Some e => cleanup false ;;; ret (Some e)
  | None => ret None
  end end end end end end.

(** *** The public operations *)

Definition Id : M string := get id.

Definition Close : M unit := cleanup true.

Definition Setup (sc : option Scene) (frameW frameH : Z) : M (option error) :=
  locked true (
    let* k := get traceKernel in
    match k with
    | Some _ => ret (Some ErrAlreadyAttached)
    | None =>
        (* Save scene and frame dims *)
        modify (set_scene sc) ;;;
        modify (set_frameW frameW) ;;;
        modify (set_frameH frameH) ;;;
        let* err := setupKernel sc frameW frameH in
        match err with
        | Some e => ret (Some e)
        | None =>
            (* tr.wg.Add(1); go func() {...}(); <-readyChan *)
            modify (fun t => set_wg (S (wg t)) t) ;;;
            update (fun s => with_workers (workers s ++ [Listening]) s) ;;;
            ret None
        end
    end).

(** [select { case tr.blockReqChan <- blockReq: default: }] on a channel
    without buffer: the send goes through exactly when a worker is blocked
    in its receive, and that worker then holds the request. *)
Fixpoint hand_over (blockReq : BlockRequest) (ws : list worker)
  : option (list worker) :=
  match ws with
  | [] => None
  | Listening :: rest => Some (Busy blockReq :: rest)
  | w :: rest => option_map (cons w) (hand_over blockReq rest)
  end.

Definition Enqueue (blockReq : BlockRequest) : M unit := fun s =>
  match hand_over blockReq (workers s) with
  | Some ws => Ok tt (with_workers ws s)
  | None => Ok tt s   (* drop the request if worker is not listening *)
  end.

Definition SyncScene : M (option error) := syncScene true.

(** *** newTracer *)

(** The new controller takes the place of [tr]; it has no goroutine. *)
Definition newTracer (id' : string) (device' : Device) : M (option error) :=
  let errptr : option Z := None in
  (* Create context *)
  let* c := call_handle (CreateContext (DeviceId device')) in
  if reported errptr then ret (Some ErrContextCreationFailed) else
  (* Create command queue *)
  match c with
  | None => panic NilDereference
  | Some cv =>
  let* cq := call_handle (CreateCommandQueue cv (DeviceId device')) in
  if reported errptr then
    call_code (ReleaseContext cv) ;;; ret (Some ErrCmdQueueCreationFailed)
  else
    modify (fun _ => set_cmdQueue cq (set_ctx c (zero_tracer id' device'))) ;;;
    update (with_workers []) ;;;
    ret None
  end.

(** ** What the claims speak about *)

(** The kernel ABI as the specification lists it: parameter index, size in
    bytes and value, for a controller [t], its scene and a request. *)
Definition kernel_abi (t : clTracer) (sc : Scene) (blockReq : BlockRequest)
  : list (Z * Z * argval) :=
  [ (0, 8, ArgMem (traceOutput t));
    (1, 8, ArgMem (frustrumCorners t));
    (2, 8, ArgMem (packedPrimitives t));
    (3, 8, ArgMem (packedMaterials t));
    (4, 4, ArgInt (wrap32 (len (Primitives sc))));
    (5, 16, ArgVec (Position (SceneCamera sc)));
    (6, 4, ArgInt (BlockY blockReq));
    (7, 4, ArgInt (SamplesPerPixel blockReq));
    (8, 4, ArgFloat (Exposure blockReq));
    (9, 4, ArgInt (Seed blockReq)) ].

(** The kernel-argument bindings of a trace, in order: kernel, parameter
    index, size, value, and the status the binding got. *)
Definition binding (e : event) : option (option handle * Z * Z * argval * Z) :=
  match e with
  | Called (SetKernelArg k index size v) (RCode c) => Some (k, index, size, v, c)
  | _ => None
  end.
Definition bindings (evs : list event) : list (option handle * Z * Z * argval * Z) :=
  omap binding evs.

(** The binding of the entry [a] of the ABI on the kernel [k], answered by
    the status [c]. *)
Definition bound (k : option handle) (a : Z * Z * argval) (c : Z) : event :=
  Called (SetKernelArg k a.1.1 a.1.2 a.2) (RCode c).

Definition is_dispatch (e : event) : bool :=
  match e with
  | Called (EnqueueNDRangeKernel _ _ _ _ _) _ => true
  | _ => false
  end.

(** ** A weakest-precondition reading of computations *)

Definition wp {A} (m : M A) (s : system) (Q : outcome A -> Prop) : Prop :=
  Q (m s).

(** Events of block rendering: calls of [process] and what the worker
    sends back. *)
Definition is_render (e : event) : Prop :=
  match e with
  | Called (EnqueueWriteBuffer _ _ _ _ _ _) _
  | Called (SetKernelArg _ _ _ _) _
  | Called (EnqueueNDRangeKernel _ _ _ _ _) _
  | Called (Finish _) _
  | Called (EnqueueReadBuffer _ _ _ _ _ _ _) _
  | Logged LogFrustrumWriteFailed
  | Logged (LogKernelArgFailed _)
  | Logged (LogCopyToHostFailed _ _ _ _ _)
  | Sent _ _ => True
  | _ => False
  end.

(** What a step of rendering may change: the trace, by rendering events,
    and the callers' slices. *)
Definition render_step (s s' : system) : Prop :=
  tr s' = tr s /\ workers s' = workers s /\
  exists evs, trace s' = trace s ++ evs /\ Forall is_render evs.

Fixpoint live_workers (ws : list worker) : nat :=
  match ws with
  | [] => 0
  | Exited :: rest => live_workers rest
  | _ :: rest => S (live_workers rest)
  end.

Definition is_busy (w : worker) : bool :=
  match w with Busy _ => true | _ => false end.

(** A controller without its wait-group counter. *)
Definition same_but_wg (t t' : clTracer) : Prop := set_wg 0%nat t' = set_wg 0%nat t.


(** Events appended in one go. *)
Definition emit_all (evs : list event) (s : system) : system :=
  {| tr := tr s; trace := trace s ++ evs; hostmem := hostmem s; workers := workers s |}.

(** Calls with the status each one got. *)
Definition answered (cs : list call) (codes : list Z) : list event :=
  zip_with (fun c e => Called c (RCode e)) cs codes.

(** The releases [cleanup] has to make for the handles [t] holds, in the
    order of its statements. *)
Definition release_plan (t : clTracer) : list call :=
  map ReleaseMemObject (option_list (packedPrimitives t)) ++
  map ReleaseMemObject (option_list (packedMaterials t)) ++
  map ReleaseMemObject (option_list (traceOutput t)) ++
  map ReleaseMemObject (option_list (frustrumCorners t)) ++
  map ReleaseKernel (option_list (traceKernel t)) ++
  map ReleaseProgram (option_list (traceProgram t)) ++
  map ReleaseCommandQueue (option_list (cmdQueue t)) ++
  map ReleaseContext (option_list (ctx t)).

(** The controller once [cleanup] has gone through. *)
Definition torn_down (t : clTracer) : clTracer :=
  set_ctx None (set_cmdQueue None (set_traceProgram None (set_traceKernel None
    (set_frustrumCorners None (set_traceOutput None (set_packedMaterials None
      (set_packedPrimitives None (set_wg 0%nat (set_closeChan true t))))))))).

(** The wait group counts the goroutines that have not returned. *)
Definition counted (s : system) : Prop := wg (tr s) = live_workers (workers s).

(** What [tr.wg.Wait()] does from [s]. *)
Definition wg_Wait_post (s : system) (o : outcome unit) : Prop :=
  exists wevs, Forall is_render wevs /\
    ((exists f s', o = Crash f s' /\ trace s' = trace s ++ wevs /\
                   Exists (fun w => is_busy w = true) (workers s))
     \/
     (exists s', o = Ok tt s' /\
                 trace s' = trace s ++ wevs ++ [WaitedForWorkers] /\
                 tr s' = set_wg 0%nat (tr s) /\
                 workers s' = replicate (length (workers s)) Exited /\
                 (Forall (fun w => is_busy w = false) (workers s) ->
                  wevs = [] /\ hostmem s' = hostmem s))).

(** What [cleanup(false)] does from [s]. *)
Definition cleanup_post (s : system) (o : outcome unit) : Prop :=
  match ctx (tr s) with
  | None => o = Ok tt s
  | Some _ =>
      if closeChan (tr s) then o = Crash CloseOfClosedChannel s else
      exists wevs, Forall is_render wevs /\
        ((exists f s', o = Crash f s' /\
                       trace s' = trace s ++ ClosedCloseChan :: wevs /\
                       Exists (fun w => is_busy w = true) (workers s))
         \/
         (exists codes s',
             o = Ok tt s' /\
             length codes = length (release_plan (tr s)) /\
             trace s' = trace s ++ ClosedCloseChan :: wevs ++
                          WaitedForWorkers :: answered (release_plan (tr s)) codes /\
             tr s' = torn_down (tr s) /\
             workers s' = replicate (length (workers s)) Exited /\
             (Forall (fun w => is_busy w = false) (workers s) ->
              wevs = [] /\ hostmem s' = hostmem s)))
  end.

Definition is_release (e : event) : Prop :=
  match e with
  | Called (ReleaseMemObject _) _
  | Called (ReleaseKernel _) _
  | Called (ReleaseProgram _) _
  | Called (ReleaseCommandQueue _) _
  | Called (ReleaseContext _) _ => True
  | _ => False
  end.

(** What holds of the controller between two calls of its operations: the
    lock is free, the wait group counts the running goroutines, and the
    close channel is closed only on a controller without context. *)
Definition consistent (s : system) : Prop :=
  mu (tr s) = false /\ counted s /\
  (closeChan (tr s) = true -> ctx (tr s) = None).

(** Events of a teardown: the workers' last rendering, the close of the
    channel, the end of the wait, and releases. *)
Definition is_teardown (e : event) : Prop :=
  is_render e \/ e = ClosedCloseChan \/ e = WaitedForWorkers \/ is_release e.

(** The trace grows by events that satisfy [P]. *)
Definition grows (P : event -> Prop) (s s' : system) : Prop :=
  exists evs, trace s' = trace s ++ evs /\ Forall P evs.

(** A computation that, from any state, stops in a state related by [R]. *)
Definition within {A} (R : system -> system -> Prop) (m : M A) : Prop :=
  forall s, R s (final (m s)).

(** The image allocations of a trace, and the answer of [packScene]. *)
Definition image_of (e : event)
  : option (Z * cl.ImageFormat * cl.ImageDesc * hostdata) :=
  match e with
  | Called (CreateImage _ flags fmt desc host) _ => Some (flags, fmt, desc, host)
  | _ => None
  end.

Definition packed_of (e : event)
  : option (list packedRecord * list packedRecord) :=
  match e with
  | Called PackScene (RPacked (inr p)) => Some p
  | _ => None
  end.

Definition host_records (h : hostdata) : list packedRecord :=
  match h with HostMaterials l => l | HostPrimitives l => l end.

Definition host_sizeof (h : hostdata) : Z :=
  match h with
  | HostMaterials _ => sizeofPackedMaterial
  | HostPrimitives _ => sizeofPackedPrimitive
  end.

(** The allocation the specification asks for one packed sequence: none
    when it is empty, else one read-only 1D image of RGBA float pixels,
    filled from the host data at creation. *)
Definition image_request (host : list packedRecord -> hostdata)
    (packed : list packedRecord)
  : list (Z * cl.ImageFormat * cl.ImageDesc * hostdata) :=
  match packed with
  | [] => []
  | _ =>
      let bytes := mul64 (len packed) (host_sizeof (host packed)) in
      [ (Z.lor cl.MEM_READ_ONLY cl.MEM_COPY_HOST_PTR,
         {| cl.ChannelOrder := cl.RGBA; cl.ChannelType := cl.FLOAT |},
         {| cl.ImageType := cl.MEM_OBJECT_IMAGE1D;
            cl.ImageWidth := Z.shiftr bytes 4;
            cl.ImageRowPitch := bytes |},
         host packed) ]
  end.

Definition is_read (c : call) : bool :=
  match c with
  | EnqueueReadBuffer _ _ _ _ _ _ _ => true
  | _ => false
  end.

(** Byte offset, byte length and host index of the reads of a trace. *)
Definition read_args (e : event) : option (Z * Z * Z) :=
  match e with
  | Called (EnqueueReadBuffer _ _ _ offset size _ index) _ =>
      Some (offset, size, index)
  | _ => None
  end.

(** Device resources, by the kind of object. *)
Inductive group := GContext | GQueue | GProgram | GKernel | GMem.

(** The object a call has created, with its kind: a creation that answers
    nil creates nothing. *)
Definition creation (e : event) : option (group * handle) :=
  match e with
  | Called (CreateContext _) (RHandle (Some p)) => Some (GContext, p)
  | Called (CreateCommandQueue _ _) (RHandle (Some p)) => Some (GQueue, p)
  | Called (CreateProgramWithSource _ _) (RHandle (Some p)) => Some (GProgram, p)
  | Called (CreateKernel _ _) (RHandle (Some p)) => Some (GKernel, p)
  | Called (CreateBuffer _ _ _) (RHandle (Some p)) => Some (GMem, p)
  | Called (CreateImage _ _ _ _ _) (RHandle (Some p)) => Some (GMem, p)
  | _ => None
  end.

(** The object a call releases, whatever the status it gets. *)
Definition release_of (c : call) : option (group * handle) :=
  match c with
  | ReleaseMemObject p => Some (GMem, p)
  | ReleaseKernel p => Some (GKernel, p)
  | ReleaseProgram p => Some (GProgram, p)
  | ReleaseCommandQueue p => Some (GQueue, p)
  | ReleaseContext p => Some (GContext, p)
  | _ => None
  end.

Definition releasing (e : event) : option (group * handle) :=
  match e with
  | Called c _ => release_of c
  | _ => None
  end.

(** The compilation in a trace: status, build log as the driver gave it,
    and the text the controller logged. *)
Definition build_code (e : event) : option Z :=
  match e with
  | Called (BuildProgram _ _) (RCode c) => Some c
  | _ => None
  end.

Definition build_info (e : event) : option (list Z * Z) :=
  match e with
  | Called (GetProgramBuildInfo _ _ _ _) (RBuildInfo written dataLen) =>
      Some (written, dataLen)
  | _ => None
  end.

Definition build_log (e : event) : option (list Z) :=
  match e with
  | Logged (LogBuildError text) => Some text
  | _ => None
  end.

(** A controller as [newTracer] leaves it: no goroutine, nothing but the
    context and the queue allocated. *)
Definition unattached (s : system) : Prop :=
  mu (tr s) = false /\ closeChan (tr s) = false /\ wg (tr s) = 0%nat /\
  workers s = [] /\
  traceProgram (tr s) = None /\ traceKernel (tr s) = None /\
  traceOutput (tr s) = None /\ frustrumCorners (tr s) = None /\
  packedMaterials (tr s) = None /\ packedPrimitives (tr s) = None.

(** The object a field holds, if any, with its kind. *)
Definition held (g : group) (field : option handle) : list (group * handle) :=
  map (pair g) (option_list field).

(** The objects of a controller in the order [newTracer] and
    [setupKernel] create them, and in the order [cleanup] releases them. *)
Definition in_creation_order (t : clTracer) : list (group * handle) :=
  held GContext (ctx t) ++ held GQueue (cmdQueue t) ++
  held GProgram (traceProgram t) ++ held GKernel (traceKernel t) ++
  held GMem (traceOutput t) ++ held GMem (frustrumCorners t) ++
  held GMem (packedMaterials t) ++ held GMem (packedPrimitives t).

Definition in_release_order (t : clTracer) : list (group * handle) :=
  held GMem (packedPrimitives t) ++ held GMem (packedMaterials t) ++
  held GMem (traceOutput t) ++ held GMem (frustrumCorners t) ++
  held GKernel (traceKernel t) ++ held GProgram (traceProgram t) ++
  held GQueue (cmdQueue t) ++ held GContext (ctx t).

(** One operation on the controller, or one turn of a worker, that
    returns. *)
Inductive step : system -> system -> Prop :=
| step_Setup sc w h r s s' : Setup sc w h s = Ok r s' -> step s s'
| step_Enqueue blockReq s s' : Enqueue blockReq s = Ok tt s' -> step s s'
| step_worker i s s' : worker_turn i s = Ok tt s' -> step s s'
| step_SyncScene r s s' : SyncScene s = Ok r s' -> step s s'
| step_Close s s' : Close s = Ok tt s' -> step s s'.

(** The states a controller made by [newTracer] can be in. *)
Inductive reachable : system -> Prop :=
| reachable_new id' device' s0 s1 :
    newTracer id' device' s0 = Ok None s1 -> reachable s1
| reachable_step s s' : reachable s -> step s s' -> reachable s'.

(** ** Further notions: the calls of a rendering, errors from outside *)

(** The calls of a trace that were answered by a status, with it. *)
Definition status_of (e : event) : option (call * Z) :=
  match e with
  | Called c (RCode z) => Some (c, z)
  | _ => None
  end.

Definition log_of (e : event) : option logline :=
  match e with
  | Logged l => Some l
  | _ => None
  end.

Definition sent (e : event) : option (nat * (Z + error)) :=
  match e with
  | Sent chan v => Some (chan, v)
  | _ => None
  end.

(** The device calls of [process] for one request when none of them
    fails, in the order of its statements: the upload of the frustum, the
    ten arguments, the dispatch over the rows of the block, the wait, and
    the copy back. *)
Definition render_calls (t : clTracer) (sc : Scene) (blockReq : BlockRequest)
  : list call :=
  let offset := (frameW t * 4 * 4 * BlockY blockReq) mod 2 ^ 32 in
  let size := (frameW t * 4 * 4 * BlockH blockReq) mod 2 ^ 32 in
  [EnqueueWriteBuffer (cmdQueue t) (frustrumCorners t) cl.TRUE 0 64
     (frustrum_words (SceneCamera sc))]
  ++ map (fun a => SetKernelArg (traceKernel t) a.1.1 a.1.2 a.2)
         (kernel_abi t sc blockReq)
  ++ [EnqueueNDRangeKernel (cmdQueue t) (traceKernel t) 2
        [0; BlockY blockReq] [frameW t; BlockH blockReq];
      Finish (cmdQueue t);
      EnqueueReadBuffer (cmdQueue t) (traceOutput t) cl.TRUE offset size
        (RenderTarget blockReq) (offset / 4)].

(** The error [process] returns for a call that failed, and what it logs
    then. *)
Definition blame (c : call) : option error :=
  match c with
  | EnqueueWriteBuffer _ _ _ _ _ _ => Some ErrCopyingDataToDevice
  | SetKernelArg _ _ _ _ => Some ErrSettingKernelArguments
  | EnqueueNDRangeKernel _ _ _ _ _ => Some ErrKernelExecutionFailed
  | Finish _ => Some ErrKernelExecutionFailed
  | EnqueueReadBuffer _ _ _ _ _ _ _ => Some ErrCopyingDataToHost
  | _ => None
  end.

Definition failure_log (blockReq : BlockRequest) (c : call) (code : Z)
  : list logline :=
  match c with
  | EnqueueWriteBuffer _ _ _ _ _ _ => [LogFrustrumWriteFailed]
  | SetKernelArg _ index _ _ => [LogKernelArgFailed index]
  | EnqueueReadBuffer _ _ _ offset size _ _ =>
      [LogCopyToHostFailed (BlockY blockReq) (BlockH blockReq) offset size code]
  | _ => []
  end.

(** Errors that come from outside the package: of [os.Open] and
    [ioutil.ReadAll], and of [packScene]. *)
Definition file_error (e : event) : option error :=
  match e with
  | Called (OsOpen _) (RStatus (Some err)) => Some err
  | Called IoReadAll (RFile (inl err)) => Some err
  | _ => None
  end.

Definition pack_error (e : event) : option error :=
  match e with
  | Called PackScene (RPacked (inl err)) => Some err
  | _ => None
  end.

(** Calls into the OpenCL binding. *)
Definition device_call (e : event) : bool :=
  match e with
  | Called (OsOpen _) _ | Called IoReadAll _ | Called PackScene _ => false
  | Called _ _ => true
  | _ => false
  end.

(** Flags and size of the buffers a trace asks for. *)
Definition buffer_request (e : event) : option (Z * Z) :=
  match e with
  | Called (CreateBuffer _ flags size) _ => Some (flags, size)
  | _ => None
  end.

(** A controller that holds no device object and waits for no goroutine,
    and a state in which a controller without context is such a one. *)
Definition released (t : clTracer) : Prop :=
  closeChan t = true /\ wg t = 0%nat /\ cmdQueue t = None /\
  traceProgram t = None /\ traceKernel t = None /\ traceOutput t = None /\
  frustrumCorners t = None /\ packedMaterials t = None /\
  packedPrimitives t = None.

Definition settled (s : system) : Prop := ctx (tr s) = None -> released (tr s).

(** The field in which [setupKernel] keeps the object a call creates. *)
Definition field_of (c : call) : option (clTracer -> option handle) :=
  match c with
  | CreateProgramWithSource _ _ => Some traceProgram
  | CreateKernel _ _ => Some traceKernel
  | CreateBuffer _ flags _ =>
      if flags =? cl.MEM_WRITE_ONLY then Some traceOutput else Some frustrumCorners
  | CreateImage _ _ _ _ (HostMaterials _) => Some packedMaterials
  | CreateImage _ _ _ _ (HostPrimitives _) => Some packedPrimitives
  | _ => None
  end.

(** The states a run of the controller goes through from [s]. *)
Definition later (s s' : system) : Prop := rtc step s s'.
Lemma wp_bind {A B} (m : M A) (k : A -> M B) s Q :
  wp m s (fun o => match o with
                   | Ok a s' => wp (k a) s' Q
                   | Crash f s' => Q (Crash f s')
                   end) ->
  wp (bind m k) s Q.
Proof. unfold wp, bind. by destruct (m s). Qed.

Lemma wp_ret {A} (a : A) s (Q : outcome A -> Prop) : Q (Ok a s) -> wp (ret a) s Q.
Proof. done. Qed.

Lemma wp_panic {A} f s (Q : outcome A -> Prop) : Q (Crash f s) -> wp (panic f) s Q.
Proof. done. Qed.

Lemma wp_get {A} (f : clTracer -> A) s Q : Q (Ok (f (tr s)) s) -> wp (get f) s Q.
Proof. done. Qed.

Lemma wp_modify f s Q : Q (Ok tt (with_tr f s)) -> wp (modify f) s Q.
Proof. done. Qed.

Lemma wp_record e s Q : Q (Ok tt (emit e s)) -> wp (record e) s Q.
Proof. done. Qed.

Lemma wp_call_code c s Q :
  (forall e, Q (Ok e (emit (Called c (RCode e)) s))) -> wp (call_code c) s Q.
Proof. intros H. apply H. Qed.

Lemma wp_call_handle c s Q :
  (forall h, Q (Ok h (emit (Called c (RHandle h)) s))) -> wp (call_handle c) s Q.
Proof. intros H. apply H. Qed.

Lemma wp_inspect {A} (f : system -> A) s (Q : outcome A -> Prop) :
  Q (Ok (f s) s) -> wp (inspect f) s Q.
Proof. done. Qed.

Lemma wp_update f s Q : Q (Ok tt (f s)) -> wp (update f) s Q.
Proof. done. Qed.
(** ** Symbolic execution *)

Lemma wp_cl_EnqueueReadBuffer q buf blocking offset size target index s Q :
  let c := EnqueueReadBuffer q buf blocking offset size target index in
  let data := device_words (trace s) buf offset size in
  let cur := default [] (hostmem s !! target) in
  (forall e, failing e = true -> Q (Ok e (emit (Called c (RCode e)) s))) ->
  (forall e, failing e = false ->
             (Z.to_nat index + length data <= length cur)%nat ->
             Q (Ok e (with_hostmem
                        (<[target := list_inserts (Z.to_nat index) data cur]> (hostmem s))
                        (emit (Called c (RCode e)) s)))) ->
  (forall e, failing e = false ->
             (length cur < Z.to_nat index + length data)%nat ->
             Q (Ok e (with_hostmem (drv_overrun drv (trace s) (hostmem s))
                        (emit (Called c (RCode e)) s)))) ->
  wp (cl_EnqueueReadBuffer q buf blocking offset size target index) s Q.
Proof.
  intros c data cur H1 H2 H3. unfold wp, cl_EnqueueReadBuffer.
  fold c data cur.
  destruct (failing (drv_code drv (trace s) c)) eqn:Hf; [by apply H1|].
  destruct (Z.to_nat index + length data <=? length cur)%nat eqn:Hfit.
  - apply Nat.leb_le in Hfit. by apply H2.
  - apply Nat.leb_gt in Hfit. by apply H3.
Qed.

Local Arguments wrap32 : simpl never.
Local Arguments wrap64 : simpl never.
Local Arguments mul32 : simpl never.
Local Arguments mul64 : simpl never.
Local Arguments sub64 : simpl never.
Local Arguments Z.mul : simpl never.
Local Arguments Z.shiftr : simpl never.
Local Arguments Z.leb : simpl never.

Ltac red_state :=
  cbv beta iota;
  cbn [tr trace hostmem workers emit emit_all with_tr with_hostmem with_workers
       final result fst snd
       mu wg id device ctx cmdQueue traceProgram traceKernel traceOutput
       frustrumCorners packedMaterials packedPrimitives scene frameW frameH closeChan
       set_mu set_wg set_ctx set_cmdQueue set_traceProgram set_traceKernel
       set_traceOutput set_frustrumCorners set_packedMaterials set_packedPrimitives
       set_scene set_frameW set_frameH set_closeChan].

Ltac red_in H :=
  cbn [tr trace hostmem workers emit emit_all with_tr with_hostmem with_workers
       final result fst snd
       mu wg id device ctx cmdQueue traceProgram traceKernel traceOutput
       frustrumCorners packedMaterials packedPrimitives scene frameW frameH closeChan
       set_mu set_wg set_ctx set_cmdQueue set_traceProgram set_traceKernel
       set_traceOutput set_frustrumCorners set_packedMaterials set_packedPrimitives
       set_scene set_frameW set_frameH set_closeChan] in H.

Ltac wp_step :=
  lazymatch goal with
  | |- wp (bind _ _) _ _ => apply wp_bind
  | |- wp (ret _) _ _ => apply wp_ret
  | |- wp (panic _) _ _ => apply wp_panic
  | |- wp (get _) _ _ => apply wp_get
  | |- wp (modify _) _ _ => apply wp_modify
  | |- wp (record _) _ _ => apply wp_record
  | |- wp (call_code _) _ _ => apply wp_call_code; intros ?e
  | |- wp (call_handle _) _ _ => apply wp_call_handle; intros ?h
  | |- wp (cl_EnqueueReadBuffer _ _ _ _ _ _ _) _ _ =>
      apply wp_cl_EnqueueReadBuffer; intros ?e ?Hc; [ | intros ?Hfit | intros ?Hfit ]
  | |- wp (inspect _) _ _ => apply wp_inspect
  | |- wp (update _) _ _ => apply wp_update
  | |- wp (set_arg _ _ _) _ _ => unfold set_arg
  | |- wp (arg_failed _) _ _ => unfold arg_failed
  | |- wp (deref _) _ _ => unfold deref
  | |- wp (if failing ?e then _ else _) _ _ =>
      first [ match goal with H : failing e = _ |- _ => rewrite H end
            | let H := fresh "Hc" in destruct (failing e) eqn:H ]
  | |- wp (if ?b then _ else _) _ _ =>
      first [ match goal with H : b = _ |- _ => rewrite H end
            | let H := fresh "Hb" in destruct b eqn:H ]
  | |- wp (match ?x with Some _ => _ | None => _ end) _ _ =>
      first [ match goal with H : x = _ |- _ => rewrite H end
            | let H := fresh "Hx" in destruct x eqn:H ]
  end; red_state.

(** The events of a finished path, as a list. *)
Ltac events :=
  unfold since; cbn [final result trace emit emit_all with_hostmem with_tr with_workers];
  repeat match goal with
         | H : trace ?x = _ |- context [trace ?x] => rewrite H
         end;
  rewrite <- ?app_assoc; first [rewrite drop_app_length | rewrite drop_all];
  cbn [app].

Ltac fold_omap :=
  repeat match goal with
         | |- context [list_omap ?A ?B ?f ?l] =>
             progress change (list_omap A B f l) with (omap f l)
         end.

Lemma since_extends s s' evs : trace s' = trace s ++ evs -> since s s' = evs.
Proof. intros H. unfold since. rewrite H. by rewrite drop_app_length. Qed.

Lemma failing_false e : failing e = false -> e = cl.SUCCESS.
Proof. unfold failing. intros H. apply negb_false_iff in H. by apply Z.eqb_eq. Qed.

(** ** Kernel arguments *)

Ltac all_succeeded :=
  repeat match goal with
         | H : failing ?e = false |- _ => apply failing_false in H; subst e
         end.

Ltac binding_fails n :=
  exists n; eexists; split; [reflexivity|]; left;
  eexists _, _; split; [reflexivity|]; split; [eassumption|];
  split; reflexivity.

Ltac all_bound :=
  exists 10%nat; eexists; split; [reflexivity|]; right; split; [reflexivity|];
  eexists _, _; split; [reflexivity|]; split; reflexivity.

(** C4. For a request that [process] takes up on a controller with a
    scene, the first call is the upload of the frustum; when it fails no
    argument is bound and nothing is dispatched.  When it succeeds,
    [process] binds the arguments of the kernel ABI on the controller's
    kernel one after the other in the order of their indexes 0 to 9
    (output buffer, frustum buffer, packed primitives, packed materials,
    primitive count, eye position on 16 bytes, block row offset, samples
    per pixel, exposure, seed), each with the size and value of the ABI,
    and goes on to the next one only after a success.  Either a binding
    fails: it is the last call, its index is logged, [process] returns
    [ErrSettingKernelArguments] and the kernel is not dispatched; or all
    ten are bound with success and the very next call is the dispatch of
    the kernel, after which no argument is bound any more. *)
Theorem process_binds_kernel_arguments_in_order
    (blockReq : BlockRequest) (s : system) (sc : Scene) :
  scene (tr s) = Some sc ->
  let o := process blockReq s in
  let evs := since s (final o) in
  let abi := kernel_abi (tr s) sc blockReq in
  let k := traceKernel (tr s) in
  exists code0 rest,
    evs = Called (EnqueueWriteBuffer (cmdQueue (tr s)) (frustrumCorners (tr s))
                    cl.TRUE 0 64 (frustrum_words (SceneCamera sc))) (RCode code0)
          :: rest
    /\ (failing code0 = true ->
        bindings rest = [] /\ existsb is_dispatch rest = false)
    /\ (failing code0 = false ->
        exists n tail,
          rest = map (fun a => bound k a cl.SUCCESS) (take n abi) ++ tail /\
          ((exists a c,
               abi !! n = Some a /\ failing c = true /\
               tail = [bound k a c; Logged (LogKernelArgFailed a.1.1)] /\
               result o = Some (Some ErrSettingKernelArguments))
           \/
           (n = 10%nat /\
            exists cd tail',
              tail = Called (EnqueueNDRangeKernel (cmdQueue (tr s)) k 2
                               [0; BlockY blockReq] [frameW (tr s); BlockH blockReq])
                       (RCode cd) :: tail' /\
              bindings tail' = [] /\ existsb is_dispatch tail' = false))).
Proof.
  intros Hsc o evs abi k. subst k abi evs o.
  change (wp (process blockReq) s (fun o =>
    exists code0 rest,
      since s (final o) =
        Called (EnqueueWriteBuffer (cmdQueue (tr s)) (frustrumCorners (tr s))
                  cl.TRUE 0 64 (frustrum_words (SceneCamera sc))) (RCode code0)
        :: rest
      /\ (failing code0 = true ->
          bindings rest = [] /\ existsb is_dispatch rest = false)
      /\ (failing code0 = false ->
          exists n tail,
            rest = map (fun a => bound (traceKernel (tr s)) a cl.SUCCESS)
                       (take n (kernel_abi (tr s) sc blockReq)) ++ tail /\
            ((exists a c,
                 kernel_abi (tr s) sc blockReq !! n = Some a /\ failing c = true /\
                 tail = [bound (traceKernel (tr s)) a c;
                         Logged (LogKernelArgFailed a.1.1)] /\
                 result o = Some (Some ErrSettingKernelArguments))
             \/
             (n = 10%nat /\
              exists cd tail',
                tail = Called (EnqueueNDRangeKernel (cmdQueue (tr s))
                                 (traceKernel (tr s)) 2
                                 [0; BlockY blockReq] [frameW (tr s); BlockH blockReq])
                         (RCode cd) :: tail' /\
                bindings tail' = [] /\ existsb is_dispatch tail' = false))))).
  unfold process. repeat wp_step.
  all: events; unfold kernel_abi, bound.
  all: eexists _, _; (split; [reflexivity|]).
  all: split; intros Hup; try congruence.
  all: try (split; reflexivity).
  all: all_succeeded.
  all: first [ binding_fails 0%nat | binding_fails 1%nat | binding_fails 2%nat
             | binding_fails 3%nat | binding_fails 4%nat | binding_fails 5%nat
             | binding_fails 6%nat | binding_fails 7%nat | binding_fails 8%nat
             | binding_fails 9%nat | all_bound ].
Qed.
(** ** Rendering leaves the controller alone *)

Lemma render_step_refl s : render_step s s.
Proof. repeat split. exists []. by rewrite app_nil_r. Qed.

Lemma render_step_trans s1 s2 s3 :
  render_step s1 s2 -> render_step s2 s3 -> render_step s1 s3.
Proof.
  intros (Ht & Hw & evs & He & Hf) (Ht' & Hw' & evs' & He' & Hf').
  repeat split; [congruence..|].
  exists (evs ++ evs'). split.
  - by rewrite He', He, app_assoc.
  - by apply Forall_app.
Qed.

Ltac render_leaf :=
  repeat split;
  eexists; split;
  [ cbn [trace emit with_hostmem with_tr with_workers]; rewrite <- ?app_assoc;
    try reflexivity; symmetry; apply app_nil_r
  | repeat constructor ].

Lemma process_render_step blockReq s :
  render_step s (final (process blockReq s)).
Proof.
  change (wp (process blockReq) s (fun o => render_step s (final o))).
  unfold process.
  repeat wp_step.
  all: render_leaf.
Qed.
Lemma serve_render_step blockReq s : render_step s (final (serve blockReq s)).
Proof.
  unfold serve, bind.
  pose proof (process_render_step blockReq s) as H.
  destruct (process blockReq s) as [[e|] s1|f s1]; cbn [final] in *; auto.
  all: eapply render_step_trans; [exact H|].
  all: repeat split; eexists; split; [reflexivity|repeat constructor].
Qed.

Lemma retire_frame ws : forall i s,
  let s' := final (retire ws i s) in
  same_but_wg (tr s) (tr s') /\ length (workers s') = length (workers s) /\
  exists evs, trace s' = trace s ++ evs /\ Forall is_render evs.
Proof.
  induction ws as [|w rest IH]; intros i s; cbn [retire].
  { cbn. repeat split. exists []. by rewrite app_nil_r. }
  assert (Hexit : forall s0, 
    same_but_wg (tr s) (tr s0) -> length (workers s0) = length (workers s) ->
    (exists evs, trace s0 = trace s ++ evs /\ Forall is_render evs) ->
    let s' := final ((worker_exit i ;;; retire rest (S i)) s0) in
    same_but_wg (tr s) (tr s') /\ length (workers s') = length (workers s) /\
    exists evs, trace s' = trace s ++ evs /\ Forall is_render evs).
  { intros s0 Ht Hl (evs & He & Hf). unfold worker_exit, set_worker, update, modify, bind.
    match goal with |- context [retire rest (S i) ?x] => 
      destruct (IH (S i) x) as (Ht' & Hl' & evs' & He' & Hf') end.
    cbn [tr workers trace with_tr with_workers] in *.
    repeat split.
    - unfold same_but_wg in *. rewrite Ht'. rewrite <- Ht. reflexivity.
    - rewrite Hl'. by rewrite length_insert.
    - exists (evs ++ evs'). split; [by rewrite He', He, app_assoc|by apply Forall_app]. }
  destruct w as [|blockReq|].
  - apply Hexit; [reflexivity|reflexivity|]. exists []. by rewrite app_nil_r.
  - assert (Hs : ((serve blockReq ;;; worker_exit i) ;;; retire rest (S i)) s =
                 match serve blockReq s with
                 | Ok _ s1 => (worker_exit i ;;; retire rest (S i)) s1
                 | Crash f s1 => Crash f s1
                 end) by (unfold bind; by destruct (serve blockReq s)).
    rewrite Hs. clear Hs.
    pose proof (serve_render_step blockReq s) as (Ht & Hw & Hev).
    destruct (serve blockReq s) as [[] s1|f s1]; cbn [final] in *.
    + apply Hexit; [unfold same_but_wg; by rewrite Ht|by rewrite Hw|exact Hev].
    + repeat split; [unfold same_but_wg; by rewrite Ht|by rewrite Hw|exact Hev].
  - unfold bind at 1. cbn [ret]. apply IH.
Qed.
Lemma retire_ok ws : forall done s s',
  workers s = done ++ ws ->
  retire ws (length done) s = Ok tt s' ->
  workers s' = done ++ replicate (length ws) Exited /\
  wg (tr s') = (wg (tr s) - live_workers ws)%nat.
Proof.
  induction ws as [|w rest IH]; intros done s s' Hw Hr; cbn [retire] in Hr.
  { injection Hr as <-. cbn. rewrite Hw. split; [done|lia]. }
  assert (Hexit : forall s0, workers s0 = done ++ w :: rest ->
    (worker_exit (length done) ;;; retire rest (S (length done))) s0 = Ok tt s' ->
    workers s' = done ++ replicate (length (w :: rest)) Exited /\
    wg (tr s') = (wg (tr s0) - S (live_workers rest))%nat).
  { intros s0 Hw0 Hr0. unfold worker_exit, set_worker, update, modify, bind in Hr0.
    cbn [workers with_workers with_tr] in Hr0.
    replace (S (length done)) with (length (done ++ [Exited])) in Hr0
      by (rewrite length_app; cbn; lia).
    apply IH in Hr0 as [Hws Hwg].
    - cbn [tr with_tr with_workers set_wg wg] in Hwg.
      split; [|lia]. rewrite Hws. rewrite <- app_assoc. reflexivity.
    - cbn [workers with_tr with_workers]. rewrite Hw0.
      rewrite insert_app_r_alt by lia. rewrite Nat.sub_diag. cbn.
      by rewrite <- app_assoc. }
  destruct w as [|blockReq|].
  - by apply Hexit.
  - assert (Hs : ((serve blockReq ;;; worker_exit (length done)) ;;;
                  retire rest (S (length done))) s =
                 match serve blockReq s with
                 | Ok _ s1 => (worker_exit (length done) ;;;
                               retire rest (S (length done))) s1
                 | Crash f s1 => Crash f s1
                 end) by (unfold bind; by destruct (serve blockReq s)).
    rewrite Hs in Hr. clear Hs.
    pose proof (serve_render_step blockReq s) as (Ht & Hw' & _).
    destruct (serve blockReq s) as [[] s1|f s1]; [|discriminate].
    cbn [final] in *. apply Hexit in Hr; [|congruence].
    by rewrite Ht in Hr.
  - unfold bind in Hr at 1. cbn [ret] in Hr.
    replace (S (length done)) with (length (done ++ [Exited])) in Hr
      by (rewrite length_app; cbn; lia).
    apply IH in Hr as [Hws Hwg].
    + split; [|exact Hwg]. rewrite Hws, <- app_assoc. reflexivity.
    + rewrite Hw, <- app_assoc. reflexivity.
Qed.

(** Without a worker that holds a request, retiring runs no rendering. *)
Lemma retire_idle ws : forall i s,
  Forall (fun w => is_busy w = false) ws ->
  exists s', retire ws i s = Ok tt s' /\ trace s' = trace s /\
             hostmem s' = hostmem s /\ same_but_wg (tr s) (tr s').
Proof.
  induction ws as [|w rest IH]; intros i s Hb; cbn [retire].
  { by exists s. }
  apply Forall_cons in Hb as [Hw Hrest].
  destruct w as [|blockReq|]; [|discriminate|].
  - unfold worker_exit, set_worker, update, modify, bind.
    match goal with |- context [retire rest (S i) ?x] =>
      destruct (IH (S i) x Hrest) as (s' & -> & Ht & Hm & Hs) end.
    exists s'. repeat split; try done.
  - unfold bind at 1. cbn [ret]. by apply IH.
Qed.

(** ** The copy back to the host *)

Lemma mul32_chain w y : mul32 (mul32 (mul32 w 4) 4) y = (w * 4 * 4 * y) mod 2 ^ 32.
Proof.
  unfold mul32, wrap32.
  rewrite (Z.mul_mod_idemp_l (w * 4) 4) by lia.
  by rewrite (Z.mul_mod_idemp_l (w * 4 * 4) y) by lia.
Qed.

(** C10. In [process], the offset and the length of the copy from the
    device are products of 32-bit unsigned integers: they are
    [frameW * 4 * 4 * BlockY] and [frameW * 4 * 4 * BlockH] modulo 2^32, the
    widening to 64 bits changes nothing, and when such a product reaches
    2^32 the value passed differs from it. *)
Theorem process_copy_offset_and_length_wrap
    (blockReq : BlockRequest) (s : system)
    (q buf : option handle) (blocking offset size : Z) (target : nat) (index : Z)
    (r : response) :
  Called (EnqueueReadBuffer q buf blocking offset size target index) r
    ∈ since s (final (process blockReq s)) ->
  let w := frameW (tr s) in
  offset = (w * 4 * 4 * BlockY blockReq) mod 2 ^ 32
  /\ size = (w * 4 * 4 * BlockH blockReq) mod 2 ^ 32
  /\ wrap64 offset = offset /\ wrap64 size = size
  /\ (2 ^ 32 <= w * 4 * 4 * BlockY blockReq -> offset <> w * 4 * 4 * BlockY blockReq)
  /\ (2 ^ 32 <= w * 4 * 4 * BlockH blockReq -> size <> w * 4 * 4 * BlockH blockReq).
Proof.
  intros Hin w.
  assert (Hargs : offset = mul32 (mul32 (mul32 w 4) 4) (BlockY blockReq) /\
                  size = mul32 (mul32 (mul32 w 4) 4) (BlockH blockReq)).
  { revert Hin. subst w.
    change (wp (process blockReq) s (fun o =>
      Called (EnqueueReadBuffer q buf blocking offset size target index) r
        ∈ since s (final o) ->
      offset = mul32 (mul32 (mul32 (frameW (tr s)) 4) 4) (BlockY blockReq) /\
      size = mul32 (mul32 (mul32 (frameW (tr s)) 4) 4) (BlockH blockReq))).
    unfold process. repeat wp_step.
    all: events; intros Hin.
    all: repeat (apply elem_of_cons in Hin as [Heq|Hin];
                 [try discriminate Heq; injection Heq; intros; by subst|]).
    all: by apply elem_of_nil in Hin. }
  destruct Hargs as [-> ->]. rewrite !mul32_chain.
  pose proof (Z.mod_pos_bound (w * 4 * 4 * BlockY blockReq) (2 ^ 32) ltac:(lia)).
  pose proof (Z.mod_pos_bound (w * 4 * 4 * BlockH blockReq) (2 ^ 32) ltac:(lia)).
  unfold wrap64.
  rewrite (Z.mod_small ((w * 4 * 4 * BlockY blockReq) mod 2 ^ 32) (2 ^ 64)) by lia.
  rewrite (Z.mod_small ((w * 4 * 4 * BlockH blockReq) mod 2 ^ 32) (2 ^ 64)) by lia.
  repeat split; lia.
Qed.

Lemma length_device_words hist buf offset size :
  length (device_words hist buf offset size) = Z.to_nat (size / 4).
Proof. unfold device_words. by rewrite length_map, length_seq. Qed.

Lemma index_in_range (l : option (list float32)) index :
  0 <= index -> (len (default [] l) <=? index) = false ->
  exists rt, l = Some rt /\ (Z.to_nat index < length rt)%nat.
Proof.
  intros Hi Hb. apply Z.leb_gt in Hb. unfold len in Hb.
  destruct l as [rt|]; cbn in Hb; [|lia]. exists rt. split; [done|lia].
Qed.

(** C3, with the products as the code takes them, modulo 2^32, and for
    the blocks that fit in the render target. When [process] succeeds for
    a request of row offset [y] and height [h] on a controller of frame
    width [w], its last call reads [(4*4*w*h) mod 2^32] bytes of the device
    output buffer from byte [(4*4*w*y) mod 2^32] on, to the element of the
    caller's render target at the float index that is this byte offset
    divided by 4; that element exists, which is all the code checks.
    When the bytes read fit in the render target from that index on, they
    are there afterwards and every other cell of the render target (and
    every other slice) is as before.  A read that fails makes [process]
    return [ErrCopyingDataToHost]; and while [4*4*w*y] and [4*4*w*h] stay
    below 2^32 the offset is [4*4*w*y], the index [w*4*y] and the length
    [4*4*w*h]. *)
Theorem process_copies_block_to_render_target (blockReq : BlockRequest) (s : system) :
  let o := process blockReq s in
  let w := frameW (tr s) in
  let offset := (4 * 4 * w * BlockY blockReq) mod 2 ^ 32 in
  let size := (4 * 4 * w * BlockH blockReq) mod 2 ^ 32 in
  let index := offset / 4 in
  (forall s', o = Ok None s' ->
     exists hist rt,
       trace s' =
       hist ++ [Called (EnqueueReadBuffer (cmdQueue (tr s)) (traceOutput (tr s))
                          cl.TRUE offset size (RenderTarget blockReq) index)
                  (RCode cl.SUCCESS)] /\
       hostmem s !! RenderTarget blockReq = Some rt /\
       (Z.to_nat index < length rt)%nat /\
       let data := device_words hist (traceOutput (tr s)) offset size in
       let rt' := list_inserts (Z.to_nat index) data rt in
       length data = Z.to_nat (size / 4) /\
       ((Z.to_nat index + length data <= length rt)%nat ->
        hostmem s' = <[RenderTarget blockReq := rt']> (hostmem s) /\
        (forall j, (j < length data)%nat -> rt' !! (Z.to_nat index + j)%nat = data !! j) /\
        (forall j, (j < Z.to_nat index)%nat \/ (Z.to_nat index + length data <= j)%nat ->
                   rt' !! j = rt !! j)))
  /\ (forall c e, Called c (RCode e) ∈ since s (final o) ->
                  is_read c = true -> failing e = true ->
                  result o = Some (Some ErrCopyingDataToHost))
  /\ (0 <= w -> 0 <= BlockY blockReq -> 4 * 4 * w * BlockY blockReq < 2 ^ 32 ->
      offset = 4 * 4 * w * BlockY blockReq /\ index = w * 4 * BlockY blockReq)
  /\ (0 <= w -> 0 <= BlockH blockReq -> 4 * 4 * w * BlockH blockReq < 2 ^ 32 ->
      size = 4 * 4 * w * BlockH blockReq).
Proof.
  intros o w offset size index.
  assert (Hoff : mul32 (mul32 (mul32 w 4) 4) (BlockY blockReq) = offset).
  { rewrite mul32_chain. subst offset. f_equal. ring. }
  assert (Hsize : mul32 (mul32 (mul32 w 4) 4) (BlockH blockReq) = size).
  { rewrite mul32_chain. subst size. f_equal. ring. }
  assert (Hidx : Z.shiftr offset 2 = index).
  { subst index. by rewrite Z.shiftr_div_pow2 by lia. }
  assert (Hoff0 : 0 <= offset < 2 ^ 32) by (apply Z.mod_pos_bound; lia).
  assert (Hidx0 : 0 <= index) by (subst index; apply Z.div_pos; lia).
  split; [|split; [|split]].
  - subst o.
    change (wp (process blockReq) s (fun o => forall s', o = Ok None s' ->
     exists hist rt,
       trace s' =
       hist ++ [Called (EnqueueReadBuffer (cmdQueue (tr s)) (traceOutput (tr s))
                          cl.TRUE offset size (RenderTarget blockReq) index)
                  (RCode cl.SUCCESS)] /\
       hostmem s !! RenderTarget blockReq = Some rt /\
       (Z.to_nat index < length rt)%nat /\
       let data := device_words hist (traceOutput (tr s)) offset size in
       let rt' := list_inserts (Z.to_nat index) data rt in
       length data = Z.to_nat (size / 4) /\
       ((Z.to_nat index + length data <= length rt)%nat ->
        hostmem s' = <[RenderTarget blockReq := rt']> (hostmem s) /\
        (forall j, (j < length data)%nat -> rt' !! (Z.to_nat index + j)%nat = data !! j) /\
        (forall j, (j < Z.to_nat index)%nat \/ (Z.to_nat index + length data <= j)%nat ->
                   rt' !! j = rt !! j)))).
    unfold process.
    repeat wp_step.
    all: try (intros s' Hs'; discriminate Hs').
    all: red_in Hfit; fold w in Hb, Hfit |- *; rewrite ?Hoff, ?Hsize, ?Hidx;
      rewrite ?Hoff, ?Hsize, ?Hidx in Hfit; rewrite ?Hoff, ?Hidx in Hb.
    all: all_succeeded.
    all: apply index_in_range in Hb as (rt & Hrt & Hlt); [|exact Hidx0].
    all: rewrite Hrt in Hfit; rewrite ?Hrt; cbn [default from_option] in Hfit |- *;
      unfold Datatypes.id in Hfit |- *.
    all: intros s' [= <-]; red_state.
    all: eexists _, rt; (split; [reflexivity|]); (split; [reflexivity|]);
      (split; [exact Hlt|]); cbv zeta; (split; [apply length_device_words|]).
    + intros _. split; [reflexivity|]. split.
      * intros j Hj. rewrite list_lookup_inserts by lia. f_equal. lia.
      * intros j [Hj|Hj].
        -- by apply list_lookup_inserts_lt.
        -- by apply list_lookup_inserts_ge.
    + intros Hfit'. exfalso. lia.
  - subst o.
    change (wp (process blockReq) s (fun o => forall c e,
      Called c (RCode e) ∈ since s (final o) ->
      is_read c = true -> failing e = true ->
      result o = Some (Some ErrCopyingDataToHost))).
    unfold process. repeat wp_step.
    all: events; intros c e' Hin Hr Hf; try reflexivity.
    all: exfalso;
      repeat (apply elem_of_cons in Hin as [Heq|Hin];
              [try discriminate Heq; injection Heq as -> ->;
               first [discriminate Hr | congruence]|]).
    all: by apply elem_of_nil in Hin.
  - intros Hw Hy Hlt. subst index offset.
    rewrite Z.mod_small by lia. split; [done|].
    replace (4 * 4 * w * BlockY blockReq) with (w * 4 * BlockY blockReq * 4) by ring.
    by rewrite Z.div_mul.
  - intros Hw Hh Hlt. subst size. by rewrite Z.mod_small by lia.
Qed.

(** ** cleanup *)

Lemma wp_release field rel clear s Q :
  (forall t, field t = None -> clear t = t) ->
  (forall codes,
      length codes = length (option_list (field (tr s))) ->
      Q (Ok tt (with_tr clear
                  (emit_all (answered (map rel (option_list (field (tr s)))) codes) s)))) ->
  wp (release field rel clear) s Q.
Proof.
  intros Hclear H. unfold wp, release, bind, get.
  destruct (field (tr s)) as [p|] eqn:Hf.
  - specialize (H [drv_code drv (trace s) (rel p)] eq_refl). exact H.
  - specialize (H [] eq_refl). cbn in H.
    replace (with_tr clear (emit_all [] s)) with s in H; [exact H|].
    destruct s as [t tc hm ws]. unfold with_tr, emit_all. cbn in *.
    by rewrite Hclear, app_nil_r.
Qed.

Lemma answered_app cs1 cs2 codes1 codes2 :
  length codes1 = length cs1 ->
  answered cs1 codes1 ++ answered cs2 codes2 = answered (cs1 ++ cs2) (codes1 ++ codes2).
Proof. intros H. unfold answered. by rewrite zip_with_app. Qed.

Lemma wg_Wait_spec s : counted s -> wg_Wait_post s (wg_Wait s).
Proof.
  intros Hc. unfold wg_Wait_post, wg_Wait, bind, get, inspect.
  pose proof (retire_frame (workers s) 0 s) as (Hsame & _ & wevs & Htr & Hf).
  exists wevs. split; [exact Hf|].
  destruct (retire (workers s) 0 s) as [[] s1|f s1] eqn:Hr; cbn [final] in *.
  - right.
    apply (retire_ok (workers s) [] s s1 eq_refl) in Hr as Hok.
    destruct Hok as [Hws Hwg]. rewrite Hc, Nat.sub_diag in Hwg. rewrite Hwg.
    eexists. split; [unfold record; reflexivity|]. cbn [trace emit tr workers hostmem].
    repeat split.
    + by rewrite Htr, app_assoc.
    + unfold same_but_wg in Hsame. rewrite <- Hsame.
      destruct (tr s1); cbn in *. by subst.
    + exact Hws.
    + destruct (retire_idle (workers s) 0 s H) as (s2 & Hr2 & Ht2 & _).
      rewrite Hr in Hr2. injection Hr2 as <-.
      rewrite Htr in Ht2. by apply app_inv_head with (trace s); rewrite app_nil_r.
    + destruct (retire_idle (workers s) 0 s H) as (s2 & Hr2 & _ & Hm2 & _).
      rewrite Hr in Hr2. by injection Hr2 as <-.
  - left. exists f, s1. split; [reflexivity|]. split; [exact Htr|].
    destruct (decide (Forall (fun w => is_busy w = false) (workers s))) as [Hi|Hi].
    + destruct (retire_idle (workers s) 0 s Hi) as (s2 & Hr2 & _).
      rewrite Hr in Hr2. discriminate.
    + apply not_Forall_Exists in Hi; [|intros w; apply _].
      eapply Exists_impl; [exact Hi|]. intros w Hw. cbn in Hw.
      by destruct (is_busy w).
Qed.

Lemma wp_spec {A} (m : M A) s (R Q : outcome A -> Prop) :
  R (m s) -> (forall o, R o -> Q o) -> wp m s Q.
Proof. intros H HQ. by apply HQ. Qed.

Lemma cleanup_false_spec s : counted s -> cleanup_post s (cleanup false s).
Proof.
  intros Hcount.
  change (wp (cleanup false) s (cleanup_post s)).
  unfold cleanup_post, cleanup, locked.
  destruct (ctx (tr s)) as [c|] eqn:Hctx; [|by repeat wp_step].
  destruct (closeChan (tr s)) eqn:Hcc.
  { repeat wp_step. unfold close_closeChan. by repeat wp_step. }
  repeat wp_step. unfold close_closeChan. repeat wp_step.
  eapply wp_spec; [apply wg_Wait_spec; exact Hcount|].
  intros o (wevs & Hwevs & [(f & s' & -> & Htr & Hbusy)|(s' & -> & Htr & Ht & Hws & Hidle)]).
  { exists wevs. split; [exact Hwevs|]. left. exists f, s'. split; [reflexivity|].
    split; [|exact Hbusy]. rewrite Htr. cbn [trace emit with_tr].
    by rewrite <- app_assoc. }
  red_in Htr. red_in Ht. red_in Hws. red_in Hidle.
  repeat (apply wp_bind; apply wp_release;
          [by intros [] ?; cbn in *; subst | intros ?codes ?Hlen]; red_state;
          rewrite ?Ht; red_state;
          match goal with H : length _ = length (option_list _) |- _ =>
            red_in H; rewrite ?Ht in H; red_in H end).
  apply wp_release; [by intros [] ?; cbn in *; subst | intros ?codes ?Hlen]; red_state.
  rewrite ?Ht; red_state. red_in Hlen6; rewrite ?Ht in Hlen6; red_in Hlen6.
  exists wevs. split; [exact Hwevs|]. right.
  exists (codes ++ codes0 ++ codes1 ++ codes2 ++ codes3 ++ codes4 ++ codes5 ++ codes6).
  eexists. split; [reflexivity|]. red_state.
  split; [|split; [|split; [|split]]].
  - unfold release_plan. rewrite !length_app, !length_map. lia.
  - rewrite Htr. unfold release_plan.
    rewrite <- !answered_app by (by rewrite length_map).
    rewrite <- !app_assoc. reflexivity.
  - rewrite Ht. reflexivity.
  - exact Hws.
  - exact Hidle.
Qed.

(** ** What a teardown adds to the trace *)

Lemma grows_refl P s : grows P s s.
Proof. exists []. by rewrite app_nil_r. Qed.

Lemma grows_trans P s1 s2 s3 : grows P s1 s2 -> grows P s2 s3 -> grows P s1 s3.
Proof.
  intros (evs & He & Hf) (evs' & He' & Hf'). exists (evs ++ evs'). split.
  - by rewrite He', He, app_assoc.
  - by apply Forall_app.
Qed.

Lemma grows_weaken (P P' : event -> Prop) s s' :
  (forall e, P e -> P' e) -> grows P s s' -> grows P' s s'.
Proof.
  intros HP (evs & He & Hf). exists evs. split; [done|].
  eapply Forall_impl; [exact Hf|exact HP].
Qed.

Lemma grows_emit (P : event -> Prop) e s : P e -> grows P s (emit e s).
Proof. intros He. exists [e]. split; [done|]. by constructor. Qed.

Lemma within_bind {A B} P (m : M A) (k : A -> M B) :
  within (grows P) m -> (forall a, within (grows P) (k a)) ->
  within (grows P) (bind m k).
Proof.
  intros Hm Hk s. unfold bind. specialize (Hm s).
  destruct (m s) as [a s1|f s1]; cbn [final] in *; [|done].
  eapply grows_trans; [exact Hm|apply Hk].
Qed.

Lemma within_release field rel clear :
  (forall h r, is_teardown (Called (rel h) r)) ->
  within (grows is_teardown) (release field rel clear).
Proof.
  intros Hrel s. unfold release, bind, get.
  destruct (field (tr s)) as [h|]; [|apply grows_refl].
  cbn. exists [Called (rel h) (RCode (drv_code drv (trace s) (rel h)))].
  split; [done|]. constructor; [apply Hrel|constructor].
Qed.

Lemma within_wg_Wait : within (grows is_teardown) wg_Wait.
Proof.
  intros s. unfold wg_Wait, bind, inspect, get.
  pose proof (retire_frame (workers s) 0 s) as (_ & _ & Hg).
  apply (grows_weaken is_render is_teardown) in Hg; [|by left].
  destruct (retire (workers s) 0 s) as [[] s1|f s1]; cbn [final] in *; [|done].
  destruct (wg (tr s1)); cbn [final panic record].
  - eapply grows_trans; [exact Hg|]. apply grows_emit. right. right. by left.
  - exact Hg.
Qed.

Lemma within_cleanup_false : within (grows is_teardown) (cleanup false).
Proof.
  unfold cleanup, locked.
  apply within_bind; [intros s; apply grows_refl|]. intros [c|]; [|intros s; apply grows_refl].
  apply within_bind.
  { intros s. unfold close_closeChan, bind, get, modify, record.
    destruct (closeChan (tr s)); cbn; [apply grows_refl|].
    exists [ClosedCloseChan]. split; [done|]. constructor; [|constructor].
    right. by left. }
  intros _. apply within_bind; [apply within_wg_Wait|]. intros _.
  repeat (apply within_bind;
          [apply within_release; intros; right; right; right; exact I|intros _]).
  apply within_release; intros; right; right; right; exact I.
Qed.

(** ** Close *)

Lemma locked_true {A} (body : M A) s :
  mu (tr s) = false ->
  locked true body s =
  match body (with_tr (set_mu true) s) with
  | Ok r s' => Ok r (with_tr (set_mu false) s')
  | Crash f s' => Crash f s'
  end.
Proof.
  intros Hmu. unfold locked, Lock, Unlock, bind, modify, ret. rewrite Hmu.
  by destruct (body _).
Qed.

Lemma answered_release cs codes :
  Forall (fun c => forall r, is_release (Called c r)) cs ->
  Forall is_release (answered cs codes).
Proof.
  unfold answered. intros H. revert codes.
  induction H as [|c cs Hc _ IH]; intros [|e codes]; cbn; constructor; auto.
Qed.

Lemma release_plan_releases t :
  Forall (fun c => forall r, is_release (Called c r)) (release_plan t).
Proof.
  unfold release_plan.
  repeat (apply Forall_app; split); apply Forall_map, Forall_forall; by intros.
Qed.

Lemma torn_down_plan t : release_plan (torn_down t) = [].
Proof. reflexivity. Qed.

Lemma Close_unfold s :
  mu (tr s) = false ->
  Close s =
  match cleanup false (with_tr (set_mu true) s) with
  | Ok r s' => Ok r (with_tr (set_mu false) s')
  | Crash f s' => Crash f s'
  end.
Proof. intros Hmu. exact (locked_true _ s Hmu). Qed.

Lemma unlock_lock s : mu (tr s) = false -> with_tr (set_mu false) (with_tr (set_mu true) s) = s.
Proof. destruct s as [[] ? ? ?]. cbn. by intros ->. Qed.

Lemma Close_noop s : mu (tr s) = false -> ctx (tr s) = None -> Close s = Ok tt s.
Proof.
  intros Hmu Hctx. rewrite Close_unfold by exact Hmu.
  unfold cleanup, locked, bind, get. cbn [tr with_tr ctx set_mu]. rewrite Hctx.
  cbn [ret]. by rewrite unlock_lock.
Qed.

Lemma live_workers_exited n : live_workers (replicate n Exited) = 0%nat.
Proof. induction n; cbn; auto. Qed.

(** C7. In a consistent state, [Close] on a controller without context
    changes nothing.  On a controller with a context its first event is
    the close of the close channel, which signals the workers; then come
    the last rendering events of the workers, and only when every worker
    has returned and the wait has ended come the releases, one for each
    handle the controller holds, after which every handle is nil and
    every worker has returned; when a worker's rendering panics, [Close]
    does not return and nothing is released.  A [Close] that has returned
    leaves a consistent state in which a further [Close] changes nothing;
    and [Close] returns whenever no worker holds a request. *)
Theorem Close_waits_for_worker_then_releases (s : system) :
  consistent s ->
  let o := Close s in
  let evs := since s (final o) in
  (ctx (tr s) = None -> o = Ok tt s)
  /\ (ctx (tr s) <> None ->
      exists wevs rels,
        evs = ClosedCloseChan :: wevs ++ rels /\ Forall is_render wevs /\
        ((result o = None /\ rels = [] /\
          Exists (fun w => is_busy w = true) (workers s))
         \/
         (exists s' codes,
             o = Ok tt s' /\
             rels = WaitedForWorkers :: answered (release_plan (tr s)) codes /\
             length codes = length (release_plan (tr s)) /\
             Forall is_release (answered (release_plan (tr s)) codes) /\
             Forall (fun w => w = Exited) (workers s') /\
             tr s' = torn_down (tr s))))
  /\ (forall s', o = Ok tt s' -> consistent s' /\ Close s' = Ok tt s')
  /\ (Forall (fun w => is_busy w = false) (workers s) -> exists s', o = Ok tt s').
Proof.
  intros (Hmu & Hcount & Hclosed) o evs. subst evs o.
  split; [by apply Close_noop|].
  rewrite Close_unfold by exact Hmu.
  pose proof (cleanup_false_spec (with_tr (set_mu true) s) Hcount) as Hpost.
  unfold cleanup_post in Hpost. red_in Hpost.
  destruct (ctx (tr s)) as [c|] eqn:Hctx.
  2:{ rewrite Hpost. rewrite unlock_lock by exact Hmu.
      split; [done|]. split; [|by eauto].
      intros s' [= <-]. split; [done|]. by apply Close_noop. }
  destruct (closeChan (tr s)) eqn:Hcc; [by specialize (Hclosed eq_refl)|].
  destruct Hpost as (wevs & Hwevs & [(f & s1 & -> & Htr & Hbusy)
                                    |(codes & s1 & -> & Hlen & Htr & Ht & Hws & Hidle)]).
  - split; [|split; [done|]].
    + intros _. exists wevs, []. split; [|split; [exact Hwevs|left; done]].
      cbn [final]. rewrite app_nil_r. by apply since_extends.
    + intros Hi. exfalso. apply Exists_exists in Hbusy as (w & Hw & Hb).
      rewrite Forall_forall in Hi. specialize (Hi w Hw). congruence.
  - assert (Hplan : release_plan (set_mu true (tr s)) = release_plan (tr s))
      by reflexivity.
    rewrite Hplan in *.
    assert (Htd : set_mu false (tr s1) = torn_down (tr s)).
    { rewrite Ht. destruct (tr s). cbn in *. by subst. }
    split; [|split; [|by eauto]].
    + intros _. exists wevs, (WaitedForWorkers :: answered (release_plan (tr s)) codes).
      split; [by apply since_extends|]. split; [exact Hwevs|]. right.
      eexists _, codes. split; [reflexivity|]. red_state.
      repeat split; try done.
      * apply answered_release, release_plan_releases.
      * rewrite Hws. by apply Forall_replicate.
    + intros s' [= <-]. split.
      * repeat split.
        -- unfold counted. red_state. rewrite Ht, Hws. cbn.
           by rewrite live_workers_exited.
        -- intros _. red_state. by rewrite Ht.
      * apply Close_noop; red_state; [done|by rewrite Ht].
Qed.

(** ** Setup *)

Lemma wp_os_Open path s Q :
  (forall r, Q (Ok r (emit (Called (OsOpen path) (RStatus r)) s))) ->
  wp (os_Open path) s Q.
Proof. intros H. apply H. Qed.

Lemma wp_ioutil_ReadAll s Q :
  (forall r, Q (Ok r (emit (Called IoReadAll (RFile r)) s))) -> wp ioutil_ReadAll s Q.
Proof. intros H. apply H. Qed.

Lemma wp_packScene sc s Q :
  (forall r, Q (Ok r (emit (Called PackScene (RPacked r)) s))) -> wp (packScene sc) s Q.
Proof. intros H. apply H. Qed.

Lemma wp_cl_GetProgramBuildInfo p dev param size s Q :
  (forall written dataLen,
      Q (Ok (written, dataLen)
           (emit (Called (GetProgramBuildInfo p dev param size)
                    (RBuildInfo written dataLen)) s))) ->
  wp (cl_GetProgramBuildInfo p dev param size) s Q.
Proof.
  intros H. unfold wp, cl_GetProgramBuildInfo.
  destruct (drv_buildlog drv (trace s)) as [w n]. apply H.
Qed.

Lemma wp_Lock s Q :
  (mu (tr s) = true -> Q (Crash Deadlock s)) ->
  (mu (tr s) = false -> Q (Ok tt (with_tr (set_mu true) s))) ->
  wp Lock s Q.
Proof. intros H1 H2. unfold wp, Lock. destruct (mu (tr s)); auto. Qed.

Lemma len_cons_pos {A} (x : A) l : (0 <? len (x :: l)) = true.
Proof. apply Z.ltb_lt. unfold len. cbn [length]. lia. Qed.

Ltac setup_step :=
  lazymatch goal with
  | |- wp (os_Open _) _ _ => apply wp_os_Open; intros [?e|]
  | |- wp ioutil_ReadAll _ _ => apply wp_ioutil_ReadAll; intros [?e|?template]
  | |- wp (packScene _) _ _ =>
      apply wp_packScene; intros [?e|[?mats ?prims]]
  | |- wp (cl_GetProgramBuildInfo _ _ _ _) _ _ =>
      apply wp_cl_GetProgramBuildInfo; intros ?written ?dataLen
  | |- wp Lock _ _ => apply wp_Lock; intros ?Hmu
  | |- wp Unlock _ _ => unfold Unlock
  | |- wp (locked _ _) _ _ => unfold locked
  | |- wp (upload_packed _ _ _ _ _) _ _ => unfold upload_packed
  | |- wp (syncScene _) _ _ => unfold syncScene
  | |- wp (if reported None then _ else _) _ _ => cbn [reported]
  | |- wp (if 0 <? len (_ :: _) then _ else _) _ _ => rewrite len_cons_pos
  | |- wp (if 0 <? len [] then _ else _) _ _ => change (0 <? len []) with false
  | |- wp (match ?x with inl _ => _ | inr _ => _ end) _ _ => destruct x
  | _ => wp_step
  end; red_state.

Lemma teardown_no_image evs :
  Forall is_teardown evs -> omap image_of evs = [] /\ omap packed_of evs = [].
Proof.
  induction 1 as [|e evs He _ [IH1 IH2]]; [done|].
  assert (image_of e = None /\ packed_of e = None) as [H1 H2].
  { destruct He as [He|[->|[->|He]]]; [| done | done |].
    - destruct e as [[] r| | | |]; try done; destruct r as [| | | | |[]]; done.
    - destruct e as [[] r| | | |]; try done; destruct r as [| | | | |[]]; done. }
  change (omap image_of (e :: evs)) with
    (match image_of e with Some y => y :: omap image_of evs | None => omap image_of evs end).
  change (omap packed_of (e :: evs)) with
    (match packed_of e with Some y => y :: omap packed_of evs | None => omap packed_of evs end).
  by rewrite H1, H2.
Qed.

(** Use of what is known of [cleanup(false)] on the trace. *)
Ltac cleanup_frame :=
  lazymatch goal with
  | |- wp (cleanup false) ?s _ =>
      apply (wp_spec (cleanup false) s (fun o => grows is_teardown s (final o)));
      [apply within_cleanup_false|]
  end;
  let tevs := fresh "tevs" in
  let Htr := fresh "Htr" in
  let Htd := fresh "Htd" in
  intros [[] ?s|?f ?s] (tevs & Htr & Htd); cbn [final] in Htr; red_in Htr; red_state.

Lemma Setup_images (sc : option Scene) (w h : Z) (s : system) :
  let o := Setup sc w h s in
  let evs := since s (final o) in
  match omap packed_of evs with
  | [] => omap image_of evs = [] /\ result o <> Some None
  | (mats, prims) :: more =>
      more = [] /\
      omap image_of evs =
      image_request HostMaterials mats ++ image_request HostPrimitives prims
  end.
Proof.
  change (wp (Setup sc w h) s (fun o =>
    let evs := since s (final o) in
    match omap packed_of evs with
    | [] => omap image_of evs = [] /\ result o <> Some None
    | (mats, prims) :: more =>
        more = [] /\
        omap image_of evs =
        image_request HostMaterials mats ++ image_request HostPrimitives prims
    end)).
  unfold Setup, setupKernel.
  repeat first [setup_step | cleanup_frame].
  all: events; cbn [omap list_omap packed_of image_of];
    try (destruct (teardown_no_image _ Htd) as [Hni Hnp]; fold (omap image_of tevs);
         fold (omap packed_of tevs); rewrite ?Hni, ?Hnp).
  all: try (split; [reflexivity|discriminate]).
  all: (split; [reflexivity|]).
  all: repeat match goal with
              | H : (0 <? len ?l) = _ |- _ =>
                  destruct l;
                  [ try (exfalso; clear -H; vm_compute in H; discriminate H)
                  | try (exfalso; clear -H; rewrite len_cons_pos in H; discriminate H) ];
                  clear H
              end.
  all: reflexivity.
Qed.

Lemma image_request_facts host packed flags fmt desc data :
  host = HostMaterials \/ host = HostPrimitives ->
  (flags, fmt, desc, data) ∈ image_request host packed ->
  packed <> [] /\ data = host packed /\
  Z.land flags cl.MEM_READ_ONLY = cl.MEM_READ_ONLY /\
  Z.land flags cl.MEM_COPY_HOST_PTR = cl.MEM_COPY_HOST_PTR /\
  cl.ImageType desc = cl.MEM_OBJECT_IMAGE1D /\
  forall k, 0 < k -> host_sizeof data = 16 * k ->
            len packed * (16 * k) < 2 ^ 64 ->
            cl.ImageWidth desc = k * len packed.
Proof.
  intros Hhost Hin. destruct packed as [|r rs]; [by apply elem_of_nil in Hin|].
  unfold image_request in Hin. apply list_elem_of_singleton in Hin.
  injection Hin as -> -> -> ->.
  split; [done|]. split; [done|]. split; [done|]. split; [done|]. split; [done|].
  intros k Hk Hsz Hfit. cbn [cl.ImageWidth]. rewrite Hsz.
  unfold mul64, wrap64. rewrite Z.mod_small.
  - rewrite Z.shiftr_div_pow2 by lia.
    replace (len (r :: rs) * (16 * k)) with (k * len (r :: rs) * 2 ^ 4) by lia.
    by rewrite Z.div_mul.
  - split; [|exact Hfit]. unfold len. lia.
Qed.

Lemma image_of_event e flags fmt desc data :
  image_of e = Some (flags, fmt, desc, data) ->
  exists c r, e = Called (CreateImage c flags fmt desc data) r.
Proof.
  destruct e as [[] r| | | |]; try discriminate.
  intros [= -> -> -> ->]. by eexists _, _.
Qed.

(** C9. A [Setup] that returns nil has packed the scene, and whatever the
    outcome [packScene] is answered at most once.  Without its answer no
    image is allocated.  With packed materials [mats] and packed
    primitives [prims], the image allocations of this [Setup] are: none
    for a sequence that is empty, and for a sequence that is not empty
    one image, created from the host data itself
    ([MEM_READ_ONLY | MEM_COPY_HOST_PTR]), with RGBA float pixels of 16
    bytes, of type 1D, whose row pitch is the byte size of the sequence
    and whose width is that size divided by 16: the number of records
    when a record takes 16 bytes; materials first. *)
Theorem Setup_allocates_images_for_packed_data (sc : option Scene) (w h : Z) (s : system) :
  let o := Setup sc w h s in
  let evs := since s (final o) in
  match omap packed_of evs with
  | [] => omap image_of evs = [] /\ result o <> Some None
  | (mats, prims) :: more =>
      more = []
      /\ omap image_of evs =
         image_request HostMaterials mats ++ image_request HostPrimitives prims
      /\ (mats = [] ->
          forall c flags fmt desc l r,
            Called (CreateImage c flags fmt desc (HostMaterials l)) r ∉ evs)
      /\ (prims = [] ->
          forall c flags fmt desc l r,
            Called (CreateImage c flags fmt desc (HostPrimitives l)) r ∉ evs)
      /\ (mats <> [] ->
          exists c desc r,
            Called (CreateImage c (Z.lor cl.MEM_READ_ONLY cl.MEM_COPY_HOST_PTR)
                      {| cl.ChannelOrder := cl.RGBA; cl.ChannelType := cl.FLOAT |}
                      desc (HostMaterials mats)) r ∈ evs)
      /\ (prims <> [] ->
          exists c desc r,
            Called (CreateImage c (Z.lor cl.MEM_READ_ONLY cl.MEM_COPY_HOST_PTR)
                      {| cl.ChannelOrder := cl.RGBA; cl.ChannelType := cl.FLOAT |}
                      desc (HostPrimitives prims)) r ∈ evs)
      /\ forall c flags fmt desc data r,
           Called (CreateImage c flags fmt desc data) r ∈ evs ->
           host_records data <> [] /\
           (data = HostMaterials mats \/ data = HostPrimitives prims) /\
           Z.land flags cl.MEM_READ_ONLY = cl.MEM_READ_ONLY /\
           Z.land flags cl.MEM_COPY_HOST_PTR = cl.MEM_COPY_HOST_PTR /\
           cl.ImageType desc = cl.MEM_OBJECT_IMAGE1D /\
           cl.ImageRowPitch desc = mul64 (len (host_records data)) (host_sizeof data) /\
           cl.ImageWidth desc = Z.shiftr (cl.ImageRowPitch desc) 4 /\
           forall k, 0 < k -> host_sizeof data = 16 * k ->
                     len (host_records data) * (16 * k) < 2 ^ 64 ->
                     cl.ImageWidth desc = k * len (host_records data)
  end.
Proof.
  intros o evs. pose proof (Setup_images sc w h s) as H. cbv zeta in H.
  fold o in H. fold evs in H.
  destruct (omap packed_of evs) as [|[mats prims] more]; [exact H|].
  destruct H as [Hmore H].
  assert (Hfacts : forall c flags fmt desc data r,
            Called (CreateImage c flags fmt desc data) r ∈ evs ->
            host_records data <> [] /\
            (data = HostMaterials mats \/ data = HostPrimitives prims) /\
            Z.land flags cl.MEM_READ_ONLY = cl.MEM_READ_ONLY /\
            Z.land flags cl.MEM_COPY_HOST_PTR = cl.MEM_COPY_HOST_PTR /\
            cl.ImageType desc = cl.MEM_OBJECT_IMAGE1D /\
            cl.ImageRowPitch desc = mul64 (len (host_records data)) (host_sizeof data) /\
            cl.ImageWidth desc = Z.shiftr (cl.ImageRowPitch desc) 4 /\
            forall k, 0 < k -> host_sizeof data = 16 * k ->
                      len (host_records data) * (16 * k) < 2 ^ 64 ->
                      cl.ImageWidth desc = k * len (host_records data)).
  { intros c flags fmt desc data r Hin.
    assert (Himg : (flags, fmt, desc, data) ∈ omap image_of evs).
    { apply list_elem_of_omap. eexists. split; [exact Hin|reflexivity]. }
    rewrite H in Himg. apply elem_of_app in Himg as [Himg|Himg].
    - pose proof Himg as Hshape.
      apply image_request_facts in Himg as (Hne & -> & Hro & Hcp & Hty & Hw); [|by left].
      destruct mats as [|m mats]; [done|]. unfold image_request in Hshape.
      apply list_elem_of_singleton in Hshape. injection Hshape as _ _ ->.
      repeat split; try done. by left.
    - pose proof Himg as Hshape.
      apply image_request_facts in Himg as (Hne & -> & Hro & Hcp & Hty & Hw); [|by right].
      destruct prims as [|m prims]; [done|]. unfold image_request in Hshape.
      apply list_elem_of_singleton in Hshape. injection Hshape as _ _ ->.
      repeat split; try done. by right. }
  split; [exact Hmore|]. split; [exact H|].
  split; [|split; [|split; [|split; [|exact Hfacts]]]].
  - intros -> c flags fmt desc l r Hin.
    destruct (Hfacts _ _ _ _ _ _ Hin) as (Hne & [Hd|Hd] & _); [|discriminate Hd].
    injection Hd as ->. by destruct Hne.
  - intros -> c flags fmt desc l r Hin.
    destruct (Hfacts _ _ _ _ _ _ Hin) as (Hne & [Hd|Hd] & _); [discriminate Hd|].
    injection Hd as ->. by destruct Hne.
  - intros Hne. destruct mats as [|m mats]; [done|].
    assert (Himg : ∃ x, x ∈ omap image_of evs /\
              x = (Z.lor cl.MEM_READ_ONLY cl.MEM_COPY_HOST_PTR,
                   {| cl.ChannelOrder := cl.RGBA; cl.ChannelType := cl.FLOAT |},
                   {| cl.ImageType := cl.MEM_OBJECT_IMAGE1D;
                      cl.ImageWidth :=
                        Z.shiftr (mul64 (len (m :: mats))
                                    (host_sizeof (HostMaterials (m :: mats)))) 4;
                      cl.ImageRowPitch :=
                        mul64 (len (m :: mats))
                          (host_sizeof (HostMaterials (m :: mats))) |},
                   HostMaterials (m :: mats))).
    { eexists. split; [|reflexivity]. rewrite H. apply elem_of_app. left.
      unfold image_request. by apply list_elem_of_singleton. }
    destruct Himg as (x & Hx & ->).
    apply list_elem_of_omap in Hx as (e & He & Hie).
    apply image_of_event in Hie as (c & r & ->). by eexists _, _, _.
  - intros Hne. destruct prims as [|m prims]; [done|].
    assert (Himg : ∃ x, x ∈ omap image_of evs /\
              x = (Z.lor cl.MEM_READ_ONLY cl.MEM_COPY_HOST_PTR,
                   {| cl.ChannelOrder := cl.RGBA; cl.ChannelType := cl.FLOAT |},
                   {| cl.ImageType := cl.MEM_OBJECT_IMAGE1D;
                      cl.ImageWidth :=
                        Z.shiftr (mul64 (len (m :: prims))
                                    (host_sizeof (HostPrimitives (m :: prims)))) 4;
                      cl.ImageRowPitch :=
                        mul64 (len (m :: prims))
                          (host_sizeof (HostPrimitives (m :: prims))) |},
                   HostPrimitives (m :: prims))).
    { eexists. split; [|reflexivity]. rewrite H. apply elem_of_app. right.
      unfold image_request. by apply list_elem_of_singleton. }
    destruct Himg as (x & Hx & ->).
    apply list_elem_of_omap in Hx as (e & He & Hie).
    apply image_of_event in Hie as (c & r & ->). by eexists _, _, _.
Qed.

(** ** A compilation that fails *)

Lemma omap_none {A} (f : event -> option A) evs :
  Forall (fun e => f e = None) evs -> omap f evs = [].
Proof.
  induction 1 as [|e evs He _ IH]; [done|].
  change (omap f (e :: evs)) with
    (match f e with Some y => y :: omap f evs | None => omap f evs end).
  by rewrite He.
Qed.

Lemma releasing_answered cs codes :
  length codes = length cs ->
  omap releasing (answered cs codes) = omap release_of cs.
Proof.
  revert codes. induction cs as [|c cs IH]; intros [|e codes] Hl; try done.
  injection Hl as Hl. specialize (IH codes Hl).
  change (omap releasing (answered (c :: cs) (e :: codes))) with
    (match release_of c with
     | Some y => y :: omap releasing (answered cs codes)
     | None => omap releasing (answered cs codes)
     end).
  change (omap release_of (c :: cs)) with
    (match release_of c with
     | Some y => y :: omap release_of cs
     | None => omap release_of cs
     end).
  by rewrite IH.
Qed.

Lemma answered_only_calls {A} (f : event -> option A) cs codes :
  (forall c r, is_release (Called c r) -> f (Called c r) = None) ->
  Forall (fun c => forall r, is_release (Called c r)) cs ->
  omap f (answered cs codes) = [].
Proof.
  intros Hf Hcs. apply omap_none.
  pose proof (answered_release cs codes Hcs) as Hr.
  eapply Forall_impl; [exact Hr|]. intros [c r| | | |] He; try done. by apply Hf.
Qed.

Lemma length_build_log_buffer written :
  length (build_log_buffer written) = Z.to_nat build_log_capacity.
Proof.
  unfold build_log_buffer. rewrite length_take, length_app, length_replicate. lia.
Qed.

(** Use of what [cleanup(false)] does from a state with counted workers. *)
Ltac cleanup_exact :=
  lazymatch goal with
  | |- wp (cleanup false) ?s _ =>
      apply (wp_spec (cleanup false) s (cleanup_post s));
      [apply cleanup_false_spec; unfold counted; red_state|]
  end.

(** C6, for the build logs that the code can slice. On a controller as
    [newTracer] leaves it, when the compilation of [Setup] fails and the
    driver reports a build log of [dataLen] bytes with
    [1 <= dataLen <= 120001], [Setup] returns [ErrProgramBuildFailed], has
    logged exactly the first [dataLen - 1] bytes of the build log (a text
    that is not empty as soon as [dataLen >= 2]), leaves every handle of
    the controller nil, and has released the context, the queue and
    everything it created. *)
Theorem Setup_build_failure_logs_and_cleans_up
    (sc : option Scene) (w h : Z) (s : system) :
  unattached s ->
  let o := Setup sc w h s in
  let evs := since s (final o) in
  forall e written dataLen,
    head (omap build_code evs) = Some e -> failing e = true ->
    head (omap build_info evs) = Some (written, dataLen) ->
    1 <= dataLen <= 120001 ->
    let text := take (Z.to_nat (dataLen - 1)) (build_log_buffer written) in
    result o = Some (Some ErrProgramBuildFailed)
    /\ omap build_log evs = [text]
    /\ length text = Z.to_nat (dataLen - 1)
    /\ (2 <= dataLen -> text <> [])
    /\ tr (final o) = torn_down (set_frameH h (set_frameW w (set_scene sc (tr s))))
    /\ map snd (omap releasing evs) ≡ₚ
       option_list (ctx (tr s)) ++ option_list (cmdQueue (tr s)) ++
       map snd (omap creation evs).
Proof.
  intros (Hmu & Hcc & Hwg & Hws & Hprog & Hker & Hout & Hfru & Hmat & Hpri) o evs.
  subst evs o.
  change (wp (Setup sc w h) s (fun o => 
  forall e written dataLen,
    head (omap build_code (since s (final o))) = Some e -> failing e = true ->
    head (omap build_info (since s (final o))) = Some (written, dataLen) ->
    1 <= dataLen <= 120001 ->
    let text := take (Z.to_nat (dataLen - 1)) (build_log_buffer written) in
    result o = Some (Some ErrProgramBuildFailed)
    /\ omap build_log (since s (final o)) = [text]
    /\ length text = Z.to_nat (dataLen - 1)
    /\ (2 <= dataLen -> text <> [])
    /\ tr (final o) = torn_down (set_frameH h (set_frameW w (set_scene sc (tr s))))
    /\ map snd (omap releasing (since s (final o))) ≡ₚ
       option_list (ctx (tr s)) ++ option_list (cmdQueue (tr s)) ++
       map snd (omap creation (since s (final o))))).
  unfold Setup, setupKernel.
  repeat first
    [ setup_step
    | lazymatch goal with
      | |- wp (cleanup false) ?s _ =>
          lazymatch s with
          | context [LogBuildError] => fail
          | _ => cleanup_frame
          end
      end ].
  all: try (events; cbn [omap list_omap build_code build_info head];
            intros e' written' dataLen' He' Hf'; first [discriminate He' | congruence]).
  { events; cbn [omap list_omap build_code build_info head].
    intros e' written' dataLen' He' Hf' [= <- <-] Hd'. exfalso.
    apply Z.ltb_lt in Hb. unfold sub64, wrap64, build_log_capacity in Hb.
    rewrite Z.mod_small in Hb by lia. lia. }
  cleanup_exact; [by rewrite Hwg, Hws|].
  unfold cleanup_post. red_state. rewrite Hx, Hcc.
  intros o (wevs & Hwevs & [(f & s' & -> & Htr & Hbusy)
                           |(codes & s' & -> & Hlen & Htr & Ht & Hws' & Hidle)]).
  { rewrite Hws in Hbusy. by apply Exists_nil in Hbusy. }
  destruct Hidle as [-> Hhm]; [by rewrite Hws|].
  repeat setup_step.
  assert (Hplan : release_plan
            (set_traceProgram h1
               (set_frameH h (set_frameW w (set_scene sc (set_mu true (tr s)))))) =
          map ReleaseProgram (option_list h1) ++
          map ReleaseCommandQueue (option_list (cmdQueue (tr s))) ++
          [ReleaseContext h0]).
  { unfold release_plan. red_state. by rewrite Hpri, Hmat, Hout, Hfru, Hker, Hx. }
  rewrite Hplan in Hlen, Htr. clear Hplan.
  events. cbn [omap list_omap build_code build_info build_log creation releasing
               release_of head].
  fold_omap.
  rewrite (answered_only_calls build_log), (answered_only_calls creation);
    try (by intros [] ? ?);
    try (repeat (apply Forall_app; split);
         first [ apply Forall_map, Forall_forall; by intros
               | repeat constructor; by intros ]).
  rewrite releasing_answered by exact Hlen.
  intros e' written' dataLen' [= <-] Hf' [= <- <-] Hd'.
  assert (Hhigh : sub64 dataLen 1 = dataLen - 1).
  { unfold sub64, wrap64. apply Z.mod_small. lia. }
  rewrite Hhigh.
  assert (Hlt : length (take (Z.to_nat (dataLen - 1)) (build_log_buffer written)) =
                Z.to_nat (dataLen - 1)).
  { rewrite length_take, length_build_log_buffer. unfold build_log_capacity. lia. }
  cbv zeta.
  set (text := take (Z.to_nat (dataLen - 1)) (build_log_buffer written)) in *.
  clearbody text.
  split; [reflexivity|]. split; [reflexivity|]. split; [exact Hlt|]. split.
  { intros Hd ->. cbn [length] in Hlt. lia. }
  split.
  { rewrite Ht. clear -Hmu Hprog Hker Hout Hfru Hmat Hpri.
    destruct (tr s). cbn in *. by subst. }
  clear. destruct h1 as [p|], (cmdQueue (tr s)) as [q|];
    cbn [option_list map app omap list_omap release_of snd].
  - symmetry. apply (Permutation_rev [h0; q; p]).
  - symmetry. apply (Permutation_rev [h0; p]).
  - symmetry. apply (Permutation_rev [h0; q]).
  - reflexivity.
Qed.

(** ** From newTracer to Close *)

Lemma newTracer_creates id' device' s0 s1 :
  newTracer id' device' s0 = Ok None s1 ->
  unattached s1 /\ ctx (tr s1) <> None /\
  exists evs, trace s1 = trace s0 ++ evs /\
              omap creation evs =
              held GContext (ctx (tr s1)) ++ held GQueue (cmdQueue (tr s1)).
Proof.
  revert s1.
  change (wp (newTracer id' device') s0 (fun o => forall s1, o = Ok None s1 ->
    unattached s1 /\ ctx (tr s1) <> None /\
    exists evs, trace s1 = trace s0 ++ evs /\
                omap creation evs =
                held GContext (ctx (tr s1)) ++ held GQueue (cmdQueue (tr s1)))).
  unfold newTracer. repeat setup_step.
  all: intros s1 Hs1; try discriminate Hs1; injection Hs1 as <-.
  split; [by repeat split|]. split; [done|].
  eexists. split; [red_state; rewrite <- ?app_assoc; reflexivity|].
  red_state. by destruct h1.
Qed.

Lemma Setup_attaches sc w h s s2 :
  unattached s -> Setup sc w h s = Ok None s2 ->
  mu (tr s2) = false /\ closeChan (tr s2) = false /\ counted s2 /\
  workers s2 = [Listening] /\
  ctx (tr s2) = ctx (tr s) /\ cmdQueue (tr s2) = cmdQueue (tr s) /\
  ctx (tr s) <> None /\
  exists evs, trace s2 = trace s ++ evs /\
              omap creation evs =
              held GProgram (traceProgram (tr s2)) ++ held GKernel (traceKernel (tr s2)) ++
              held GMem (traceOutput (tr s2)) ++ held GMem (frustrumCorners (tr s2)) ++
              held GMem (packedMaterials (tr s2)) ++ held GMem (packedPrimitives (tr s2)).
Proof.
  intros (Hmu & Hcc & Hwg & Hws & Hprog & Hker & Hout & Hfru & Hmat & Hpri).
  revert s2.
  change (wp (Setup sc w h) s (fun o => forall s2, o = Ok None s2 ->
    mu (tr s2) = false /\ closeChan (tr s2) = false /\ counted s2 /\
    workers s2 = [Listening] /\
    ctx (tr s2) = ctx (tr s) /\ cmdQueue (tr s2) = cmdQueue (tr s) /\
    ctx (tr s) <> None /\
    exists evs, trace s2 = trace s ++ evs /\
                omap creation evs =
                held GProgram (traceProgram (tr s2)) ++
                held GKernel (traceKernel (tr s2)) ++
                held GMem (traceOutput (tr s2)) ++ held GMem (frustrumCorners (tr s2)) ++
                held GMem (packedMaterials (tr s2)) ++
                held GMem (packedPrimitives (tr s2)))).
  unfold Setup, setupKernel.
  repeat first [setup_step | cleanup_frame].
  all: intros s2 Hs2; try discriminate Hs2; injection Hs2 as <-.
  all: red_state; unfold counted; red_state; rewrite ?Hws, ?Hwg, ?Hx, ?Hmat, ?Hpri.
  all: repeat (split; [done|]).
  all: eexists; (split; [rewrite <- ?app_assoc; reflexivity|]).
  all: repeat match goal with h : option handle |- _ => destruct h end.
  all: reflexivity.
Qed.

Lemma Close_releases s s' :
  mu (tr s) = false -> counted s -> closeChan (tr s) = false ->
  ctx (tr s) <> None -> Close s = Ok tt s' ->
  exists wevs codes,
    Forall is_render wevs /\ length codes = length (release_plan (tr s)) /\
    trace s' = trace s ++ ClosedCloseChan :: wevs ++
                 WaitedForWorkers :: answered (release_plan (tr s)) codes.
Proof.
  intros Hmu Hcount Hcc Hctx Hclose.
  rewrite Close_unfold in Hclose by exact Hmu.
  pose proof (cleanup_false_spec (with_tr (set_mu true) s) Hcount) as Hpost.
  unfold cleanup_post in Hpost. red_in Hpost. rewrite Hcc in Hpost.
  destruct (ctx (tr s)) as [c|]; [|done].
  destruct Hpost as (wevs & Hwevs & [(f & s1 & Hc & _)
                                    |(codes & s1 & Hc & Hlen & Htr & _)]);
    rewrite Hc in Hclose; [discriminate|].
  injection Hclose as <-. exists wevs, codes. by repeat split.
Qed.

Lemma render_no_resource evs :
  Forall is_render evs -> omap releasing evs = [] /\ omap creation evs = [].
Proof.
  intros H. split; apply omap_none; (eapply Forall_impl; [exact H|]);
    intros [[] r| | | |] He; try done; by destruct r as [[]| | | | |].
Qed.

Lemma release_of_held rel g field :
  (forall p, release_of (rel p) = Some (g, p)) ->
  omap release_of (map rel (option_list field)) = held g field.
Proof. intros H. destruct field as [p|]; [|done]. cbn. by rewrite H. Qed.

Lemma release_plan_order t : omap release_of (release_plan t) = in_release_order t.
Proof.
  unfold release_plan, in_release_order.
  rewrite !omap_app.
  rewrite !(release_of_held ReleaseMemObject GMem) by done.
  rewrite (release_of_held ReleaseKernel GKernel) by done.
  rewrite (release_of_held ReleaseProgram GProgram) by done.
  rewrite (release_of_held ReleaseCommandQueue GQueue) by done.
  by rewrite (release_of_held ReleaseContext GContext) by done.
Qed.

Lemma rev_groups_held g field :
  rev (map fst (held g field)) = map fst (held g field).
Proof. by destruct field. Qed.

Lemma groups_reversed t :
  map fst (in_release_order t) = rev (map fst (in_creation_order t)).
Proof.
  unfold in_release_order, in_creation_order.
  rewrite !map_app, !rev_app_distr, !rev_groups_held, <- !app_assoc.
  by destruct (traceOutput t), (frustrumCorners t).
Qed.

(** C2, by kind of object. For a controller made by [newTracer] and
    attached by [Setup], a [Close] that returns has released what the
    controller held in the order packed primitives, packed materials,
    output buffer, frustum buffer, kernel, program, command queue, context,
    whatever status each release got: by kind (memory object, kernel,
    program, queue, context) this is exactly the reverse of the order of
    creation, and every object created is released.  Among the memory
    objects the output buffer goes before the frustum buffer, as it was
    created. *)
Theorem Close_releases_in_reverse_order_of_kinds
    (id' : string) (device' : Device) (sc : option Scene) (w h : Z)
    (s0 s1 s2 s s3 : system) :
  newTracer id' device' s0 = Ok None s1 ->
  Setup sc w h s1 = Ok None s2 ->
  tr s = tr s2 -> counted s ->
  Close s = Ok tt s3 ->
  let created := omap creation (since s0 s2) in
  let released := omap releasing (since s s3) in
  created = in_creation_order (tr s2)
  /\ released = in_release_order (tr s2)
  /\ map fst released = rev (map fst created)
  /\ length released = length created.
Proof.
  intros Hnew Hsetup Htr Hcount Hclose created released.
  apply newTracer_creates in Hnew as (Hun & Hctx & evs1 & Htr1 & Hc1).
  apply (Setup_attaches sc w h s1 s2 Hun) in Hsetup
    as (Hmu & Hcc & _ & _ & Hctx2 & Hq2 & _ & evs2 & Htr2 & Hc2).
  apply Close_releases in Hclose as (wevs & codes & Hwevs & Hlen & Htr3);
    [|by rewrite Htr|exact Hcount|by rewrite Htr|by rewrite Htr, Hctx2].
  assert (Hcreated : created = in_creation_order (tr s2)).
  { subst created. rewrite (since_extends s0 s2 (evs1 ++ evs2))
      by (by rewrite Htr2, Htr1, app_assoc).
    rewrite omap_app, Hc1, Hc2. unfold in_creation_order.
    rewrite <- Hctx2, <- Hq2. by rewrite <- app_assoc. }
  assert (Hreleased : released = in_release_order (tr s2)).
  { subst released. rewrite (since_extends s s3 _ Htr3).
    change (ClosedCloseChan :: wevs ++ WaitedForWorkers :: ?l)
      with ([ClosedCloseChan] ++ wevs ++ [WaitedForWorkers] ++ l).
    rewrite !omap_app. destruct (render_no_resource wevs Hwevs) as [-> _].
    rewrite releasing_answered by exact Hlen.
    rewrite release_plan_order, Htr. reflexivity. }
  split; [exact Hcreated|]. split; [exact Hreleased|]. split.
  - rewrite Hreleased, Hcreated. apply groups_reversed.
  - rewrite <- (length_map fst released), <- (length_map fst created).
    rewrite Hreleased, Hcreated, groups_reversed. apply length_rev.
Qed.

(** ** Enqueue *)

Lemma hand_over_none blockReq ws :
  Forall (fun w => w <> Listening) ws -> hand_over blockReq ws = None.
Proof.
  induction 1 as [|w ws Hw _ IH]; [done|].
  destruct w; cbn [hand_over]; [done|by rewrite IH..].
Qed.

Lemma hand_over_first blockReq ws i :
  ws !! i = Some Listening ->
  (forall j, (j < i)%nat -> ws !! j <> Some Listening) ->
  hand_over blockReq ws = Some (<[i := Busy blockReq]> ws).
Proof.
  revert i. induction ws as [|w ws IH]; intros i Hi Hfirst; [done|].
  destruct i as [|i].
  - injection Hi as ->. reflexivity.
  - assert (Hw : w <> Listening).
    { intros ->. by apply (Hfirst 0%nat); [lia|]. }
    assert (Hrest : hand_over blockReq ws = Some (<[i := Busy blockReq]> ws)).
    { apply IH; [exact Hi|]. intros j Hj. apply (Hfirst (S j)). lia. }
    destruct w; cbn [hand_over]; [done|by rewrite Hrest..].
Qed.

Lemma hand_over_length blockReq ws ws' :
  hand_over blockReq ws = Some ws' -> length ws' = length ws.
Proof.
  revert ws'. induction ws as [|w ws IH]; intros ws' H; [done|].
  destruct w; cbn [hand_over] in H.
  - by injection H as <-.
  - destruct (hand_over blockReq ws) as [ws0|]; [|done].
    injection H as <-. cbn. by rewrite (IH ws0).
  - destruct (hand_over blockReq ws) as [ws0|]; [|done].
    injection H as <-. cbn. by rewrite (IH ws0).
Qed.

(** C8. [Enqueue] returns at once in every state, and touches nothing but
    the worker that takes the request: no event, no change of the
    controller or of the callers' slices.  When no worker is blocked in
    its receive (none started yet, all returned after [Close], or the
    worker busy with an earlier request) the state after [Enqueue] is the
    state before: the request is kept nowhere, and whatever runs next runs
    as if [Enqueue] had not been called, so that no success and no failure
    can be sent for it.  When a worker is blocked in its receive, the first
    such worker holds the request. *)
Theorem Enqueue_hands_over_or_drops (blockReq : BlockRequest) (s : system) :
  (exists s', Enqueue blockReq s = Ok tt s' /\ tr s' = tr s /\ trace s' = trace s /\
              hostmem s' = hostmem s /\ length (workers s') = length (workers s))
  /\ (Forall (fun w => w <> Listening) (workers s) ->
      Enqueue blockReq s = Ok tt s /\
      forall A (m : M A), (Enqueue blockReq ;;; m) s = m s)
  /\ (forall i, workers s !! i = Some Listening ->
                (forall j, (j < i)%nat -> workers s !! j <> Some Listening) ->
                Enqueue blockReq s =
                Ok tt (with_workers (<[i := Busy blockReq]> (workers s)) s)).
Proof.
  split; [|split].
  - unfold Enqueue. destruct (hand_over blockReq (workers s)) as [ws|] eqn:Hh.
    + eexists. split; [reflexivity|]. repeat split.
      cbn. by apply hand_over_length in Hh.
    + by exists s.
  - intros Hno. unfold bind, Enqueue. by rewrite hand_over_none.
  - intros i Hi Hfirst. unfold Enqueue. by rewrite (hand_over_first _ _ i).
Qed.

(** ** The guards of SyncScene and Setup *)

(** [syncScene] answers [ErrPendingSetup] exactly on a controller without
    context, which is a controller after [cleanup]; with a context and no
    scene it dereferences the nil scene. *)
Lemma SyncScene_guard s :
  mu (tr s) = false ->
  (ctx (tr s) = None -> SyncScene s = Ok (Some ErrPendingSetup) s)
  /\ (ctx (tr s) <> None -> scene (tr s) = None ->
      SyncScene s = Crash NilDereference (with_tr (set_mu true) s))
  /\ (ctx (tr s) <> None -> result (SyncScene s) <> Some (Some ErrPendingSetup)).
Proof.
  intros Hmu.
  change (wp SyncScene s (fun o =>
    (ctx (tr s) = None -> o = Ok (Some ErrPendingSetup) s)
    /\ (ctx (tr s) <> None -> scene (tr s) = None ->
        o = Crash NilDereference (with_tr (set_mu true) s))
    /\ (ctx (tr s) <> None -> result o <> Some (Some ErrPendingSetup)))).
  unfold SyncScene, syncScene. repeat setup_step.
  all: try congruence.
  all: split; [intros; try congruence; by rewrite unlock_lock|];
       split; intros; congruence.
Qed.

(** The guard of [Setup]: with a kernel handle, nothing is touched. *)
Lemma Setup_already_attached sc w h s :
  mu (tr s) = false -> traceKernel (tr s) <> None ->
  Setup sc w h s = Ok (Some ErrAlreadyAttached) s.
Proof.
  intros Hmu Hk. unfold Setup. rewrite locked_true by exact Hmu.
  unfold bind, get. red_state.
  destruct (traceKernel (tr s)); [|done]. cbn [ret]. by rewrite unlock_lock.
Qed.

(** ** The invariant of the controller *)

Lemma live_workers_app ws ws' :
  live_workers (ws ++ ws') = (live_workers ws + live_workers ws')%nat.
Proof. induction ws as [|[] ws IH]; cbn; lia. Qed.

Lemma hand_over_live blockReq ws ws' :
  hand_over blockReq ws = Some ws' -> live_workers ws' = live_workers ws.
Proof.
  revert ws'. induction ws as [|w ws IH]; intros ws' H; [done|].
  destruct w; cbn [hand_over] in H.
  - by injection H as <-.
  - destruct (hand_over blockReq ws) as [ws0|]; [|done].
    injection H as <-. cbn. by rewrite (IH ws0).
  - destruct (hand_over blockReq ws) as [ws0|]; [|done].
    injection H as <-. cbn. by rewrite (IH ws0).
Qed.

Lemma live_workers_back_to_select ws i blockReq :
  ws !! i = Some (Busy blockReq) ->
  live_workers (<[i := Listening]> ws) = live_workers ws.
Proof.
  revert i. induction ws as [|w ws IH]; intros [|i] H; try done.
  - by injection H as ->.
  - cbn in H. specialize (IH i H).
    change (<[S i := Listening]> (w :: ws)) with (w :: <[i := Listening]> ws).
    destruct w; cbn [live_workers]; by rewrite IH.
Qed.

Lemma newTracer_consistent id' device' s0 s1 :
  newTracer id' device' s0 = Ok None s1 -> consistent s1.
Proof.
  intros H. apply newTracer_creates in H as ((Hmu & Hcc & Hwg & Hws & _) & _).
  repeat split; [done| |by rewrite Hcc].
  unfold counted. by rewrite Hwg, Hws.
Qed.

Lemma Enqueue_consistent blockReq s s' :
  consistent s -> Enqueue blockReq s = Ok tt s' -> consistent s'.
Proof.
  intros (Hmu & Hcount & Hcl). unfold Enqueue.
  destruct (hand_over blockReq (workers s)) as [ws|] eqn:Hh; intros [= <-]; [|done].
  repeat split; try done. unfold counted in *. cbn.
  by rewrite (hand_over_live _ _ _ Hh).
Qed.

Lemma worker_turn_consistent i s s' :
  consistent s -> worker_turn i s = Ok tt s' -> consistent s'.
Proof.
  intros (Hmu & Hcount & Hcl). unfold worker_turn.
  destruct (workers s !! i) as [[|blockReq|]|] eqn:Hi; try (by intros [= <-]).
  unfold bind, set_worker, update.
  pose proof (serve_render_step blockReq s) as (Ht & Hw & _).
  destruct (serve blockReq s) as [[] s1|f s1]; [|done]. cbn [final] in *.
  intros [= <-]. unfold consistent, counted in *. cbn. rewrite Ht, Hw.
  repeat split; try done.
  by rewrite (live_workers_back_to_select _ _ blockReq).
Qed.

Lemma SyncScene_consistent r s s' :
  consistent s -> SyncScene s = Ok r s' -> consistent s'.
Proof.
  intros (Hmu & Hcount & Hcl). revert r s'.
  change (wp SyncScene s (fun o => forall r s', o = Ok r s' -> consistent s')).
  unfold SyncScene, syncScene. repeat setup_step.
  all: intros r s' Heq; try discriminate Heq; injection Heq as <- <-.
  all: unfold consistent, counted in *; red_state.
  all: repeat split; try done; intros Hcc; by specialize (Hcl Hcc).
Qed.

Lemma Close_consistent s s' :
  consistent s -> Close s = Ok tt s' -> consistent s'.
Proof.
  intros (Hmu & Hcount & Hcl) Hclose.
  destruct (ctx (tr s)) as [c|] eqn:Hctx.
  2:{ rewrite Close_noop in Hclose by done. by injection Hclose as <-. }
  rewrite Close_unfold in Hclose by exact Hmu.
  pose proof (cleanup_false_spec (with_tr (set_mu true) s) Hcount) as Hpost.
  unfold cleanup_post in Hpost. red_in Hpost. rewrite Hctx in Hpost.
  destruct (closeChan (tr s)); [by specialize (Hcl eq_refl)|].
  destruct Hpost as (wevs & _ & [(f & s1 & Hc & _)
                                |(codes & s1 & Hc & _ & _ & Ht & Hws & _)]);
    rewrite Hc in Hclose; [discriminate|].
  injection Hclose as <-. unfold consistent, counted. red_state.
  rewrite Ht, Hws. cbn. by rewrite live_workers_exited.
Qed.

(** What [cleanup] keeps of the invariant while the lock is held. *)
Lemma cleanup_false_keeps s :
  counted s -> (closeChan (tr s) = true -> ctx (tr s) = None) ->
  forall u s', cleanup false s = Ok u s' ->
    counted s' /\ (closeChan (tr s') = true -> ctx (tr s') = None).
Proof.
  intros Hcount Hcl u s' Hc.
  pose proof (cleanup_false_spec s Hcount) as Hpost.
  unfold cleanup_post in Hpost. rewrite Hc in Hpost.
  destruct (ctx (tr s)) as [c|] eqn:Hctx.
  2:{ injection Hpost as _ <-. split; [exact Hcount|]. intros _. exact Hctx. }
  destruct (closeChan (tr s)); [by specialize (Hcl eq_refl)|].
  destruct Hpost as (wevs & _ & [(f & s1 & Heq & _)
                                |(codes & s1 & Heq & _ & _ & Ht & Hws & _)]);
    [discriminate Heq|].
  injection Heq as _ <-. unfold counted. rewrite Ht, Hws. cbn.
  by rewrite live_workers_exited.
Qed.

Ltac cleanup_keeps Hcount Hcl :=
  lazymatch goal with
  | |- wp (cleanup false) ?s0 _ =>
      apply (wp_spec (cleanup false) s0
               (fun o => forall u s', o = Ok u s' ->
                  counted s' /\ (closeChan (tr s') = true -> ctx (tr s') = None)));
      [ apply cleanup_false_keeps;
        [ unfold counted; red_state; exact Hcount
        | red_state;
          let Hcc := fresh "Hcc" in
          intros Hcc; specialize (Hcl Hcc); first [exact Hcl | discriminate Hcl] ]
      | let Hkeep := fresh "Hkeep" in
        intros [[] ?s1|?f ?s1] Hkeep;
        [ specialize (Hkeep tt _ eq_refl) | clear Hkeep ];
        red_state ]
  end.

Lemma Setup_consistent sc w h r s s' :
  consistent s -> Setup sc w h s = Ok r s' -> consistent s'.
Proof.
  intros (Hmu & Hcount & Hcl). revert r s'.
  change (wp (Setup sc w h) s (fun o => forall r s', o = Ok r s' -> consistent s')).
  unfold Setup, setupKernel.
  repeat first [setup_step | cleanup_keeps Hcount Hcl].
  all: intros r s' Heq; try discriminate Heq; injection Heq as <- <-.
  all: unfold consistent, counted; red_state.
  all: split; [reflexivity|].
  all: lazymatch goal with
       | Hkeep : counted ?s1 /\ _ |- context [tr ?s1] => exact Hkeep
       | |- _ => split
       end.
  all: lazymatch goal with
       | |- S _ = _ =>
           rewrite live_workers_app; unfold counted in Hcount; rewrite Hcount;
           cbn [live_workers]; symmetry; apply Nat.add_1_r
       | |- _ = live_workers _ => exact Hcount
       | |- _ -> _ =>
           let Hcc := fresh "Hcc" in
           intros Hcc; specialize (Hcl Hcc);
           first [exact Hcl | discriminate Hcl]
       end.
Qed.

(** Every operation that returns keeps the invariant. *)
Lemma step_consistent s s' : consistent s -> step s s' -> consistent s'.
Proof.
  intros Hs Hstep. revert Hs.
  destruct Hstep as [sc w h r s s' H|blockReq s s' H|i s s' H|r s s' H|s s' H];
    intros Hs.
  - exact (Setup_consistent sc w h r s s' Hs H).
  - exact (Enqueue_consistent blockReq s s' Hs H).
  - exact (worker_turn_consistent i s s' Hs H).
  - exact (SyncScene_consistent r s s' Hs H).
  - exact (Close_consistent s s' Hs H).
Qed.

(** Every state a controller made by [newTracer] can be in between two
    calls is consistent: the hypothesis of the theorems on [Close] holds
    of all of them. *)
Lemma reachable_consistent s : reachable s -> consistent s.
Proof.
  induction 1 as [id' device' s0 s1 H|s s' _ IH Hstep].
  - exact (newTracer_consistent id' device' s0 s1 H).
  - exact (step_consistent s s' IH Hstep).
Qed.

(** ** The calls of process *)

Lemma read_offset_index w y :
  Z.shiftr (mul32 (mul32 (mul32 w 4) 4) y) 2 = ((w * 4 * 4 * y) mod 2 ^ 32) / 4.
Proof. rewrite mul32_chain. by rewrite Z.shiftr_div_pow2 by lia. Qed.

(** X1. When [process] returns nil, it has made exactly the calls of
    [render_calls], in that order and each with success: the upload of the
    64 bytes of the frustum, the ten arguments, the dispatch in two
    dimensions from (0, BlockY) over (frameW, BlockH), [cl.Finish], and
    the read; and it has not touched the controller. *)
Theorem process_success_makes_the_render_calls (blockReq : BlockRequest) (s s' : system) :
  process blockReq s = Ok None s' ->
  exists sc, scene (tr s) = Some sc /\
    since s s' = map (fun c => Called c (RCode cl.SUCCESS))
                     (render_calls (tr s) sc blockReq) /\
    tr s' = tr s /\ workers s' = workers s.
Proof.
  revert s'.
  change (wp (process blockReq) s (fun o => forall s', o = Ok None s' ->
    exists sc, scene (tr s) = Some sc /\
      since s s' = map (fun c => Called c (RCode cl.SUCCESS))
                       (render_calls (tr s) sc blockReq) /\
      tr s' = tr s /\ workers s' = workers s)).
  unfold process. repeat wp_step.
  all: intros s' Hs'; try discriminate Hs'; injection Hs' as <-.
  all: all_succeeded.
  all: eexists; (split; [reflexivity|]); (split; [|split; reflexivity]).
  all: events; unfold render_calls, kernel_abi.
  all: rewrite read_offset_index, !mul32_chain; reflexivity.
Qed.

Ltac stops_at n :=
  exists n; eexists _, _;
  split; [reflexivity|]; split; [reflexivity|]; split; [reflexivity|];
  split; [assumption|]; repeat split; reflexivity.

(** X2. When [process] returns an error, it has made an initial part of
    the calls of [render_calls], every one with success but the last; the
    error is the one of that last call ([ErrCopyingDataToDevice] for the
    upload, [ErrSettingKernelArguments] for an argument,
    [ErrKernelExecutionFailed] for the dispatch and for [cl.Finish],
    [ErrCopyingDataToHost] for the read); the failure is logged, except
    the one of the dispatch and of [cl.Finish]; and neither the callers'
    slices nor the controller have changed. *)
Theorem process_error_is_the_first_failing_call
    (blockReq : BlockRequest) (err : error) (s s' : system) :
  process blockReq s = Ok (Some err) s' ->
  exists sc n c code,
    scene (tr s) = Some sc /\
    render_calls (tr s) sc blockReq !! n = Some c /\
    omap status_of (since s s') =
      map (fun c => (c, cl.SUCCESS)) (take n (render_calls (tr s) sc blockReq))
      ++ [(c, code)] /\
    failing code = true /\ blame c = Some err /\
    omap log_of (since s s') = failure_log blockReq c code /\
    hostmem s' = hostmem s /\ tr s' = tr s.
Proof.
  revert s'.
  change (wp (process blockReq) s (fun o => forall s', o = Ok (Some err) s' ->
    exists sc n c code,
      scene (tr s) = Some sc /\
      render_calls (tr s) sc blockReq !! n = Some c /\
      omap status_of (since s s') =
        map (fun c => (c, cl.SUCCESS)) (take n (render_calls (tr s) sc blockReq))
        ++ [(c, code)] /\
      failing code = true /\ blame c = Some err /\
      omap log_of (since s s') = failure_log blockReq c code /\
      hostmem s' = hostmem s /\ tr s' = tr s)).
  unfold process. repeat wp_step.
  all: intros s' Hs'; try discriminate Hs'; injection Hs' as <- <-.
  all: all_succeeded.
  all: events; unfold render_calls, kernel_abi; rewrite ?read_offset_index, ?mul32_chain.
  all: eexists _.
  all: first [ stops_at 0%nat | stops_at 1%nat | stops_at 2%nat | stops_at 3%nat
             | stops_at 4%nat | stops_at 5%nat | stops_at 6%nat | stops_at 7%nat
             | stops_at 8%nat | stops_at 9%nat | stops_at 10%nat | stops_at 11%nat
             | stops_at 12%nat | stops_at 13%nat ].
Qed.

(** X3. [&blockReq.RenderTarget[readOffset>>2]] is evaluated before the
    read is issued: when the render target has no element at that index
    (a nil or short slice, or a row offset past its end), [process] never
    succeeds, issues no read and leaves the callers' slices alone; and
    once the kernel has run and [cl.Finish] has returned with success, it
    panics with an index out of range. *)
Theorem process_render_target_too_short (blockReq : BlockRequest) (s : system) :
  let index := ((frameW (tr s) * 4 * 4 * BlockY blockReq) mod 2 ^ 32) / 4 in
  len (default [] (hostmem s !! RenderTarget blockReq)) <= index ->
  let o := process blockReq s in
  result o <> Some None
  /\ omap read_args (since s (final o)) = []
  /\ hostmem (final o) = hostmem s
  /\ (Called (Finish (cmdQueue (tr s))) (RCode cl.SUCCESS) ∈ since s (final o) ->
      exists s', o = Crash IndexOutOfRange s').
Proof.
  intros index Hlen o. subst o index.
  change (wp (process blockReq) s (fun o =>
    result o <> Some None
    /\ omap read_args (since s (final o)) = []
    /\ hostmem (final o) = hostmem s
    /\ (Called (Finish (cmdQueue (tr s))) (RCode cl.SUCCESS) ∈ since s (final o) ->
        exists s', o = Crash IndexOutOfRange s'))).
  unfold process. repeat wp_step.
  all: try (exfalso; rewrite read_offset_index in Hb; apply Z.leb_gt in Hb; lia).
  all: events; (split; [discriminate|]); (split; [reflexivity|]);
    (split; [reflexivity|]); intros Hin.
  all: try (eexists; reflexivity).
  all: exfalso;
    repeat (apply elem_of_cons in Hin as [Heq|Hin];
            [try discriminate Heq; injection Heq as <-; discriminate|]).
  all: by apply elem_of_nil in Hin.
Qed.

(** X19. A request for no row at all ([BlockH = 0]) copies nothing: when
    [process] returns nil for it, the read was asked for 0 bytes and every
    slice of the callers is as before. *)
Theorem process_of_an_empty_block_copies_nothing (blockReq : BlockRequest) (s s' : system) :
  BlockH blockReq = 0 ->
  process blockReq s = Ok None s' ->
  hostmem s' = hostmem s
  /\ exists offset index,
       last (since s s') =
         Some (Called (EnqueueReadBuffer (cmdQueue (tr s)) (traceOutput (tr s)) cl.TRUE
                         offset 0 (RenderTarget blockReq) index) (RCode cl.SUCCESS)).
Proof.
  intros Hh. revert s'.
  change (wp (process blockReq) s (fun o => forall s', o = Ok None s' ->
    hostmem s' = hostmem s
    /\ exists offset index,
         last (since s s') =
           Some (Called (EnqueueReadBuffer (cmdQueue (tr s)) (traceOutput (tr s)) cl.TRUE
                           offset 0 (RenderTarget blockReq) index) (RCode cl.SUCCESS)))).
  unfold process. repeat wp_step.
  all: intros s' Hs'; try discriminate Hs'; injection Hs' as <-.
  all: all_succeeded; red_state.
  all: assert (Hsize : mul32 (mul32 (mul32 (frameW (tr s)) 4) 4) (BlockH blockReq) = 0)
    by (rewrite mul32_chain, Hh, Z.mul_0_r; reflexivity).
  all: rewrite read_offset_index in Hb;
    apply index_in_range in Hb as (rt & Hrt & Hlt);
      [|apply Z.div_pos; [apply Z.mod_pos_bound|]; lia].
  all: red_in Hfit; rewrite Hsize, Hrt in Hfit; rewrite length_device_words in Hfit;
    change (Z.to_nat (0 / 4)) with 0%nat in Hfit;
    cbn [default from_option] in Hfit; unfold Datatypes.id in Hfit;
    rewrite read_offset_index in Hfit.
  2:{ exfalso. lia. }
  rewrite Hsize. split.
  - rewrite Hrt. cbn [default from_option]. unfold Datatypes.id.
    unfold device_words. change (Z.to_nat (0 / 4)) with 0%nat. cbn [seq map list_inserts].
    by apply insert_id.
  - eexists _, _. events. reflexivity.
Qed.

(** ** The worker's answer *)

Lemma process_sends_nothing blockReq s :
  omap sent (since s (final (process blockReq s))) = [].
Proof.
  change (wp (process blockReq) s (fun o => omap sent (since s (final o)) = [])).
  unfold process. repeat wp_step.
  all: events; reflexivity.
Qed.

Lemma worker_turn_answers i blockReq s :
  workers s !! i = Some (Busy blockReq) ->
  let p := process blockReq s in
  let o := worker_turn i s in
  omap sent (since s (final o)) =
    match result p with
    | Some None => [(DoneChan blockReq, inl (BlockH blockReq))]
    | Some (Some err) => [(ErrChan blockReq, inr err)]
    | None => []
    end
  /\ (result o = None <-> result p = None)
  /\ (forall s', o = Ok tt s' ->
        workers s' = <[i := Listening]> (workers s) /\ tr s' = tr s).
Proof.
  intros Hi p o. subst p o. unfold worker_turn. rewrite Hi.
  unfold serve, bind, set_worker, update, record.
  pose proof (process_sends_nothing blockReq s) as Hsent.
  pose proof (process_render_step blockReq s) as (Ht & Hw & evs & Htr & _).
  destruct (process blockReq s) as [[err|] s1|f s1]; cbn [final result] in *.
  - rewrite (since_extends _ _ _ Htr) in Hsent.
    split; [|split; [done|]].
    + unfold since. cbn [trace emit with_workers]. rewrite Htr, <- app_assoc.
      rewrite drop_app_length. fold_omap. rewrite omap_app, Hsent. reflexivity.
    + intros s' [= <-]. cbn [workers tr emit with_workers]. by rewrite Hw, Ht.
  - rewrite (since_extends _ _ _ Htr) in Hsent.
    split; [|split; [done|]].
    + unfold since. cbn [trace emit with_workers]. rewrite Htr, <- app_assoc.
      rewrite drop_app_length. fold_omap. rewrite omap_app, Hsent. reflexivity.
    + intros s' [= <-]. cbn [workers tr emit with_workers]. by rewrite Hw, Ht.
  - split; [exact Hsent|]. split; [done|]. intros s' Hs'. discriminate Hs'.
Qed.

(** X4. A request that [Enqueue] hands over to the worker blocked in its
    receive is answered exactly once at that worker's turn: by the block
    height on the request's done channel when [process] returns nil, by
    the error on its error channel when [process] returns one, and by no
    message when [process] panics, which takes the goroutine down; when
    the turn ends, the worker is back in its [select] and the controller
    is as it was. *)
Theorem handed_over_request_is_answered_once
    (blockReq : BlockRequest) (i : nat) (s : system) :
  workers s !! i = Some Listening ->
  (forall j, (j < i)%nat -> workers s !! j <> Some Listening) ->
  exists s1, Enqueue blockReq s = Ok tt s1 /\
    workers s1 !! i = Some (Busy blockReq) /\
    let p := process blockReq s1 in
    let o := worker_turn i s1 in
    omap sent (since s (final o)) =
      match result p with
      | Some None => [(DoneChan blockReq, inl (BlockH blockReq))]
      | Some (Some err) => [(ErrChan blockReq, inr err)]
      | None => []
      end
    /\ (result o = None <-> result p = None)
    /\ (forall s2, o = Ok tt s2 -> workers s2 = workers s /\ tr s2 = tr s).
Proof.
  intros Hi Hfirst.
  exists (with_workers (<[i := Busy blockReq]> (workers s)) s).
  assert (Hlt : (i < length (workers s))%nat) by (by eapply lookup_lt_Some).
  assert (Hbusy : workers (with_workers (<[i := Busy blockReq]> (workers s)) s) !! i =
                  Some (Busy blockReq)).
  { cbn [workers with_workers]. by apply list_lookup_insert_eq. }
  split; [unfold Enqueue; by rewrite (hand_over_first _ _ i)|].
  split; [exact Hbusy|].
  destruct (worker_turn_answers i blockReq _ Hbusy) as (Hsent & Hres & Hst).
  cbv zeta. split; [exact Hsent|]. split; [exact Hres|].
  intros s2 Hs2. destruct (Hst s2 Hs2) as [Hw Ht].
  cbn [workers tr with_workers] in Hw, Ht. split; [|exact Ht].
  rewrite Hw, list_insert_insert_eq. by apply list_insert_id.
Qed.

(** ** newTracer and Setup: errors *)

Lemma teardown_omits {A} (f : event -> option A) evs :
  (forall e, is_render e -> f e = None) ->
  (forall e, is_release e -> f e = None) ->
  f ClosedCloseChan = None -> f WaitedForWorkers = None ->
  Forall is_teardown evs -> omap f evs = [].
Proof.
  intros Hr Hl Hc Hw Htd. apply omap_none.
  eapply Forall_impl; [exact Htd|].
  intros e [He|[->|[->|He]]]; auto.
Qed.

Lemma teardown_no_file_error evs : Forall is_teardown evs -> omap file_error evs = [].
Proof.
  apply teardown_omits; try done.
  - intros [[] r| | | |] He; try done; by destruct r as [| | |[]|[]|].
  - intros [[] r| | | |] He; try done; by destruct r as [| | |[]|[]|].
Qed.

Lemma teardown_no_pack_error evs : Forall is_teardown evs -> omap pack_error evs = [].
Proof.
  apply teardown_omits; try done.
  - intros [[] r| | | |] He; try done; by destruct r as [| | | | |[]].
  - intros [[] r| | | |] He; try done; by destruct r as [| | | | |[]].
Qed.

Lemma teardown_no_buffer_request evs :
  Forall is_teardown evs -> omap buffer_request evs = [].
Proof.
  apply teardown_omits; try done.
  - by intros [[] r| | | |] He.
  - by intros [[] r| | | |] He.
Qed.

(** X5. [newTracer] never returns an error, whatever the binding answers:
    the checks of [errptr], a nil pointer, are dead.  It creates the
    context, then the queue on it, and returns a controller that holds
    them (a nil queue included) and nothing else, with no goroutine; it
    releases nothing; and when the context it gets is nil, it panics on
    [*ctx] before it creates the queue. *)
Theorem newTracer_never_reports_failure (id' : string) (device' : Device) (s : system) :
  let o := newTracer id' device' s in
  let evs := since s (final o) in
  (forall err, result o <> Some (Some err))
  /\ omap releasing evs = []
  /\ (forall s', o = Ok None s' ->
        exists c q,
          evs = [Called (CreateContext (DeviceId device')) (RHandle (Some c));
                 Called (CreateCommandQueue c (DeviceId device')) (RHandle q)]
          /\ tr s' = set_cmdQueue q (set_ctx (Some c) (zero_tracer id' device'))
          /\ workers s' = [] /\ hostmem s' = hostmem s)
  /\ (result o = None <->
      evs = [Called (CreateContext (DeviceId device')) (RHandle None)]).
Proof.
  intros o evs. subst evs o.
  change (wp (newTracer id' device') s (fun o =>
    (forall err, result o <> Some (Some err))
    /\ omap releasing (since s (final o)) = []
    /\ (forall s', o = Ok None s' ->
          exists c q,
            since s (final o) =
              [Called (CreateContext (DeviceId device')) (RHandle (Some c));
               Called (CreateCommandQueue c (DeviceId device')) (RHandle q)]
            /\ tr s' = set_cmdQueue q (set_ctx (Some c) (zero_tracer id' device'))
            /\ workers s' = [] /\ hostmem s' = hostmem s)
    /\ (result o = None <->
        since s (final o) = [Called (CreateContext (DeviceId device')) (RHandle None)]))).
  unfold newTracer. repeat setup_step.
  all: events.
  - split; [discriminate|]. split; [reflexivity|]. split.
    + intros s' [= <-]. by eexists _, _.
    + split; discriminate.
  - split; [discriminate|]. split; [reflexivity|]. split; [discriminate|]. done.
Qed.

Ltac setup_paths := repeat first [setup_step | cleanup_frame].

(** X6. The errors [Setup] can return are [ErrAlreadyAttached],
    [ErrProgramBuildFailed], [ErrCopyingDataToDevice], and the errors that
    [os.Open], [ioutil.ReadAll] and [packScene] have returned to it: the
    checks of [errPtr] being dead, no failure to create the program, the
    kernel, a buffer or an image is ever reported. *)
Theorem Setup_returns_only_these_errors
    (sc : option Scene) (w h : Z) (s : system) (err : error) :
  let o := Setup sc w h s in
  let evs := since s (final o) in
  result o = Some (Some err) ->
  err = ErrAlreadyAttached \/ err = ErrProgramBuildFailed
  \/ err = ErrCopyingDataToDevice
  \/ err ∈ omap file_error evs \/ err ∈ omap pack_error evs.
Proof.
  intros o evs. subst evs o.
  change (wp (Setup sc w h) s (fun o =>
    result o = Some (Some err) ->
    err = ErrAlreadyAttached \/ err = ErrProgramBuildFailed
    \/ err = ErrCopyingDataToDevice
    \/ err ∈ omap file_error (since s (final o))
    \/ err ∈ omap pack_error (since s (final o)))).
  unfold Setup, setupKernel. setup_paths.
  all: intros Hr; try discriminate Hr; injection Hr as <-.
  all: try (by left).
  all: try (by (right; left)).
  all: try (by (right; right; left)).
  all: events; cbn [omap list_omap file_error pack_error].
  all: do 3 right.
  all: first [left; apply elem_of_cons; by left | right; apply elem_of_cons; by left].
Qed.

(** X7. When the kernel file cannot be opened or read, [Setup] returns
    the error of [os.Open] or [ioutil.ReadAll] without a call into the
    OpenCL binding: it has stored the scene and the frame dimensions it
    was given, and nothing else has changed (the lock is free again, no
    goroutine is started, no cleanup is run). *)
Theorem Setup_without_kernel_file_touches_no_device
    (sc : option Scene) (w h : Z) (s : system) (err : error) :
  let o := Setup sc w h s in
  let evs := since s (final o) in
  err ∈ omap file_error evs ->
  exists s', o = Ok (Some err) s'
    /\ tr s' = set_frameH h (set_frameW w (set_scene sc (tr s)))
    /\ workers s' = workers s /\ hostmem s' = hostmem s
    /\ Forall (fun e => device_call e = false) evs.
Proof.
  intros o evs. subst evs o.
  change (wp (Setup sc w h) s (fun o =>
    err ∈ omap file_error (since s (final o)) ->
    exists s', o = Ok (Some err) s'
      /\ tr s' = set_frameH h (set_frameW w (set_scene sc (tr s)))
      /\ workers s' = workers s /\ hostmem s' = hostmem s
      /\ Forall (fun e => device_call e = false) (since s (final o)))).
  unfold Setup, setupKernel. setup_paths.
  all: events; cbn [omap list_omap file_error]; fold_omap;
    rewrite ?(teardown_no_file_error tevs) by assumption.
  all: intros Hin; try (by apply elem_of_nil in Hin).
  all: apply list_elem_of_singleton in Hin as ->.
  all: eexists; split; [reflexivity|]; red_state.
  all: split; [|split; [reflexivity|split; [reflexivity|repeat constructor]]].
  all: clear -Hmu; destruct (tr s); cbn in *; by subst.
Qed.

Lemma output_buffer_size w h : mul32 (mul32 (4 * 4) w) h = (4 * 4 * w * h) mod 2 ^ 32.
Proof.
  unfold mul32, wrap32.
  by rewrite (Z.mul_mod_idemp_l (4 * 4 * w) h) by lia.
Qed.

(** X8. The buffers [Setup] asks for are, in this order, the output buffer,
    write-only, of [4*4*frameW*frameH] bytes as a 32-bit product, and the
    frustum buffer, read-only, of 64 bytes; a [Setup] that returns nil has
    asked for both.  The size of the output buffer is that of the frame
    while [4*4*frameW*frameH] is below 2^32, and is smaller than the frame
    from there on. *)
Theorem Setup_buffer_requests (sc : option Scene) (w h : Z) (s : system) :
  let o := Setup sc w h s in
  let evs := since s (final o) in
  let asked := [(cl.MEM_WRITE_ONLY, (4 * 4 * w * h) mod 2 ^ 32);
                (cl.MEM_READ_ONLY, 64)] in
  omap buffer_request evs `prefix_of` asked
  /\ (result o = Some None -> omap buffer_request evs = asked)
  /\ (0 <= w -> 0 <= h -> 4 * 4 * w * h < 2 ^ 32 ->
      (4 * 4 * w * h) mod 2 ^ 32 = 4 * 4 * w * h)
  /\ (2 ^ 32 <= 4 * 4 * w * h -> (4 * 4 * w * h) mod 2 ^ 32 < 4 * 4 * w * h).
Proof.
  intros o evs asked. subst asked evs o.
  split; [|split; [|split]].
  - change (wp (Setup sc w h) s (fun o =>
      omap buffer_request (since s (final o)) `prefix_of`
        [(cl.MEM_WRITE_ONLY, (4 * 4 * w * h) mod 2 ^ 32); (cl.MEM_READ_ONLY, 64)])).
    unfold Setup, setupKernel. setup_paths.
    all: events; cbn [omap list_omap buffer_request]; fold_omap;
      rewrite ?(teardown_no_buffer_request tevs) by assumption;
      rewrite ?output_buffer_size.
    all: eexists; reflexivity.
  - change (wp (Setup sc w h) s (fun o => result o = Some None ->
      omap buffer_request (since s (final o)) =
        [(cl.MEM_WRITE_ONLY, (4 * 4 * w * h) mod 2 ^ 32); (cl.MEM_READ_ONLY, 64)])).
    unfold Setup, setupKernel. setup_paths.
    all: intros Hr; try discriminate Hr.
    all: events; cbn [omap list_omap buffer_request]; rewrite ?output_buffer_size.
    all: reflexivity.
  - intros Hw Hh Hlt. apply Z.mod_small. lia.
  - intros Hge. pose proof (Z.mod_pos_bound (4 * 4 * w * h) (2 ^ 32) ltac:(lia)). lia.
Qed.

(** X9. On a controller without context, which is a controller after
    [cleanup], [Setup] never attaches: it makes no call into the OpenCL
    binding and starts no goroutine; it returns [ErrAlreadyAttached] or the
    error of the kernel file, and once the kernel file is read it panics
    on [*tr.ctx]. *)
Theorem Setup_without_context_never_attaches
    (sc : option Scene) (w h : Z) (s : system) :
  ctx (tr s) = None ->
  let o := Setup sc w h s in
  let evs := since s (final o) in
  result o <> Some None
  /\ (forall err, result o = Some (Some err) ->
        err = ErrAlreadyAttached \/ err ∈ omap file_error evs)
  /\ Forall (fun e => device_call e = false) evs
  /\ workers (final o) = workers s
  /\ (forall template, Called IoReadAll (RFile (inr template)) ∈ evs ->
        exists s', o = Crash NilDereference s').
Proof.
  intros Hctx o evs. subst evs o.
  change (wp (Setup sc w h) s (fun o =>
    result o <> Some None
    /\ (forall err, result o = Some (Some err) ->
          err = ErrAlreadyAttached \/ err ∈ omap file_error (since s (final o)))
    /\ Forall (fun e => device_call e = false) (since s (final o))
    /\ workers (final o) = workers s
    /\ (forall template, Called IoReadAll (RFile (inr template)) ∈ since s (final o) ->
          exists s', o = Crash NilDereference s'))).
  unfold Setup, setupKernel. setup_paths.
  all: events; (split; [discriminate|]).
  all: split;
    [ intros err Herr; try discriminate Herr; injection Herr as <-;
      first [by left | right; cbn [omap list_omap file_error]; apply elem_of_cons; by left]
    | ].
  all: (split; [repeat constructor|]); (split; [reflexivity|]); intros template' Hin.
  all: try (eexists; reflexivity).
  all: exfalso;
    repeat (apply elem_of_cons in Hin as [Heq|Hin]; [discriminate Heq|]).
  all: by apply elem_of_nil in Hin.
Qed.

(** X10. A [Setup] that returns nil was given a scene that is not nil (the
    upload of the frustum dereferences it), on a controller with a context
    and without kernel; it has stored the scene and the frame dimensions,
    kept the context and the queue, released the lock, added one to the
    wait group and started one goroutine, which is blocked in its
    [select]; its last call is the upload of the 64 bytes of the scene's
    frustum to the frustum buffer, answered with success. *)
Theorem Setup_success_attaches (sc : option Scene) (w h : Z) (s s' : system) :
  Setup sc w h s = Ok None s' ->
  scene (tr s') = sc /\ frameW (tr s') = w /\ frameH (tr s') = h
  /\ ctx (tr s) <> None /\ traceKernel (tr s) = None
  /\ ctx (tr s') = ctx (tr s) /\ cmdQueue (tr s') = cmdQueue (tr s)
  /\ mu (tr s') = false /\ wg (tr s') = S (wg (tr s))
  /\ workers s' = workers s ++ [Listening] /\ hostmem s' = hostmem s
  /\ exists sc0,
       sc = Some sc0 /\
       last (since s s') =
         Some (Called (EnqueueWriteBuffer (cmdQueue (tr s')) (frustrumCorners (tr s'))
                         cl.TRUE 0 64 (frustrum_words (SceneCamera sc0)))
                 (RCode cl.SUCCESS)).
Proof.
  revert s'.
  change (wp (Setup sc w h) s (fun o => forall s', o = Ok None s' ->
    scene (tr s') = sc /\ frameW (tr s') = w /\ frameH (tr s') = h
    /\ ctx (tr s) <> None /\ traceKernel (tr s) = None
    /\ ctx (tr s') = ctx (tr s) /\ cmdQueue (tr s') = cmdQueue (tr s)
    /\ mu (tr s') = false /\ wg (tr s') = S (wg (tr s))
    /\ workers s' = workers s ++ [Listening] /\ hostmem s' = hostmem s
    /\ exists sc0,
         sc = Some sc0 /\
         last (since s s') =
           Some (Called (EnqueueWriteBuffer (cmdQueue (tr s')) (frustrumCorners (tr s'))
                           cl.TRUE 0 64 (frustrum_words (SceneCamera sc0)))
                   (RCode cl.SUCCESS)))).
  unfold Setup, setupKernel. setup_paths.
  all: intros s' Hs'; try discriminate Hs'; injection Hs' as <-.
  all: all_succeeded; red_state.
  all: repeat (split; [first [reflexivity | discriminate | exact Hx]|]).
  all: eexists; (split; [reflexivity|]); events; reflexivity.
Qed.

(** X11. [data[0:dataLen-1]] with the length the driver reports: when the
    compilation fails and the driver reports a build log of no byte at
    all ([dataLen = 0], where [dataLen - 1] wraps around) or of more than
    120001 bytes, [Setup] panics on the slice expression; it has logged
    nothing, released nothing, and still holds the context. *)
Theorem Setup_build_log_slice_panics
    (sc : option Scene) (w h : Z) (s : system) (e : Z) (written : list Z) (dataLen : Z) :
  let o := Setup sc w h s in
  let evs := since s (final o) in
  head (omap build_code evs) = Some e -> failing e = true ->
  head (omap build_info evs) = Some (written, dataLen) ->
  dataLen = 0 \/ 120001 < dataLen < 2 ^ 64 ->
  (exists s', o = Crash SliceBoundsOutOfRange s')
  /\ omap build_log evs = [] /\ omap releasing evs = []
  /\ ctx (tr (final o)) = ctx (tr s) /\ ctx (tr s) <> None.
Proof.
  intros o evs. subst evs o.
  change (wp (Setup sc w h) s (fun o =>
    head (omap build_code (since s (final o))) = Some e -> failing e = true ->
    head (omap build_info (since s (final o))) = Some (written, dataLen) ->
    dataLen = 0 \/ 120001 < dataLen < 2 ^ 64 ->
    (exists s', o = Crash SliceBoundsOutOfRange s')
    /\ omap build_log (since s (final o)) = []
    /\ omap releasing (since s (final o)) = []
    /\ ctx (tr (final o)) = ctx (tr s) /\ ctx (tr s) <> None)).
  unfold Setup, setupKernel. setup_paths.
  all: events; cbn [omap list_omap build_code build_info build_log releasing
                    release_of head].
  all: intros He Hf Hinfo Hlen; try discriminate He; try discriminate Hinfo.
  all: try (injection He as <-; rewrite Hf in *; discriminate).
  all: injection Hinfo as -> ->.
  - split; [eexists; reflexivity|]. split; [reflexivity|]. split; [reflexivity|].
    split; [exact Hx|discriminate].
  - exfalso. clear -Hb0 Hlen. unfold sub64, wrap64, build_log_capacity in Hb0.
    destruct Hlen as [->|Hd]; [vm_compute in Hb0; discriminate|].
    rewrite Z.mod_small in Hb0 by lia. apply Z.ltb_ge in Hb0. lia.
  - exfalso. clear -Hb0 Hlen. unfold sub64, wrap64, build_log_capacity in Hb0.
    destruct Hlen as [->|Hd]; [vm_compute in Hb0; discriminate|].
    rewrite Z.mod_small in Hb0 by lia. apply Z.ltb_ge in Hb0. lia.
Qed.

(** X15. After a [Setup] that returns nil, every object that a call of
    this [Setup] has created is in the field it belongs to: the program,
    the kernel, the write-only buffer as output buffer, the read-only
    buffer as frustum buffer, the image of the packed materials and the
    image of the packed primitives; a nil answer is kept as well. *)
Theorem Setup_stores_what_it_creates (sc : option Scene) (w h : Z) (s s' : system) :
  Setup sc w h s = Ok None s' ->
  forall c hd field,
    Called c (RHandle hd) ∈ since s s' -> field_of c = Some field ->
    field (tr s') = hd.
Proof.
  revert s'.
  change (wp (Setup sc w h) s (fun o => forall s', o = Ok None s' ->
    forall c hd field,
      Called c (RHandle hd) ∈ since s s' -> field_of c = Some field ->
      field (tr s') = hd)).
  unfold Setup, setupKernel. setup_paths.
  all: intros s' Hs'; try discriminate Hs'; injection Hs' as <-.
  all: events; intros c hd field Hin Hf.
  all: repeat (apply elem_of_cons in Hin as [Heq|Hin];
               [try discriminate Heq; injection Heq as -> ->;
                first [discriminate Hf | injection Hf as <-; reflexivity]|]).
  all: by apply elem_of_nil in Hin.
Qed.

(** X18. The guard of [Setup] holds whenever the kernel was created: after
    a [Setup] that returns nil and whose [cl.CreateKernel] has answered a
    kernel, a further [Setup], whatever its arguments, returns
    [ErrAlreadyAttached] and leaves the whole state as it is: handles,
    scene, frame dimensions, goroutines, and no call is made. *)
Theorem second_Setup_is_refused_when_the_kernel_was_created
    (sc sc' : option Scene) (w h w' h' : Z) (s s2 : system)
    (p : option handle) (name : string) (k : handle) :
  Setup sc w h s = Ok None s2 ->
  Called (CreateKernel p name) (RHandle (Some k)) ∈ since s s2 ->
  Setup sc' w' h' s2 = Ok (Some ErrAlreadyAttached) s2.
Proof.
  intros Hsetup Hin.
  assert (H : mu (tr s2) = false /\ traceKernel (tr s2) = Some k).
  { revert s2 Hsetup Hin.
    change (wp (Setup sc w h) s (fun o => forall s2, o = Ok None s2 ->
      Called (CreateKernel p name) (RHandle (Some k)) ∈ since s s2 ->
      mu (tr s2) = false /\ traceKernel (tr s2) = Some k)).
    unfold Setup, setupKernel. setup_paths.
    all: intros s2 Hs2; try discriminate Hs2; injection Hs2 as <-.
    all: events; intros Hin; (split; [reflexivity|]); red_state.
    all: repeat (apply elem_of_cons in Hin as [Heq|Hin];
                 [try discriminate Heq; injection Heq as _ _ ->; reflexivity|]).
    all: by apply elem_of_nil in Hin. }
  destruct H as [Hmu Hk]. apply Setup_already_attached; [exact Hmu|].
  rewrite Hk. discriminate.
Qed.

(** ** SyncScene *)

Lemma length_frustrum_words c : length (frustrum_words c) = 16%nat.
Proof.
  unfold frustrum_words. destruct (Frustrum c) as [[[a b] c'] d].
  by destruct a as [[[? ?] ?] ?], b as [[[? ?] ?] ?], c' as [[[? ?] ?] ?],
             d as [[[? ?] ?] ?].
Qed.

(** X12. On a controller with a context and a scene, [SyncScene] makes one
    call: the blocking write, from offset 0, of the 64 bytes of the four
    corners of the camera's frustum (16 floats of 4 bytes) to the frustum
    buffer, on the controller's queue.  It returns nil when the write
    succeeds; else it logs the failure and returns
    [ErrCopyingDataToDevice].  The controller, lock included, is
    afterwards as it was before. *)
Theorem SyncScene_uploads_the_frustum (s : system) (sc : Scene) :
  mu (tr s) = false -> ctx (tr s) <> None -> scene (tr s) = Some sc ->
  exists code s',
    SyncScene s = Ok (if failing code then Some ErrCopyingDataToDevice else None) s'
    /\ since s s' =
         Called (EnqueueWriteBuffer (cmdQueue (tr s)) (frustrumCorners (tr s))
                   cl.TRUE 0 64 (frustrum_words (SceneCamera sc))) (RCode code)
         :: (if failing code then [Logged LogFrustrumWriteFailed] else [])
    /\ 4 * len (frustrum_words (SceneCamera sc)) = 64
    /\ tr s' = tr s /\ workers s' = workers s /\ hostmem s' = hostmem s.
Proof.
  intros Hmu Hctx Hsc.
  change (wp SyncScene s (fun o => exists code s',
    o = Ok (if failing code then Some ErrCopyingDataToDevice else None) s'
    /\ since s s' =
         Called (EnqueueWriteBuffer (cmdQueue (tr s)) (frustrumCorners (tr s))
                   cl.TRUE 0 64 (frustrum_words (SceneCamera sc))) (RCode code)
         :: (if failing code then [Logged LogFrustrumWriteFailed] else [])
    /\ 4 * len (frustrum_words (SceneCamera sc)) = 64
    /\ tr s' = tr s /\ workers s' = workers s /\ hostmem s' = hostmem s)).
  unfold SyncScene, syncScene. repeat setup_step.
  all: try congruence.
  all: exists e; eexists; rewrite Hc; (split; [reflexivity|]).
  all: (split; [events; reflexivity|]).
  all: (split; [unfold len; by rewrite length_frustrum_words|]).
  all: red_state; (split; [|split; reflexivity]).
  all: clear -Hmu; destruct (tr s); cbn in *; by subst.
Qed.

(** ** A controller without context holds nothing *)

Lemma live_workers_none ws : live_workers ws = 0%nat -> Forall (eq Exited) ws.
Proof.
  induction ws as [|[] ws IH]; cbn [live_workers]; intros H; try discriminate H.
  - constructor.
  - constructor; [reflexivity|by apply IH].
Qed.

Lemma hand_over_exited blockReq ws :
  Forall (eq Exited) ws -> hand_over blockReq ws = None.
Proof.
  intros H. apply hand_over_none. eapply Forall_impl; [exact H|].
  by intros w <-.
Qed.

Lemma newTracer_settled id' device' s0 s1 :
  newTracer id' device' s0 = Ok None s1 -> settled s1.
Proof.
  intros H. apply newTracer_creates in H as (_ & Hctx & _).
  intros Hn. by destruct Hctx.
Qed.

Lemma Enqueue_settled blockReq s s' :
  settled s -> Enqueue blockReq s = Ok tt s' -> settled s'.
Proof.
  intros Hs. unfold Enqueue.
  destruct (hand_over blockReq (workers s)); by intros [= <-].
Qed.

Lemma worker_turn_settled i s s' :
  settled s -> worker_turn i s = Ok tt s' -> settled s'.
Proof.
  intros Hs. unfold worker_turn.
  destruct (workers s !! i) as [[|blockReq|]|] eqn:Hi; try (by intros [= <-]).
  unfold bind, set_worker, update.
  pose proof (serve_render_step blockReq s) as (Ht & _).
  destruct (serve blockReq s) as [[] s1|f s1]; [|done]. cbn [final] in *.
  intros [= <-]. unfold settled in *. cbn [tr with_workers]. by rewrite Ht.
Qed.

Lemma SyncScene_settled r s s' :
  settled s -> SyncScene s = Ok r s' -> settled s'.
Proof.
  intros Hs. revert r s'.
  change (wp SyncScene s (fun o => forall r s', o = Ok r s' -> settled s')).
  unfold SyncScene, syncScene. repeat setup_step.
  all: intros r s' Heq; try discriminate Heq; injection Heq as <- <-.
  all: unfold settled, released in Hs |- *; red_state; exact Hs.
Qed.

Lemma cleanup_false_settles s :
  counted s -> settled s ->
  forall u s', cleanup false s = Ok u s' -> settled s'.
Proof.
  intros Hcount Hs u s' Hc.
  pose proof (cleanup_false_spec s Hcount) as Hpost.
  unfold cleanup_post in Hpost. rewrite Hc in Hpost.
  destruct (ctx (tr s)) as [c|] eqn:Hctx.
  2:{ injection Hpost as _ <-. exact Hs. }
  destruct (closeChan (tr s)); [discriminate Hpost|].
  destruct Hpost as (wevs & _ & [(f & s1 & Heq & _)
                                |(codes & s1 & Heq & _ & _ & Ht & _)]);
    [discriminate Heq|].
  injection Heq as _ <-. intros _. rewrite Ht. by repeat split.
Qed.

Lemma Close_settled s s' :
  consistent s -> settled s -> Close s = Ok tt s' -> settled s'.
Proof.
  intros (Hmu & Hcount & Hcl) Hs Hclose.
  destruct (ctx (tr s)) as [c|] eqn:Hctx.
  2:{ rewrite Close_noop in Hclose by done. by injection Hclose as <-. }
  rewrite Close_unfold in Hclose by exact Hmu.
  destruct (cleanup false (with_tr (set_mu true) s)) as [[] s1|f s1] eqn:Hc;
    [|discriminate Hclose].
  apply cleanup_false_settles in Hc.
  - injection Hclose as <-. unfold settled, released in Hc |- *. exact Hc.
  - exact Hcount.
  - intros Hn. cbn [tr with_tr ctx set_mu] in Hn. congruence.
Qed.

Ltac cleanup_settles Hcount :=
  lazymatch goal with
  | |- wp (cleanup false) ?s0 _ =>
      apply (wp_spec (cleanup false) s0
               (fun o => forall u s', o = Ok u s' -> settled s'));
      [ apply cleanup_false_settles;
        [ unfold counted; red_state; exact Hcount
        | unfold settled; red_state;
          let Hn := fresh "Hn" in
          intros Hn;
          match goal with Hx : ctx (tr _) = Some _ |- _ => rewrite Hx in Hn end;
          discriminate Hn ]
      | let Hkeep := fresh "Hkeep" in
        intros [[] ?s1|?f ?s1] Hkeep;
        [ specialize (Hkeep tt _ eq_refl) | clear Hkeep ];
        red_state ]
  end.

Lemma Setup_settled sc w h r s s' :
  consistent s -> settled s -> Setup sc w h s = Ok r s' -> settled s'.
Proof.
  intros (Hmu & Hcount & Hcl) Hs. revert r s'.
  change (wp (Setup sc w h) s (fun o => forall r s', o = Ok r s' -> settled s')).
  unfold Setup, setupKernel.
  repeat first [setup_step | cleanup_settles Hcount].
  all: intros r s' Heq; try discriminate Heq; injection Heq as <- <-.
  all: lazymatch goal with
       | Hkeep : settled ?s1 |- settled (with_tr _ ?s1) =>
           unfold settled, released in Hkeep |- *; red_state; exact Hkeep
       | Hx : ctx (tr _) = Some _ |- _ =>
           unfold settled; red_state;
           let Hn := fresh "Hn" in
           intros Hn; rewrite Hx in Hn; discriminate Hn
       | |- _ => unfold settled, released in Hs |- *; red_state; exact Hs
       end.
Qed.

Lemma step_settled s s' : consistent s -> settled s -> step s s' -> settled s'.
Proof.
  intros Hc Hs Hstep. revert Hc Hs.
  destruct Hstep as [sc w h r s s' H|blockReq s s' H|i s s' H|r s s' H|s s' H];
    intros Hc Hs.
  - exact (Setup_settled sc w h r s s' Hc Hs H).
  - exact (Enqueue_settled blockReq s s' Hs H).
  - exact (worker_turn_settled i s s' Hs H).
  - exact (SyncScene_settled r s s' Hs H).
  - exact (Close_settled s s' Hc Hs H).
Qed.

Lemma reachable_settled s : reachable s -> settled s.
Proof.
  induction 1 as [id' device' s0 s1 H|s s' Hr IH Hstep].
  - exact (newTracer_settled id' device' s0 s1 H).
  - exact (step_settled s s' (reachable_consistent s Hr) IH Hstep).
Qed.

Lemma Close_drops_context s s' :
  consistent s -> Close s = Ok tt s' -> ctx (tr s') = None.
Proof.
  intros (Hmu & Hcount & Hcl) Hclose.
  destruct (ctx (tr s)) as [c|] eqn:Hctx.
  2:{ rewrite Close_noop in Hclose by done. by injection Hclose as <-. }
  rewrite Close_unfold in Hclose by exact Hmu.
  pose proof (cleanup_false_spec (with_tr (set_mu true) s) Hcount) as Hpost.
  unfold cleanup_post in Hpost. red_in Hpost. rewrite Hctx in Hpost.
  destruct (closeChan (tr s)); [by specialize (Hcl eq_refl)|].
  destruct Hpost as (wevs & _ & [(f & s1 & Hc & _)
                                |(codes & s1 & Hc & _ & _ & Ht & _)]);
    rewrite Hc in Hclose; [discriminate|].
  injection Hclose as <-. red_state. by rewrite Ht.
Qed.

(** X13. In every state that a controller made by [newTracer] reaches by
    [Setup], [Enqueue], [SyncScene], [Close] and turns of its workers that
    return, the lock is free, the wait group counts the goroutines that
    have not returned, the close channel is closed exactly when the
    context is nil, and a controller with a nil context holds no device
    object at all and has no goroutine left. *)
Theorem reachable_states_are_settled (s : system) :
  reachable s ->
  mu (tr s) = false
  /\ wg (tr s) = live_workers (workers s)
  /\ (closeChan (tr s) = true <-> ctx (tr s) = None)
  /\ (ctx (tr s) = None -> released (tr s) /\ Forall (eq Exited) (workers s)).
Proof.
  intros Hr.
  destruct (reachable_consistent s Hr) as (Hmu & Hcount & Hcl).
  pose proof (reachable_settled s Hr) as Hs.
  split; [exact Hmu|]. split; [exact Hcount|]. split.
  - split; [exact Hcl|]. intros Hn. by destruct (Hs Hn).
  - intros Hn. split; [by apply Hs|].
    apply live_workers_none. rewrite <- Hcount. by destruct (Hs Hn) as (_ & Hwg & _).
Qed.

(** X14. [Close] is final: in a state the controller can reach, once
    [Close] has returned the context is nil, every [Enqueue] drops its
    request and leaves the state as it is, and [SyncScene] returns
    [ErrPendingSetup] without a call. *)
Theorem Close_is_final (s s' : system) :
  reachable s -> Close s = Ok tt s' ->
  ctx (tr s') = None
  /\ (forall blockReq, Enqueue blockReq s' = Ok tt s')
  /\ SyncScene s' = Ok (Some ErrPendingSetup) s'.
Proof.
  intros Hr Hclose.
  assert (Hr' : reachable s').
  { eapply reachable_step; [exact Hr|]. by apply step_Close. }
  destruct (reachable_consistent s' Hr') as (Hmu & Hcount & _).
  pose proof (Close_drops_context s s' (reachable_consistent s Hr) Hclose) as Hn.
  destruct (reachable_settled s' Hr' Hn) as (_ & Hwg & _).
  split; [exact Hn|]. split.
  - intros blockReq. unfold Enqueue. rewrite hand_over_exited; [done|].
    apply live_workers_none. by rewrite <- Hcount.
  - by apply SyncScene_guard.
Qed.

(** ** A Setup that fails leaves nothing allocated *)

Lemma cleanup_false_releases s :
  counted s -> ctx (tr s) <> None -> closeChan (tr s) = false ->
  forall u s', cleanup false s = Ok u s' ->
    tr s' = torn_down (tr s) /\
    workers s' = replicate (length (workers s)) Exited /\
    exists evs, trace s' = trace s ++ evs /\
                omap releasing evs = in_release_order (tr s) /\
                omap creation evs = [] /\ omap file_error evs = [].
Proof.
  intros Hcount Hctx Hcc u s' Hc.
  pose proof (cleanup_false_spec s Hcount) as Hpost.
  unfold cleanup_post in Hpost. rewrite Hc, Hcc in Hpost.
  destruct (ctx (tr s)) as [c|]; [|done].
  destruct Hpost as (wevs & Hwevs & [(f & s1 & Heq & _)
                                    |(codes & s1 & Heq & Hlen & Htr & Ht & Hws & _)]);
    [discriminate Heq|].
  injection Heq as _ <-. split; [exact Ht|]. split; [exact Hws|].
  eexists. split; [exact Htr|].
  change (ClosedCloseChan :: wevs ++ WaitedForWorkers :: ?l)
    with ([ClosedCloseChan] ++ wevs ++ [WaitedForWorkers] ++ l).
  rewrite !omap_app. destruct (render_no_resource wevs Hwevs) as [-> ->].
  rewrite releasing_answered by exact Hlen. rewrite release_plan_order.
  split; [reflexivity|]. split.
  - apply answered_only_calls; [|apply release_plan_releases].
    by intros [] r Hr.
  - rewrite (teardown_no_file_error wevs)
      by (eapply Forall_impl; [exact Hwevs|]; by left).
    apply answered_only_calls; [|apply release_plan_releases].
    by intros [] r Hr.
Qed.

Lemma release_order_permutes t :
  map snd (in_release_order t) ≡ₚ map snd (in_creation_order t).
Proof.
  unfold in_release_order, in_creation_order. rewrite !map_app. solve_Permutation.
Qed.

(** Use of [cleanup_false_releases] at the state a path has reached, which
    is first given a name. *)
Ltac cleanup_releases Hwg Hws Hcc :=
  lazymatch goal with
  | |- wp (cleanup false) ?s0 _ =>
      let big := fresh "big" in
      let Htb := fresh "Htb" in
      let Htrb := fresh "Htrb" in
      let Hwb := fresh "Hwb" in
      let t := eval cbn [tr with_tr emit with_workers with_hostmem] in (tr s0) in
      let tc := eval cbn [trace with_tr emit with_workers with_hostmem] in (trace s0) in
      let ws := eval cbn [workers with_tr emit with_workers with_hostmem] in (workers s0) in
      assert (Htb : tr s0 = t) by reflexivity;
      assert (Htrb : trace s0 = tc) by reflexivity;
      assert (Hwb : workers s0 = ws) by reflexivity;
      set (big := s0) in *; clearbody big;
      apply (wp_spec (cleanup false) big
               (fun o => forall u s', o = Ok u s' ->
                  tr s' = torn_down (tr big) /\
                  workers s' = replicate (length (workers big)) Exited /\
                  exists evs, trace s' = trace big ++ evs /\
                              omap releasing evs = in_release_order (tr big) /\
                              omap creation evs = [] /\ omap file_error evs = []));
      [ apply cleanup_false_releases;
        [ unfold counted; rewrite Htb, Hwb; red_state; rewrite Hwg, Hws; reflexivity
        | rewrite Htb; red_state;
          match goal with Hx : ctx (tr _) = Some _ |- _ => rewrite Hx end;
          discriminate
        | rewrite Htb; red_state; exact Hcc ]
      | let Hkeep := fresh "Hkeep" in
        let Ht1 := fresh "Ht1" in
        let Hw1 := fresh "Hw1" in
        let tevs := fresh "tevs" in
        let Htr := fresh "Htr" in
        let Hrel := fresh "Hrel" in
        let Hcre := fresh "Hcre" in
        let Hfe := fresh "Hfe" in
        intros [[] ?s1|?f ?s1] Hkeep;
        [ destruct (Hkeep tt _ eq_refl) as (Ht1 & Hw1 & tevs & Htr & Hrel & Hcre & Hfe);
          rewrite Htb in Ht1, Hrel; rewrite Htrb in Htr; rewrite Hwb, Hws in Hw1
        | ];
        clear Hkeep Htb Htrb Hwb big; red_state ]
  end.

(** X16. On a controller as [newTracer] leaves it, a [Setup] that returns
    an error other than one of the kernel file (the compilation failed,
    [packScene] failed, or the upload of the frustum failed) has released
    the context, the queue and every object it has created, each once;
    the controller holds no handle afterwards and no goroutine runs. *)
Theorem Setup_failure_releases_everything
    (sc : option Scene) (w h : Z) (s : system) (err : error) :
  unattached s ->
  let o := Setup sc w h s in
  let evs := since s (final o) in
  result o = Some (Some err) -> omap file_error evs = [] ->
  tr (final o) = torn_down (set_frameH h (set_frameW w (set_scene sc (tr s))))
  /\ map snd (omap releasing evs) ≡ₚ
     option_list (ctx (tr s)) ++ option_list (cmdQueue (tr s)) ++
     map snd (omap creation evs)
  /\ workers (final o) = [].
Proof.
  intros (Hmu & Hcc & Hwg & Hws & Hprog & Hker & Hout & Hfru & Hmat & Hpri) o evs.
  subst evs o.
  change (wp (Setup sc w h) s (fun o =>
    result o = Some (Some err) -> omap file_error (since s (final o)) = [] ->
    tr (final o) = torn_down (set_frameH h (set_frameW w (set_scene sc (tr s))))
    /\ map snd (omap releasing (since s (final o))) ≡ₚ
       option_list (ctx (tr s)) ++ option_list (cmdQueue (tr s)) ++
       map snd (omap creation (since s (final o)))
    /\ workers (final o) = [])).
  unfold Setup, setupKernel.
  repeat first [setup_step | cleanup_releases Hwg Hws Hcc].
  all: intros Hr; try discriminate Hr; clear Hr.
  all: try (events; cbn [omap list_omap file_error]; intros Hfe'; discriminate Hfe').
  all: intros _.
  all: split; [rewrite Ht1; clear -Hmu; destruct (tr s); cbn in *; by subst|].
  all: split; [|rewrite Hw1; reflexivity].
  all: events; cbn [omap list_omap releasing release_of creation]; fold_omap;
    rewrite Hrel, Hcre.
  all: (etrans; [apply release_order_permutes|]).
  all: unfold in_creation_order; red_state;
    rewrite ?Hprog, ?Hker, ?Hout, ?Hfru, ?Hmat, ?Hpri, ?Hx.
  all: destruct (cmdQueue (tr s));
    repeat match goal with hd : option handle |- _ => destruct hd end.
  all: reflexivity.
Qed.

(** ** The identity of a controller *)

Lemma cleanup_false_identity s :
  counted s ->
  forall u s', cleanup false s = Ok u s' ->
    id (tr s') = id (tr s) /\ device (tr s') = device (tr s).
Proof.
  intros Hcount u s' Hc.
  pose proof (cleanup_false_spec s Hcount) as Hpost.
  unfold cleanup_post in Hpost. rewrite Hc in Hpost.
  destruct (ctx (tr s)) as [c|].
  2:{ by injection Hpost as _ <-. }
  destruct (closeChan (tr s)); [discriminate Hpost|].
  destruct Hpost as (wevs & _ & [(f & s1 & Heq & _)
                                |(codes & s1 & Heq & _ & _ & Ht & _)]);
    [discriminate Heq|].
  injection Heq as _ <-. by rewrite Ht.
Qed.

Ltac cleanup_identity Hcount :=
  lazymatch goal with
  | |- wp (cleanup false) ?s0 ?Q =>
      lazymatch Q with
      | context [id (tr ?s)] =>
          apply (wp_spec (cleanup false) s0
                   (fun o => forall u s', o = Ok u s' ->
                      id (tr s') = id (tr s) /\ device (tr s') = device (tr s)));
          [ apply (cleanup_false_identity s0); unfold counted; red_state; exact Hcount
          | let Hkeep := fresh "Hkeep" in
            intros [[] ?s1|?f ?s1] Hkeep;
            [ specialize (Hkeep tt _ eq_refl) | clear Hkeep ];
            red_state ]
      end
  end.

Lemma step_identity s s' :
  consistent s -> step s s' ->
  id (tr s') = id (tr s) /\ device (tr s') = device (tr s).
Proof.
  intros Hc Hstep. revert Hc.
  destruct Hstep as [sc w h r s s' H|blockReq s s' H|i s s' H|r s s' H|s s' H];
    intros (Hmu & Hcount & Hcl).
  - revert r s' H.
    change (wp (Setup sc w h) s (fun o => forall r s', o = Ok r s' ->
      id (tr s') = id (tr s) /\ device (tr s') = device (tr s))).
    unfold Setup, setupKernel.
    repeat first [setup_step | cleanup_identity Hcount].
    all: intros r s' Heq; try discriminate Heq; injection Heq as <- <-.
    all: red_state; first [exact Hkeep | split; reflexivity].
  - unfold Enqueue in H.
    destruct (hand_over blockReq (workers s)); by injection H as <-.
  - unfold worker_turn in H.
    destruct (workers s !! i) as [[|blockReq|]|] eqn:Hi; try (by injection H as <-).
    unfold bind, set_worker, update in H.
    pose proof (serve_render_step blockReq s) as (Ht & _).
    destruct (serve blockReq s) as [[] s1|f s1]; [|done]. cbn [final] in *.
    injection H as <-. cbn [tr with_workers]. by rewrite Ht.
  - revert r s' H.
    change (wp SyncScene s (fun o => forall r s', o = Ok r s' ->
      id (tr s') = id (tr s) /\ device (tr s') = device (tr s))).
    unfold SyncScene, syncScene. repeat setup_step.
    all: intros r s' Heq; try discriminate Heq; injection Heq as <- <-.
    all: red_state; split; reflexivity.
  - destruct (ctx (tr s)) as [c|] eqn:Hctx.
    2:{ rewrite Close_noop in H by done. by injection H as <-. }
    rewrite Close_unfold in H by exact Hmu.
    destruct (cleanup false (with_tr (set_mu true) s)) as [[] s1|f s1] eqn:Hc;
      [|discriminate H].
    apply cleanup_false_identity in Hc; [|exact Hcount].
    injection H as <-. exact Hc.
Qed.

(** X17. The identity of a controller is fixed by [newTracer]: in every
    state the controller reaches afterwards by [Setup], [Enqueue],
    [SyncScene], [Close] and turns of its workers, [Id] returns the id
    that [newTracer] was given and changes nothing, and the device is the
    one [newTracer] was given. *)
Theorem Id_is_the_id_given_to_newTracer
    (id' : string) (device' : Device) (s0 s1 s : system) :
  newTracer id' device' s0 = Ok None s1 -> later s1 s ->
  Id s = Ok id' s /\ device (tr s) = device'.
Proof.
  intros Hnew Hl.
  assert (H1 : id (tr s1) = id' /\ device (tr s1) = device').
  { revert s1 Hnew Hl.
    change (wp (newTracer id' device') s0 (fun o => forall s1, o = Ok None s1 ->
      later s1 s -> id (tr s1) = id' /\ device (tr s1) = device')).
    unfold newTracer. repeat setup_step.
    all: intros s1 Hs1; try discriminate Hs1; injection Hs1 as <-.
    intros _. split; reflexivity. }
  pose proof (newTracer_consistent id' device' s0 s1 Hnew) as Hc.
  assert (H2 : id (tr s) = id (tr s1) /\ device (tr s) = device (tr s1)).
  { clear Hnew H1. induction Hl as [|s1 s2 s3 Hstep Hl IH]; [done|].
    destruct (step_identity s1 s2 Hc Hstep) as [Hi Hd].
    destruct (IH (step_consistent s1 s2 Hc Hstep)) as [Hi' Hd'].
    split; congruence. }
  destruct H1 as [<- <-], H2 as [Hi Hd]. unfold Id, get. by rewrite Hi, Hd.
Qed.
End Controller.

(** ** The claims on sample runs *)

(** C1, on the code. A controller that [newTracer] has just made, with the
    driver that answers every call with success, has a context and no scene:
    [SyncScene] before any [Setup] passes the guard of [syncScene], which
    tests the context, and stops on the nil scene while it evaluates the
    arguments of the upload; it does not return [ErrPendingSetup]. *)
Theorem SyncScene_before_Setup_is_not_pending_setup :
  let created := newTracer Sample.good "t1" Sample.gpu Sample.boot in
  let s1 := final created in
  result created = Some None
  /\ ctx (tr s1) = Some 1 /\ scene (tr s1) = None
  /\ SyncScene Sample.good s1 = Crash NilDereference (with_tr (set_mu true) s1)
  /\ result (SyncScene Sample.good s1) <> Some (Some ErrPendingSetup).
Proof.
  cbv zeta. split; [by vm_compute|]. split; [by vm_compute|]. split; [by vm_compute|].
  destruct (SyncScene_guard Sample.good
              (final (newTracer Sample.good "t1" Sample.gpu Sample.boot)))
    as (_ & Hnil & Hnot); [by vm_compute|].
  split; [apply Hnil; by vm_compute|apply Hnot; by vm_compute].
Qed.

(** C2, as stated, fails: with the driver that answers every call with
    success and gives each new object the next pointer, the objects are
    created in the order 1, 2, 5, 7, 8, 9, 11, 12 (8 the output buffer, 9 the
    frustum buffer) and released in the order 12, 11, 8, 9, 7, 5, 2, 1, which
    is not the reverse. *)
Lemma release_order_is_not_reverse_of_creation_order :
  let s1 := final (newTracer Sample.good "t1" Sample.gpu Sample.boot) in
  let attached := Setup Sample.good 16 16 (Some Sample.scene) 2 2 s1 in
  let s2 := final attached in
  let closed := Close Sample.good s2 in
  result attached = Some None /\ result closed = Some tt
  /\ map snd (omap creation (since Sample.boot s2)) = [1; 2; 5; 7; 8; 9; 11; 12]
  /\ map snd (omap releasing (since s2 (final closed))) = [12; 11; 8; 9; 7; 5; 2; 1]
  /\ map snd (omap releasing (since s2 (final closed)))
     <> rev (map snd (omap creation (since Sample.boot s2))).
Proof. vm_compute. repeat split; congruence. Qed.

(** C3, as stated, fails: on a frame of width 2^28 + 1 and of two rows the
    output buffer takes 32 bytes, the request for the second row is
    processed with success, and the copy reads 16 bytes from byte 16 into
    the render target from index 4, where the formulas of the claim give
    4294967312 bytes from byte 4294967312 and index 1073741828. *)
Lemma copy_offset_of_a_wide_frame_is_not_the_product :
  let w := 2 ^ 28 + 1 in
  let s1 := final (newTracer Sample.good "t1" Sample.gpu Sample.boot) in
  let attached := Setup Sample.good 16 16 (Some Sample.scene) w 2 s1 in
  let s2 := final attached in
  let o := process Sample.good Sample.second_row s2 in
  result attached = Some None /\ frameW (tr s2) = w /\ frameH (tr s2) = 2
  /\ BlockY Sample.second_row + BlockH Sample.second_row <= frameH (tr s2)
  /\ omap buffer_request (since s1 s2) = [(cl.MEM_WRITE_ONLY, 32); (cl.MEM_READ_ONLY, 64)]
  /\ result o = Some None
  /\ omap read_args (since s2 (final o)) = [(16, 16, 4)]
  /\ (4 * 4 * w * BlockY Sample.second_row,
      4 * 4 * w * BlockH Sample.second_row,
      w * 4 * BlockY Sample.second_row) = (4294967312, 4294967312, 1073741828).
Proof. vm_compute. repeat split; congruence. Qed.

(** C5, on the code. When the program builds but [cl.CreateKernel] answers
    nil (no entry point [tracePixel]), the nil [errPtr] hides the failure:
    the first [Setup] returns nil with a nil kernel handle, and a second
    [Setup] without [Close] in between passes the guard, returns nil and not
    [ErrAlreadyAttached], replaces the frame width 2 by 4 and the output
    buffer 8 by 19, releases nothing, and starts a second worker. *)
Theorem second_Setup_goes_through_when_the_kernel_was_not_created :
  let drv := Sample.no_entry_point in
  let s1 := final (newTracer drv "t1" Sample.gpu Sample.boot) in
  let first := Setup drv 16 16 (Some Sample.scene) 2 2 s1 in
  let second := Setup drv 16 16 (Some Sample.scene) 4 4 (final first) in
  result first = Some None /\ traceKernel (tr (final first)) = None
  /\ result second = Some None
  /\ result second <> Some (Some ErrAlreadyAttached)
  /\ frameW (tr (final first)) = 2 /\ frameW (tr (final second)) = 4
  /\ traceOutput (tr (final first)) = Some 8
  /\ traceOutput (tr (final second)) = Some 19
  /\ omap releasing (trace (final second)) = []
  /\ workers (final second) = [Listening; Listening].
Proof. vm_compute. repeat split; congruence. Qed.

(** C6, as stated, fails: when the compilation fails and the driver reports
    a build log of one byte, the terminator alone, [Setup] returns
    [ErrProgramBuildFailed] and the diagnostic text it has logged is
    empty. *)
Lemma build_failure_with_an_empty_log_logs_no_text :
  let drv := Sample.build_fails_silently in
  let s1 := final (newTracer drv "t1" Sample.gpu Sample.boot) in
  let o := Setup drv 16 16 (Some Sample.scene) 2 2 s1 in
  let evs := since s1 (final o) in
  head (omap build_code evs) = Some (-11) /\ failing (-11) = true
  /\ omap build_info evs = [([0], 1)]
  /\ result o = Some (Some ErrProgramBuildFailed)
  /\ omap build_log evs = [[]].
Proof. vm_compute. repeat split; congruence. Qed.

(** C6 at a compilation that fails with the build log "err". *)
Lemma Setup_build_failure_logs_and_cleans_up_witness :
  let drv := Sample.build_fails in
  let s1 := final (newTracer drv "t1" Sample.gpu Sample.boot) in
  let o := Setup drv 16 16 (Some Sample.scene) 2 2 s1 in
  let evs := since s1 (final o) in
  unattached s1
  /\ head (omap build_code evs) = Some (-11) /\ failing (-11) = true
  /\ head (omap build_info evs) = Some ([101; 114; 114; 0], 4)
  /\ 1 <= 4 <= 120001
  /\ result o = Some (Some ErrProgramBuildFailed)
  /\ omap build_log evs = [take (Z.to_nat (4 - 1)) (build_log_buffer [101; 114; 114; 0])]
  /\ tr (final o) = torn_down (set_frameH 2 (set_frameW 2 (set_scene (Some Sample.scene) (tr s1)))).
Proof.
  cbv zeta.
  assert (H1 : unattached (final (newTracer Sample.build_fails "t1" Sample.gpu Sample.boot)))
    by (vm_compute; repeat split; reflexivity).
  assert (H2 : head (omap build_code (since (final (newTracer Sample.build_fails "t1" Sample.gpu Sample.boot))
     (final (Setup Sample.build_fails 16 16 (Some Sample.scene) 2 2 (final (newTracer Sample.build_fails "t1" Sample.gpu Sample.boot)))))) = Some (-11))
    by (vm_compute; reflexivity).
  assert (H3 : failing (-11) = true) by reflexivity.
  assert (H4 : head (omap build_info (since (final (newTracer Sample.build_fails "t1" Sample.gpu Sample.boot))
     (final (Setup Sample.build_fails 16 16 (Some Sample.scene) 2 2 (final (newTracer Sample.build_fails "t1" Sample.gpu Sample.boot)))))) = Some ([101; 114; 114; 0], 4))
    by (vm_compute; reflexivity).
  assert (H5 : 1 <= 4 <= 120001) by lia.
  pose proof (Setup_build_failure_logs_and_cleans_up Sample.build_fails 16 16
                (Some Sample.scene) 2 2 _ H1 _ _ _ H2 H3 H4 H5) as (R1 & R2 & _ & _ & R5 & _).
  exact (conj H1 (conj H2 (conj H3 (conj H4 (conj H5 (conj R1 (conj R2 R5))))))).
Defined.

(** C7 at a controller whose worker holds a request: the close of the
    channel, the worker's rendering and its answer, the end of the wait,
    then the releases. *)
Lemma Close_waits_for_worker_then_releases_witness :
  let drv := Sample.good in
  let s1 := final (newTracer drv "t1" Sample.gpu Sample.boot) in
  let s2 := final (Setup drv 16 16 (Some Sample.scene) 2 2 s1) in
  let s3 := final (Enqueue Sample.second_row s2) in
  let o := Close drv s3 in
  let evs := since s3 (final o) in
  consistent s3
  /\ workers s3 = [Busy Sample.second_row] /\ ctx (tr s3) <> None
  /\ evs =
     [ClosedCloseChan;
      Called (EnqueueWriteBuffer (Some 2) (Some 9) 1 0 64
                [1; 1; 1; 0; 2; 2; 2; 0; 3; 3; 3; 0; 4; 4; 4; 0]) (RCode 0);
      Called (SetKernelArg (Some 7) 0 8 (ArgMem (Some 8))) (RCode 0);
      Called (SetKernelArg (Some 7) 1 8 (ArgMem (Some 9))) (RCode 0);
      Called (SetKernelArg (Some 7) 2 8 (ArgMem (Some 12))) (RCode 0);
      Called (SetKernelArg (Some 7) 3 8 (ArgMem (Some 11))) (RCode 0);
      Called (SetKernelArg (Some 7) 4 4 (ArgInt 2)) (RCode 0);
      Called (SetKernelArg (Some 7) 5 16 (ArgVec (1, 2, 3, 0))) (RCode 0);
      Called (SetKernelArg (Some 7) 6 4 (ArgInt 1)) (RCode 0);
      Called (SetKernelArg (Some 7) 7 4 (ArgInt 4)) (RCode 0);
      Called (SetKernelArg (Some 7) 8 4 (ArgFloat 5)) (RCode 0);
      Called (SetKernelArg (Some 7) 9 4 (ArgInt 6)) (RCode 0);
      Called (EnqueueNDRangeKernel (Some 2) (Some 7) 2 [0; 1] [2; 1]) (RCode 0);
      Called (Finish (Some 2)) (RCode 0);
      Called (EnqueueReadBuffer (Some 2) (Some 8) 1 32 32 0%nat 8) (RCode 0);
      Sent 1%nat (inl 1); WaitedForWorkers;
      Called (ReleaseMemObject 12) (RCode 0);
      Called (ReleaseMemObject 11) (RCode 0);
      Called (ReleaseMemObject 8) (RCode 0);
      Called (ReleaseMemObject 9) (RCode 0);
      Called (ReleaseKernel 7) (RCode 0);
      Called (ReleaseProgram 5) (RCode 0);
      Called (ReleaseCommandQueue 2) (RCode 0);
      Called (ReleaseContext 1) (RCode 0)]
  /\ (exists wevs rels,
        evs = ClosedCloseChan :: wevs ++ rels /\ Forall is_render wevs /\
        ((result o = None /\ rels = [] /\
          Exists (fun w => is_busy w = true) (workers s3))
         \/
         (exists s' codes,
             o = Ok tt s' /\
             rels = WaitedForWorkers :: answered (release_plan (tr s3)) codes /\
             length codes = length (release_plan (tr s3)) /\
             Forall is_release (answered (release_plan (tr s3)) codes) /\
             Forall (fun w => w = Exited) (workers s') /\
             tr s' = torn_down (tr s3))))
  /\ (forall s', o = Ok tt s' -> consistent s' /\ Close drv s' = Ok tt s').
Proof.
  intros drv s1 s2 s3 o evs.
  assert (H : consistent s3).
  { vm_compute. repeat split; try reflexivity. intros Hc. discriminate Hc. }
  assert (H1 : workers s3 = [Busy Sample.second_row]) by (vm_compute; reflexivity).
  assert (H2 : ctx (tr s3) <> None) by (vm_compute; discriminate).
  destruct (Close_waits_for_worker_then_releases drv s3 H) as (_ & R2 & R3 & _).
  refine (conj H (conj H1 (conj H2 (conj _ (conj (R2 H2) R3))))).
  vm_compute. reflexivity.
Defined.

(** C10 at the second row of a frame of width 2^28 + 1. *)
Lemma process_copy_offset_and_length_wrap_witness :
  let w := 2 ^ 28 + 1 in
  let s1 := final (newTracer Sample.good "t1" Sample.gpu Sample.boot) in
  let s2 := final (Setup Sample.good 16 16 (Some Sample.scene) w 1 s1) in
  Called (EnqueueReadBuffer (Some 2) (Some 8) 1 16 16 0%nat 4) (RCode 0)
    ∈ since s2 (final (process Sample.good Sample.second_row s2))
  /\ 16 = (frameW (tr s2) * 4 * 4 * BlockY Sample.second_row) mod 2 ^ 32
  /\ (2 ^ 32 <= frameW (tr s2) * 4 * 4 * BlockY Sample.second_row ->
      16 <> frameW (tr s2) * 4 * 4 * BlockY Sample.second_row).
Proof.
  cbv zeta.
  assert (H : Called (EnqueueReadBuffer (Some 2) (Some 8) 1 16 16 0%nat 4) (RCode 0)
    ∈ since (final (Setup Sample.good 16 16 (Some Sample.scene) (2 ^ 28 + 1) 1 (final (newTracer Sample.good "t1" Sample.gpu Sample.boot))))
       (final (process Sample.good Sample.second_row (final (Setup Sample.good 16 16 (Some Sample.scene) (2 ^ 28 + 1) 1 (final (newTracer Sample.good "t1" Sample.gpu Sample.boot))))))).
  { vm_compute. repeat constructor. }
  split; [exact H|].
  pose proof (process_copy_offset_and_length_wrap Sample.good _ _ _ _ _ _ _ _ _ _ H)
    as (R1 & _ & _ & _ & R5 & _).
  split; [exact R1|exact R5].
Defined.

(** C2 by kind of object, at a driver that refuses every release. *)
Lemma Close_releases_in_reverse_order_of_kinds_witness :
  let drv := Sample.releases_fail in
  let s1 := final (newTracer drv "t1" Sample.gpu Sample.boot) in
  let s2 := final (Setup drv 16 16 (Some Sample.scene) 2 2 s1) in
  let s3 := final (Close drv s2) in
  newTracer drv "t1" Sample.gpu Sample.boot = Ok None s1
  /\ Setup drv 16 16 (Some Sample.scene) 2 2 s1 = Ok None s2
  /\ tr s2 = tr s2 /\ counted s2
  /\ Close drv s2 = Ok tt s3
  /\ omap releasing (since s2 s3) = in_release_order (tr s2)
  /\ map fst (omap releasing (since s2 s3)) =
     rev (map fst (omap creation (since Sample.boot s2))).
Proof.
  cbv zeta.
  assert (H1 : newTracer Sample.releases_fail "t1" Sample.gpu Sample.boot =
               Ok None (final (newTracer Sample.releases_fail "t1" Sample.gpu Sample.boot)))
    by (vm_compute; reflexivity).
  assert (H2 : Setup Sample.releases_fail 16 16 (Some Sample.scene) 2 2
                 (final (newTracer Sample.releases_fail "t1" Sample.gpu Sample.boot)) =
               Ok None (final (Setup Sample.releases_fail 16 16 (Some Sample.scene) 2 2
                 (final (newTracer Sample.releases_fail "t1" Sample.gpu Sample.boot)))))
    by (vm_compute; reflexivity).
  assert (H4 : counted (final (Setup Sample.releases_fail 16 16 (Some Sample.scene) 2 2
                 (final (newTracer Sample.releases_fail "t1" Sample.gpu Sample.boot)))))
    by (vm_compute; reflexivity).
  assert (H5 : Close Sample.releases_fail (final (Setup Sample.releases_fail 16 16 (Some Sample.scene) 2 2
                 (final (newTracer Sample.releases_fail "t1" Sample.gpu Sample.boot)))) =
               Ok tt (final (Close Sample.releases_fail (final (Setup Sample.releases_fail 16 16 (Some Sample.scene) 2 2
                 (final (newTracer Sample.releases_fail "t1" Sample.gpu Sample.boot)))))))
    by (vm_compute; reflexivity).
  pose proof (Close_releases_in_reverse_order_of_kinds Sample.releases_fail 16 16 _ _ _ _ _
                _ _ _ _ _ H1 H2 eq_refl H4 H5) as (_ & R2 & R3 & _).
  exact (conj H1 (conj H2 (conj eq_refl (conj H4 (conj H5 (conj R2 R3)))))).
Defined.

(** C3 at the second row of a frame of two columns and two rows: the 32
    bytes read fit in the render target of 16 floats from index 8 on. *)
Lemma process_copies_block_to_render_target_witness :
  let drv := Sample.good in
  let s1 := final (newTracer drv "t1" Sample.gpu Sample.boot) in
  let s2 := final (Setup drv 16 16 (Some Sample.scene) 2 2 s1) in
  let s3 := final (process drv Sample.second_row s2) in
  process drv Sample.second_row s2 = Ok None s3
  /\ hostmem s2 !! 0%nat = Some (replicate 16 0)
  /\ (Z.to_nat 8 + Z.to_nat (32 / 4) <= length (replicate 16 0))%nat
  /\ hostmem s3 !! 0%nat =
     Some (replicate 8 0 ++ [1032; 1036; 1040; 1044; 1048; 1052; 1056; 1060])
  /\ exists hist rt,
       trace s3 =
       hist ++ [Called (EnqueueReadBuffer (cmdQueue (tr s2)) (traceOutput (tr s2))
                          cl.TRUE 32 32 0%nat 8) (RCode cl.SUCCESS)] /\
       hostmem s2 !! 0%nat = Some rt /\ (Z.to_nat 8 < length rt)%nat.
Proof.
  intros drv s1 s2 s3.
  assert (H1 : process drv Sample.second_row s2 = Ok None s3) by (vm_compute; reflexivity).
  assert (H2 : hostmem s2 !! 0%nat = Some (replicate 16 0)) by (vm_compute; reflexivity).
  assert (H3 : (Z.to_nat 8 + Z.to_nat (32 / 4) <= length (replicate 16 0))%nat)
    by (vm_compute; lia).
  assert (H4 : hostmem s3 !! 0%nat =
               Some (replicate 8 0 ++ [1032; 1036; 1040; 1044; 1048; 1052; 1056; 1060]))
    by (vm_compute; reflexivity).
  destruct (proj1 (process_copies_block_to_render_target drv Sample.second_row s2) s3 H1)
    as (hist & rt & Htr & Hrt & Hlt & _).
  exact (conj H1 (conj H2 (conj H3 (conj H4
           (ex_intro _ hist (ex_intro _ rt (conj Htr (conj Hrt Hlt)))))))).
Defined.

(** C4 at a driver that answers every call with success. *)
Lemma process_binds_kernel_arguments_in_order_witness :
  let drv := Sample.good in
  let s1 := final (newTracer drv "t1" Sample.gpu Sample.boot) in
  let s2 := final (Setup drv 16 16 (Some Sample.scene) 2 2 s1) in
  let o := process drv Sample.second_row s2 in
  let evs := since s2 (final o) in
  let abi := kernel_abi (tr s2) Sample.scene Sample.second_row in
  let k := traceKernel (tr s2) in
  scene (tr s2) = Some Sample.scene
  /\ abi = [ (0, 8, ArgMem (Some 8)); (1, 8, ArgMem (Some 9));
             (2, 8, ArgMem (Some 12)); (3, 8, ArgMem (Some 11));
             (4, 4, ArgInt 2); (5, 16, ArgVec (1, 2, 3, 0)); (6, 4, ArgInt 1);
             (7, 4, ArgInt 4); (8, 4, ArgFloat 5); (9, 4, ArgInt 6) ]
  /\ bindings evs = map (fun a => (k, a.1.1, a.1.2, a.2, cl.SUCCESS)) abi
  /\ exists code0 rest,
       evs = Called (EnqueueWriteBuffer (cmdQueue (tr s2)) (frustrumCorners (tr s2))
                       cl.TRUE 0 64 (frustrum_words (SceneCamera Sample.scene)))
               (RCode code0) :: rest
       /\ (failing code0 = true ->
           bindings rest = [] /\ existsb is_dispatch rest = false)
       /\ (failing code0 = false ->
           exists n tail,
             rest = map (fun a => bound k a cl.SUCCESS) (take n abi) ++ tail /\
             ((exists a c,
                  abi !! n = Some a /\ failing c = true /\
                  tail = [bound k a c; Logged (LogKernelArgFailed a.1.1)] /\
                  result o = Some (Some ErrSettingKernelArguments))
              \/
              (n = 10%nat /\
               exists cd tail',
                 tail = Called (EnqueueNDRangeKernel (cmdQueue (tr s2)) k 2
                                  [0; BlockY Sample.second_row]
                                  [frameW (tr s2); BlockH Sample.second_row])
                          (RCode cd) :: tail' /\
                 bindings tail' = [] /\ existsb is_dispatch tail' = false))).
Proof.
  intros drv s1 s2 o evs abi k.
  assert (H1 : scene (tr s2) = Some Sample.scene) by (vm_compute; reflexivity).
  assert (H2 : abi = [ (0, 8, ArgMem (Some 8)); (1, 8, ArgMem (Some 9));
             (2, 8, ArgMem (Some 12)); (3, 8, ArgMem (Some 11));
             (4, 4, ArgInt 2); (5, 16, ArgVec (1, 2, 3, 0)); (6, 4, ArgInt 1);
             (7, 4, ArgInt 4); (8, 4, ArgFloat 5); (9, 4, ArgInt 6) ])
    by (vm_compute; reflexivity).
  assert (H3 : bindings evs = map (fun a => (k, a.1.1, a.1.2, a.2, cl.SUCCESS)) abi)
    by (vm_compute; reflexivity).
  exact (conj H1 (conj H2 (conj H3
           (process_binds_kernel_arguments_in_order drv Sample.second_row s2
              Sample.scene H1)))).
Defined.

(** C9 at a scene without material and with two primitives, with records
    of 16 bytes: no image for the materials, one image of width 2 for the
    primitives. *)
Lemma Setup_allocates_images_for_packed_data_witness :
  let drv := Sample.no_materials in
  let prims := [[5; 6; 7; 8]; [9; 9; 9; 9]] in
  let s1 := final (newTracer drv "t1" Sample.gpu Sample.boot) in
  let o := Setup drv 16 16 (Some Sample.scene) 2 2 s1 in
  let evs := since s1 (final o) in
  result o = Some None
  /\ omap packed_of evs = [([], prims)]
  /\ omap image_of evs =
     [(Z.lor cl.MEM_READ_ONLY cl.MEM_COPY_HOST_PTR,
       {| cl.ChannelOrder := cl.RGBA; cl.ChannelType := cl.FLOAT |},
       {| cl.ImageType := cl.MEM_OBJECT_IMAGE1D; cl.ImageWidth := 2;
          cl.ImageRowPitch := 32 |},
       HostPrimitives prims)]
  /\ omap image_of evs =
     image_request 16 16 HostMaterials [] ++ image_request 16 16 HostPrimitives prims
  /\ (forall c flags fmt desc l r,
        Called (CreateImage c flags fmt desc (HostMaterials l)) r ∉ evs)
  /\ (exists c desc r,
        Called (CreateImage c (Z.lor cl.MEM_READ_ONLY cl.MEM_COPY_HOST_PTR)
                  {| cl.ChannelOrder := cl.RGBA; cl.ChannelType := cl.FLOAT |}
                  desc (HostPrimitives prims)) r ∈ evs).
Proof.
  intros drv prims s1 o evs.
  assert (H1 : result o = Some None) by (vm_compute; reflexivity).
  assert (H2 : omap packed_of evs = [([], prims)]) by (vm_compute; reflexivity).
  assert (H3 : omap image_of evs =
     [(Z.lor cl.MEM_READ_ONLY cl.MEM_COPY_HOST_PTR,
       {| cl.ChannelOrder := cl.RGBA; cl.ChannelType := cl.FLOAT |},
       {| cl.ImageType := cl.MEM_OBJECT_IMAGE1D; cl.ImageWidth := 2;
          cl.ImageRowPitch := 32 |},
       HostPrimitives prims)]) by (vm_compute; reflexivity).
  pose proof (Setup_allocates_images_for_packed_data drv 16 16 (Some Sample.scene) 2 2 s1)
    as H.
  cbv zeta in H. fold o in H. fold evs in H. rewrite H2 in H.
  destruct H as (_ & R2 & R3 & _ & _ & R6 & _).
  assert (Hne : prims <> []) by discriminate.
  exact (conj H1 (conj H2 (conj H3 (conj R2 (conj (R3 eq_refl) (R6 Hne)))))).
Defined.

(** X1 at the second row of a frame of two columns. *)
Lemma process_success_makes_the_render_calls_witness :
  let s1 := final (newTracer Sample.good "t1" Sample.gpu Sample.boot) in
  let s2 := final (Setup Sample.good 16 16 (Some Sample.scene) 2 2 s1) in
  let s3 := final (process Sample.good Sample.second_row s2) in
  process Sample.good Sample.second_row s2 = Ok None s3
  /\ exists sc, scene (tr s2) = Some sc /\
       since s2 s3 = map (fun c => Called c (RCode cl.SUCCESS))
                         (render_calls (tr s2) sc Sample.second_row) /\
       tr s3 = tr s2 /\ workers s3 = workers s2.
Proof.
  cbv zeta.
  assert (H : process Sample.good Sample.second_row
                (final (Setup Sample.good 16 16 (Some Sample.scene) 2 2
                   (final (newTracer Sample.good "t1" Sample.gpu Sample.boot)))) =
              Ok None (final (process Sample.good Sample.second_row
                (final (Setup Sample.good 16 16 (Some Sample.scene) 2 2
                   (final (newTracer Sample.good "t1" Sample.gpu Sample.boot)))))))
    by (vm_compute; reflexivity).
  exact (conj H (process_success_makes_the_render_calls Sample.good _ _ _ H)).
Defined.

(** X2 at a kernel that runs into an error. *)
Lemma process_error_is_the_first_failing_call_witness :
  let s1 := final (newTracer Sample.finish_fails "t1" Sample.gpu Sample.boot) in
  let s2 := final (Setup Sample.finish_fails 16 16 (Some Sample.scene) 2 2 s1) in
  let s3 := final (process Sample.finish_fails Sample.second_row s2) in
  process Sample.finish_fails Sample.second_row s2 = Ok (Some ErrKernelExecutionFailed) s3
  /\ hostmem s3 = hostmem s2.
Proof.
  cbv zeta.
  assert (H : process Sample.finish_fails Sample.second_row
                (final (Setup Sample.finish_fails 16 16 (Some Sample.scene) 2 2
                   (final (newTracer Sample.finish_fails "t1" Sample.gpu Sample.boot)))) =
              Ok (Some ErrKernelExecutionFailed)
                (final (process Sample.finish_fails Sample.second_row
                (final (Setup Sample.finish_fails 16 16 (Some Sample.scene) 2 2
                   (final (newTracer Sample.finish_fails "t1" Sample.gpu Sample.boot)))))))
    by (vm_compute; reflexivity).
  destruct (process_error_is_the_first_failing_call Sample.finish_fails _ _ _ _ H)
    as (sc & n & c & code & _ & _ & _ & _ & _ & _ & Hm & _).
  exact (conj H Hm).
Defined.

(** X3 at the third row of a frame of two columns and two rows, with a
    render target of 16 floats. *)
Lemma process_render_target_too_short_witness :
  let s1 := final (newTracer Sample.good "t1" Sample.gpu Sample.boot) in
  let s2 := final (Setup Sample.good 16 16 (Some Sample.scene) 2 2 s1) in
  let o := process Sample.good Sample.third_row s2 in
  len (default [] (hostmem s2 !! RenderTarget Sample.third_row)) <=
    ((frameW (tr s2) * 4 * 4 * BlockY Sample.third_row) mod 2 ^ 32) / 4
  /\ result o <> Some None
  /\ omap read_args (since s2 (final o)) = []
  /\ hostmem (final o) = hostmem s2.
Proof.
  cbv zeta.
  assert (H : len (default [] (hostmem (final (Setup Sample.good 16 16 (Some Sample.scene) 2 2
                   (final (newTracer Sample.good "t1" Sample.gpu Sample.boot))))
                 !! RenderTarget Sample.third_row)) <=
              ((frameW (tr (final (Setup Sample.good 16 16 (Some Sample.scene) 2 2
                   (final (newTracer Sample.good "t1" Sample.gpu Sample.boot))))) * 4 * 4 *
                BlockY Sample.third_row) mod 2 ^ 32) / 4)
    by (vm_compute; discriminate).
  destruct (process_render_target_too_short Sample.good Sample.third_row _ H)
    as (R1 & R2 & R3 & _).
  exact (conj H (conj R1 (conj R2 R3))).
Defined.

(** X4 at the worker that [Setup] has started. *)
Lemma handed_over_request_is_answered_once_witness :
  let s1 := final (newTracer Sample.good "t1" Sample.gpu Sample.boot) in
  let s2 := final (Setup Sample.good 16 16 (Some Sample.scene) 2 2 s1) in
  workers s2 !! 0%nat = Some Listening
  /\ (forall j, (j < 0)%nat -> workers s2 !! j <> Some Listening)
  /\ exists s3, Enqueue Sample.second_row s2 = Ok tt s3 /\
       workers s3 !! 0%nat = Some (Busy Sample.second_row).
Proof.
  cbv zeta.
  assert (H : workers (final (Setup Sample.good 16 16 (Some Sample.scene) 2 2
                 (final (newTracer Sample.good "t1" Sample.gpu Sample.boot)))) !! 0%nat =
              Some Listening) by (vm_compute; reflexivity).
  assert (H' : forall j, (j < 0)%nat ->
                 workers (final (Setup Sample.good 16 16 (Some Sample.scene) 2 2
                   (final (newTracer Sample.good "t1" Sample.gpu Sample.boot)))) !! j <>
                 Some Listening) by (intros j Hj; lia).
  destruct (handed_over_request_is_answered_once Sample.good Sample.second_row 0%nat _ H H')
    as (s3 & R1 & R2 & _).
  exact (conj H (conj H' (ex_intro _ s3 (conj R1 R2)))).
Defined.

(** X6 at a kernel file that is not there. *)
Lemma Setup_returns_only_these_errors_witness :
  let drv := Sample.no_kernel_file in
  let s1 := final (newTracer drv "t1" Sample.gpu Sample.boot) in
  let o := Setup drv 16 16 (Some Sample.scene) 2 2 s1 in
  let err := ErrForeign "no such file or directory" in
  result o = Some (Some err)
  /\ (err = ErrAlreadyAttached \/ err = ErrProgramBuildFailed
      \/ err = ErrCopyingDataToDevice
      \/ err ∈ omap file_error (since s1 (final o))
      \/ err ∈ omap pack_error (since s1 (final o))).
Proof.
  cbv zeta.
  assert (H : result (Setup Sample.no_kernel_file 16 16 (Some Sample.scene) 2 2
                (final (newTracer Sample.no_kernel_file "t1" Sample.gpu Sample.boot))) =
              Some (Some (ErrForeign "no such file or directory")))
    by (vm_compute; reflexivity).
  exact (conj H (Setup_returns_only_these_errors Sample.no_kernel_file 16 16
                   (Some Sample.scene) 2 2 _ _ H)).
Defined.

(** X7 at a kernel file that is not there. *)
Lemma Setup_without_kernel_file_touches_no_device_witness :
  let drv := Sample.no_kernel_file in
  let s1 := final (newTracer drv "t1" Sample.gpu Sample.boot) in
  let o := Setup drv 16 16 (Some Sample.scene) 2 2 s1 in
  let err := ErrForeign "no such file or directory" in
  err ∈ omap file_error (since s1 (final o))
  /\ exists s', o = Ok (Some err) s'
       /\ tr s' = set_frameH 2 (set_frameW 2 (set_scene (Some Sample.scene) (tr s1)))
       /\ workers s' = workers s1 /\ hostmem s' = hostmem s1
       /\ Forall (fun e => device_call e = false) (since s1 (final o)).
Proof.
  cbv zeta.
  assert (H : ErrForeign "no such file or directory" ∈
              omap file_error
                (since (final (newTracer Sample.no_kernel_file "t1" Sample.gpu Sample.boot))
                   (final (Setup Sample.no_kernel_file 16 16 (Some Sample.scene) 2 2
                      (final (newTracer Sample.no_kernel_file "t1" Sample.gpu Sample.boot))))))
    by (vm_compute; apply elem_of_cons; left; reflexivity).
  exact (conj H (Setup_without_kernel_file_touches_no_device Sample.no_kernel_file 16 16
                   (Some Sample.scene) 2 2 _ _ H)).
Defined.

(** X9 at a controller that was attached and closed. *)
Lemma Setup_without_context_never_attaches_witness :
  let drv := Sample.good in
  let s1 := final (newTracer drv "t1" Sample.gpu Sample.boot) in
  let s2 := final (Setup drv 16 16 (Some Sample.scene) 2 2 s1) in
  let s3 := final (Close drv s2) in
  let o := Setup drv 16 16 (Some Sample.scene) 2 2 s3 in
  ctx (tr s3) = None
  /\ result o <> Some None
  /\ Forall (fun e => device_call e = false) (since s3 (final o))
  /\ workers (final o) = workers s3.
Proof.
  cbv zeta.
  assert (H : ctx (tr (final (Close Sample.good
                (final (Setup Sample.good 16 16 (Some Sample.scene) 2 2
                   (final (newTracer Sample.good "t1" Sample.gpu Sample.boot))))))) = None)
    by (vm_compute; reflexivity).
  destruct (Setup_without_context_never_attaches Sample.good 16 16
              (Some Sample.scene) 2 2 _ H) as (R1 & _ & R2 & R3 & _).
  exact (conj H (conj R1 (conj R2 R3))).
Defined.

(** X10 at a driver that answers every call with success. *)
Lemma Setup_success_attaches_witness :
  let drv := Sample.good in
  let s1 := final (newTracer drv "t1" Sample.gpu Sample.boot) in
  let s2 := final (Setup drv 16 16 (Some Sample.scene) 2 2 s1) in
  Setup drv 16 16 (Some Sample.scene) 2 2 s1 = Ok None s2
  /\ scene (tr s2) = Some Sample.scene /\ frameW (tr s2) = 2 /\ frameH (tr s2) = 2
  /\ workers s2 = workers s1 ++ [Listening].
Proof.
  cbv zeta.
  assert (H : Setup Sample.good 16 16 (Some Sample.scene) 2 2
                (final (newTracer Sample.good "t1" Sample.gpu Sample.boot)) =
              Ok None (final (Setup Sample.good 16 16 (Some Sample.scene) 2 2
                (final (newTracer Sample.good "t1" Sample.gpu Sample.boot)))))
    by (vm_compute; reflexivity).
  destruct (Setup_success_attaches Sample.good 16 16 (Some Sample.scene) 2 2 _ _ H)
    as (R1 & R2 & R3 & _ & _ & _ & _ & _ & _ & R10 & _).
  exact (conj H (conj R1 (conj R2 (conj R3 R10)))).
Defined.

(** X11 at a compilation that fails with a build log of no byte. *)
Lemma Setup_build_log_slice_panics_witness :
  let drv := Sample.build_fails_without_log in
  let s1 := final (newTracer drv "t1" Sample.gpu Sample.boot) in
  let o := Setup drv 16 16 (Some Sample.scene) 2 2 s1 in
  let evs := since s1 (final o) in
  head (omap build_code evs) = Some (-11) /\ failing (-11) = true
  /\ head (omap build_info evs) = Some ([], 0)
  /\ (0 = 0 \/ 120001 < 0 < 2 ^ 64)
  /\ (exists s', o = Crash SliceBoundsOutOfRange s')
  /\ omap build_log evs = [] /\ omap releasing evs = [].
Proof.
  cbv zeta.
  assert (H1 : head (omap build_code
                 (since (final (newTracer Sample.build_fails_without_log "t1" Sample.gpu Sample.boot))
                    (final (Setup Sample.build_fails_without_log 16 16 (Some Sample.scene) 2 2
                       (final (newTracer Sample.build_fails_without_log "t1" Sample.gpu Sample.boot)))))) =
               Some (-11)) by (vm_compute; reflexivity).
  assert (H2 : failing (-11) = true) by reflexivity.
  assert (H3 : head (omap build_info
                 (since (final (newTracer Sample.build_fails_without_log "t1" Sample.gpu Sample.boot))
                    (final (Setup Sample.build_fails_without_log 16 16 (Some Sample.scene) 2 2
                       (final (newTracer Sample.build_fails_without_log "t1" Sample.gpu Sample.boot)))))) =
               Some ([], 0)) by (vm_compute; reflexivity).
  assert (H4 : 0 = 0 \/ 120001 < 0 < 2 ^ 64) by (left; reflexivity).
  destruct (Setup_build_log_slice_panics Sample.build_fails_without_log 16 16
              (Some Sample.scene) 2 2 _ _ _ _ H1 H2 H3 H4) as (R1 & R2 & R3 & _).
  exact (conj H1 (conj H2 (conj H3 (conj H4 (conj R1 (conj R2 R3)))))).
Defined.

(** X12 at a controller that [Setup] has attached. *)
Lemma SyncScene_uploads_the_frustum_witness :
  let drv := Sample.good in
  let s1 := final (newTracer drv "t1" Sample.gpu Sample.boot) in
  let s2 := final (Setup drv 16 16 (Some Sample.scene) 2 2 s1) in
  mu (tr s2) = false /\ ctx (tr s2) <> None /\ scene (tr s2) = Some Sample.scene
  /\ exists code s',
       SyncScene drv s2 =
         Ok (if failing code then Some ErrCopyingDataToDevice else None) s'
       /\ tr s' = tr s2.
Proof.
  cbv zeta.
  assert (H1 : mu (tr (final (Setup Sample.good 16 16 (Some Sample.scene) 2 2
                  (final (newTracer Sample.good "t1" Sample.gpu Sample.boot))))) = false)
    by (vm_compute; reflexivity).
  assert (H2 : ctx (tr (final (Setup Sample.good 16 16 (Some Sample.scene) 2 2
                  (final (newTracer Sample.good "t1" Sample.gpu Sample.boot))))) <> None)
    by (vm_compute; discriminate).
  assert (H3 : scene (tr (final (Setup Sample.good 16 16 (Some Sample.scene) 2 2
                  (final (newTracer Sample.good "t1" Sample.gpu Sample.boot))))) =
               Some Sample.scene)
    by (vm_compute; reflexivity).
  destruct (SyncScene_uploads_the_frustum Sample.good _ _ H1 H2 H3)
    as (code & s' & R1 & _ & _ & R4 & _).
  exact (conj H1 (conj H2 (conj H3 (ex_intro _ code (ex_intro _ s' (conj R1 R4)))))).
Defined.

(** X13 at a controller that was attached and closed. *)
Lemma reachable_states_are_settled_witness :
  let drv := Sample.good in
  let s1 := final (newTracer drv "t1" Sample.gpu Sample.boot) in
  let s2 := final (Setup drv 16 16 (Some Sample.scene) 2 2 s1) in
  let s3 := final (Close drv s2) in
  reachable drv 16 16 s3
  /\ mu (tr s3) = false /\ wg (tr s3) = live_workers (workers s3)
  /\ (closeChan (tr s3) = true <-> ctx (tr s3) = None).
Proof.
  intros drv s1 s2 s3.
  assert (H : reachable drv 16 16 s3).
  { apply (reachable_step _ _ _ s2 s3).
    - apply (reachable_step _ _ _ s1 s2).
      + apply (reachable_new _ _ _ "t1" Sample.gpu Sample.boot). vm_compute. reflexivity.
      + apply (step_Setup _ _ _ (Some Sample.scene) 2 2 None). vm_compute. reflexivity.
    - apply step_Close. vm_compute. reflexivity. }
  destruct (reachable_states_are_settled drv 16 16 s3 H) as (R1 & R2 & R3 & _).
  exact (conj H (conj R1 (conj R2 R3))).
Defined.

(** X14 at a controller that [Setup] has attached. *)
Lemma Close_is_final_witness :
  let drv := Sample.good in
  let s1 := final (newTracer drv "t1" Sample.gpu Sample.boot) in
  let s2 := final (Setup drv 16 16 (Some Sample.scene) 2 2 s1) in
  let s3 := final (Close drv s2) in
  reachable drv 16 16 s2 /\ Close drv s2 = Ok tt s3
  /\ ctx (tr s3) = None
  /\ (forall blockReq, Enqueue blockReq s3 = Ok tt s3)
  /\ SyncScene drv s3 = Ok (Some ErrPendingSetup) s3.
Proof.
  intros drv s1 s2 s3.
  assert (H : reachable drv 16 16 s2).
  { apply (reachable_step _ _ _ s1 s2).
    - apply (reachable_new _ _ _ "t1" Sample.gpu Sample.boot). vm_compute. reflexivity.
    - apply (step_Setup _ _ _ (Some Sample.scene) 2 2 None). vm_compute. reflexivity. }
  assert (H' : Close drv s2 = Ok tt s3) by (vm_compute; reflexivity).
  exact (conj H (conj H' (Close_is_final drv 16 16 s2 s3 H H'))).
Defined.

(** X15 at a driver that answers every call with success. *)
Lemma Setup_stores_what_it_creates_witness :
  let drv := Sample.good in
  let s1 := final (newTracer drv "t1" Sample.gpu Sample.boot) in
  let s2 := final (Setup drv 16 16 (Some Sample.scene) 2 2 s1) in
  Setup drv 16 16 (Some Sample.scene) 2 2 s1 = Ok None s2
  /\ Called (CreateBuffer 1 cl.MEM_WRITE_ONLY 64) (RHandle (Some 8)) ∈ since s1 s2
  /\ field_of (CreateBuffer 1 cl.MEM_WRITE_ONLY 64) = Some traceOutput
  /\ traceOutput (tr s2) = Some 8.
Proof.
  intros drv s1 s2.
  assert (H1 : Setup drv 16 16 (Some Sample.scene) 2 2 s1 = Ok None s2)
    by (vm_compute; reflexivity).
  assert (H2 : Called (CreateBuffer 1 cl.MEM_WRITE_ONLY 64) (RHandle (Some 8)) ∈ since s1 s2)
    by (vm_compute; do 5 (apply elem_of_cons; right); apply elem_of_cons; left; reflexivity).
  assert (H3 : field_of (CreateBuffer 1 cl.MEM_WRITE_ONLY 64) = Some traceOutput)
    by reflexivity.
  exact (conj H1 (conj H2 (conj H3
           (Setup_stores_what_it_creates drv 16 16 (Some Sample.scene) 2 2 s1 s2 H1
              _ _ _ H2 H3)))).
Defined.

(** X16 at an upload of the frustum that is refused. *)
Lemma Setup_failure_releases_everything_witness :
  let drv := Sample.upload_fails in
  let s1 := final (newTracer drv "t1" Sample.gpu Sample.boot) in
  let o := Setup drv 16 16 (Some Sample.scene) 2 2 s1 in
  let evs := since s1 (final o) in
  unattached s1
  /\ result o = Some (Some ErrCopyingDataToDevice)
  /\ omap file_error evs = []
  /\ tr (final o) =
     torn_down (set_frameH 2 (set_frameW 2 (set_scene (Some Sample.scene) (tr s1))))
  /\ map snd (omap releasing evs) ≡ₚ
     option_list (ctx (tr s1)) ++ option_list (cmdQueue (tr s1)) ++
     map snd (omap creation evs)
  /\ workers (final o) = [].
Proof.
  intros drv s1 o evs.
  assert (H1 : unattached s1) by (vm_compute; repeat split; reflexivity).
  assert (H2 : result o = Some (Some ErrCopyingDataToDevice)) by (vm_compute; reflexivity).
  assert (H3 : omap file_error evs = []) by (vm_compute; reflexivity).
  exact (conj H1 (conj H2 (conj H3
           (Setup_failure_releases_everything drv 16 16 (Some Sample.scene) 2 2 s1
              ErrCopyingDataToDevice H1 H2 H3)))).
Defined.

(** X17 at a controller that was attached and closed. *)
Lemma Id_is_the_id_given_to_newTracer_witness :
  let drv := Sample.good in
  let s1 := final (newTracer drv "t1" Sample.gpu Sample.boot) in
  let s2 := final (Setup drv 16 16 (Some Sample.scene) 2 2 s1) in
  let s3 := final (Close drv s2) in
  newTracer drv "t1" Sample.gpu Sample.boot = Ok None s1
  /\ later drv 16 16 s1 s3
  /\ Id s3 = Ok "t1"%string s3 /\ device (tr s3) = Sample.gpu.
Proof.
  intros drv s1 s2 s3.
  assert (H1 : newTracer drv "t1" Sample.gpu Sample.boot = Ok None s1)
    by (vm_compute; reflexivity).
  assert (H2 : later drv 16 16 s1 s3).
  { apply (rtc_l _ s1 s2 s3).
    - apply (step_Setup _ _ _ (Some Sample.scene) 2 2 None). vm_compute. reflexivity.
    - apply (rtc_l _ s2 s3 s3); [|apply rtc_refl].
      apply step_Close. vm_compute. reflexivity. }
  exact (conj H1 (conj H2
           (Id_is_the_id_given_to_newTracer drv 16 16 "t1" Sample.gpu Sample.boot s1 s3 H1 H2))).
Defined.

(** X18 at a driver that answers every call with success. *)
Lemma second_Setup_is_refused_when_the_kernel_was_created_witness :
  let drv := Sample.good in
  let s1 := final (newTracer drv "t1" Sample.gpu Sample.boot) in
  let s2 := final (Setup drv 16 16 (Some Sample.scene) 2 2 s1) in
  let name := ("tracePixel" ++ String "000"%char EmptyString)%string in
  Setup drv 16 16 (Some Sample.scene) 2 2 s1 = Ok None s2
  /\ Called (CreateKernel (Some 5) name) (RHandle (Some 7)) ∈ since s1 s2
  /\ Setup drv 16 16 None 4 4 s2 = Ok (Some ErrAlreadyAttached) s2.
Proof.
  intros drv s1 s2 name.
  assert (H1 : Setup drv 16 16 (Some Sample.scene) 2 2 s1 = Ok None s2)
    by (vm_compute; reflexivity).
  assert (H2 : Called (CreateKernel (Some 5) name) (RHandle (Some 7)) ∈ since s1 s2)
    by (vm_compute; do 4 (apply elem_of_cons; right); apply elem_of_cons; left; reflexivity).
  exact (conj H1 (conj H2
           (second_Setup_is_refused_when_the_kernel_was_created drv 16 16
              (Some Sample.scene) None 2 2 4 4 s1 s2 (Some 5) name 7 H1 H2))).
Defined.

(** X19 at a request for no row. *)
Lemma process_of_an_empty_block_copies_nothing_witness :
  let drv := Sample.good in
  let s1 := final (newTracer drv "t1" Sample.gpu Sample.boot) in
  let s2 := final (Setup drv 16 16 (Some Sample.scene) 2 2 s1) in
  let s3 := final (process drv Sample.no_row s2) in
  BlockH Sample.no_row = 0
  /\ process drv Sample.no_row s2 = Ok None s3
  /\ hostmem s3 = hostmem s2.
Proof.
  intros drv s1 s2 s3.
  assert (H1 : BlockH Sample.no_row = 0) by reflexivity.
  assert (H2 : process drv Sample.no_row s2 = Ok None s3) by (vm_compute; reflexivity).
  exact (conj H1 (conj H2
           (proj1 (process_of_an_empty_block_copies_nothing drv Sample.no_row s2 s3 H1 H2)))).
Defined.
